(** * Pamir AI I2C sound driver (TLV320AIC3204 codec control)

    A shallow embedding of [pamir-ai-i2c-sound-main.c]: the register
    initialisation table, the volume and input-gain curves in both
    directions, the raw register access handlers and [probe].  The
    repository carries two revisions of the driver; they differ in the
    initialisation table and in the input-gain mapping only.  The common
    code is embedded once, the revised input-gain code and table at top
    level, and the earlier revision in [Module Legacy]. *)

From stdpp Require Import base numbers list gmap strings pretty.

Local Open Scope Z_scope.

(** ** C integer conventions *)

(** Conversion of an [int] to [u8] (assignment to a [u8] variable, passing
    a [u8] argument): reduction modulo 256. *)
Definition to_u8 (x : Z) : Z := x `mod` 256.

(** [int] division truncates toward zero, which is [Z.quot] (written [÷]).
    Bit operations are [Z.land] and [Z.lor]. *)

(** A C condition [if (x & m)] is true when the masked value is non-zero. *)
Definition c_true (x : Z) : bool := negb (x =? 0).

(** Kernel error numbers used by the driver ([-EINVAL], [-ENOMEM]). *)
Definition EINVAL : Z := 22.
Definition ENOMEM : Z := 12.

(** ** Data *)

(** [struct reg_val]: a register address and the value written to it. *)
Record reg_val := RV { reg : Z; val : Z }.

(** [struct pamir_ai_i2c_sound_data], the cached percentages.  The [client]
    and [dev] pointers are the bus and kernel log of [driver_state] below. *)
Record pamir_ai_i2c_sound_data := Data { volume : Z; input_gain : Z }.

(** ** Volume curve (the arithmetic of [pamir_ai_i2c_sound_set_volume] and
    [pamir_ai_i2c_sound_get_volume]) *)

(** The clamp at the head of both setters.  The parameter is a [u8], so
    the second test never fires; it is kept as written. *)
Definition clamp_percent (p : Z) : Z :=
  if p >? 100 then 100 else if p <? 0 then 0 else p.

(** Percentage to (headphone gain byte, DAC byte): the [if (volume == 0)]
    cascade of [set_volume], on the clamped [u8] volume. *)
Definition encode_volume (volume : Z) : Z * Z :=
  if volume =? 0 then
    (0x40, 0x00)
  else
    let hp_val := 0x00 in
    if volume <=? 20 then
      (to_u8 (Z.lor hp_val (0x3A - ((volume - 1) * (0x3A - 0x00)) ÷ 19)), 0xA0)
    else if volume <=? 60 then
      (to_u8 (Z.lor hp_val (((volume - 21) * 0x14) ÷ 39)), 0x00)
    else
      let hp_val := to_u8 (Z.lor hp_val (0x14 + ((volume - 61) * (0x1D - 0x14)) ÷ 39)) in
      if volume >? 90 then
        (hp_val, to_u8 (0x04 + ((volume - 91) * (0x10 - 0x04)) ÷ 9))
      else
        (hp_val, 0x00).

(** The best guess of [get_volume] when no tier matches, from the gain bits
    alone. *)
Definition volume_fallback (hp_val : Z) : Z :=
  if hp_val <=? 0x00 then 21
  else if hp_val <=? 0x14 then to_u8 (21 + (hp_val * 39) ÷ 0x14)
  else if hp_val <=? 0x1D then to_u8 (61 + ((hp_val - 0x14) * 39) ÷ (0x1D - 0x14))
  else 20.

(** The tier cascade of [get_volume] (the [else] branch of
    [if (is_muted)]), on the gain bits and the DAC byte. *)
Definition volume_tiers (hp_val dac_val : Z) : Z :=
  if (dac_val >=? 0x04) && (dac_val <=? 0x10) then
    to_u8 (91 + ((dac_val - 0x04) * 9) ÷ (0x10 - 0x04))
  else if (hp_val >=? 0x14) && (hp_val <=? 0x1D) then
    let volume := to_u8 (61 + ((hp_val - 0x14) * 39) ÷ (0x1D - 0x14)) in
    if volume >? 90 then 90 else volume
  else if (hp_val <=? 0x14) && (dac_val =? 0x00) then
    to_u8 (21 + (hp_val * 39) ÷ 0x14)
  else if (hp_val >=? 0x00) && (hp_val <=? 0x3A) && (dac_val =? 0xA0) then
    to_u8 (1 + ((0x3A - hp_val) * 19) ÷ (0x3A - 0x00))
  else volume_fallback hp_val.

(** (headphone gain byte, DAC byte) to percentage: [get_volume] from the
    mute test to the final [if (volume > 100)], on the two bytes read. *)
Definition decode_volume (hp_byte dac_val : Z) : Z :=
  let is_muted := c_true (Z.land hp_byte 0x40) in
  let hp_val := to_u8 (Z.land hp_byte 0x3F) in
  let volume := if is_muted then 0 else volume_tiers hp_val dac_val in
  if volume >? 100 then 100 else volume.

(** ** Input gain curve, revised driver
    ([pamir_ai_i2c_sound_set_input_gain] / [..._get_input_gain]) *)

Definition encode_gain (gain : Z) : Z :=
  if gain <? 20 then to_u8 (0x68 - (gain * (0x68 - 0x29)) ÷ 19)
  else to_u8 (((gain - 20) * 0x28) ÷ 80).

(** [ret] is the non-negative result of the register read. *)
Definition decode_gain (ret : Z) : Z :=
  let adc_val := to_u8 (Z.land ret 0x7F) in
  if adc_val >=? 0x68 then 0
  else if adc_val <=? 0x28 then to_u8 (20 + (adc_val * 80) ÷ 0x28)
  else to_u8 (((0x68 - adc_val) * 19) ÷ (0x68 - 0x29)).

(** ** The register bus

    The transport is an external collaborator.  It is modelled as a
    scripted device: [pending] lists the outcome of each coming transfer
    ([Some e]: the transfer fails with [-e]; [None], or an exhausted script:
    it succeeds), [xfers] records every transfer attempted, oldest first,
    and [page]/[regs] are the device behind the bus: register 0 of every
    page is the page select, any other register keeps the byte last
    written to it on the selected page. *)

Inductive xfer :=
  | XWrite (command value : Z)
  | XRead (command : Z).

Record i2c_client := Client {
  page : Z;
  regs : gmap (Z * Z) Z;
  pending : list (option positive);
  xfers : list xfer
}.

Definition next_outcome (p : list (option positive)) : option positive * list (option positive) :=
  match p with
  | [] => (None, [])
  | o :: rest => (o, rest)
  end.

Definition device_write (command value : Z) (c : i2c_client) : Z * gmap (Z * Z) Z :=
  if command =? 0 then (value, regs c)
  else (page c, <[(page c, command) := value]> (regs c)).

Definition device_read (command : Z) (c : i2c_client) : Z :=
  to_u8 (if command =? 0 then page c
         else default 0 (regs c !! (page c, command))).

(** [s32 i2c_smbus_write_byte_data(client, u8 command, u8 value)]. *)
Definition smbus_write (command value : Z) (c : i2c_client) : Z * i2c_client :=
  let command := to_u8 command in
  let value := to_u8 value in
  let log := xfers c ++ [XWrite command value] in
  match next_outcome (pending c) with
  | (Some e, rest) => (Z.neg e, Client (page c) (regs c) rest log)
  | (None, rest) =>
      let '(pg, rs) := device_write command value c in (0, Client pg rs rest log)
  end.

(** [s32 i2c_smbus_read_byte_data(client, u8 command)]. *)
Definition smbus_read (command : Z) (c : i2c_client) : Z * i2c_client :=
  let command := to_u8 command in
  let log := xfers c ++ [XRead command] in
  match next_outcome (pending c) with
  | (Some e, rest) => (Z.neg e, Client (page c) (regs c) rest log)
  | (None, rest) => (device_read command c, Client (page c) (regs c) rest log)
  end.

(** ** Driver state and the driver monad *)

Inductive klevel := KERN_ERR | KERN_INFO.

(** A [dev_err]/[dev_info] call: format string and arguments. *)
Record kmsg := Kmsg { level : klevel; fmt : string; args : list Z }.

Record driver_state := State {
  data : pamir_ai_i2c_sound_data;
  client : i2c_client;
  dmesg : list kmsg;
  sysfs_group : bool
}.

Definition drv (A : Type) : Type := driver_state -> A * driver_state.

Definition pure {A} (a : A) : drv A := fun s => (a, s).

Definition bind {A B} (m : drv A) (k : A -> drv B) : drv B :=
  fun s => let '(a, s') := m s in k a s'.

Declare Scope drv_scope.
Delimit Scope drv_scope with drv.
Bind Scope drv_scope with drv.

Notation "x <- m ;; k" := (bind m (fun x => k))
  (at level 100, m at next level, right associativity) : drv_scope.
Notation "m ;; k" := (bind m (fun _ => k))
  (at level 100, right associativity) : drv_scope.
(** The C idiom [x = f(...); if (x < 0) return x;]. *)
Notation "x <-! m ;; k" := (bind m (fun x => if x <? 0 then pure x else k))
  (at level 100, m at next level, right associativity) : drv_scope.
Notation "'try!' m ;; k" := (bind m (fun r => if r <? 0 then pure r else k))
  (at level 100, m at next level, right associativity) : drv_scope.

Local Open Scope drv_scope.

Definition i2c_smbus_write_byte_data (command value : Z) : drv Z :=
  fun s => let '(r, c) := smbus_write command value (client s) in
           (r, State (data s) c (dmesg s) (sysfs_group s)).

Definition i2c_smbus_read_byte_data (command : Z) : drv Z :=
  fun s => let '(r, c) := smbus_read command (client s) in
           (r, State (data s) c (dmesg s) (sysfs_group s)).

Definition dev_err (f : string) (a : list Z) : drv unit :=
  fun s => (tt, State (data s) (client s) (dmesg s ++ [Kmsg KERN_ERR f a]) (sysfs_group s)).

Definition dev_info (f : string) (a : list Z) : drv unit :=
  fun s => (tt, State (data s) (client s) (dmesg s ++ [Kmsg KERN_INFO f a]) (sysfs_group s)).

Definition set_data_volume (v : Z) : drv unit :=
  fun s => (tt, State (Data v (input_gain (data s))) (client s) (dmesg s) (sysfs_group s)).

Definition set_data_input_gain (g : Z) : drv unit :=
  fun s => (tt, State (Data (volume (data s)) g) (client s) (dmesg s) (sysfs_group s)).

Definition get_data : drv pamir_ai_i2c_sound_data := fun s => (data s, s).

Definition set_sysfs_group (b : bool) : drv unit :=
  fun s => (tt, State (data s) (client s) (dmesg s) b).

(** ** Volume and input gain operations *)

Definition pamir_ai_i2c_sound_set_volume (volume : Z) : drv Z :=
  let volume := clamp_percent (to_u8 volume) in
  set_data_volume volume ;;
  let '(hp_val, dac_val) := encode_volume volume in
  (* page 1: headphone and line-out gains *)
  try! i2c_smbus_write_byte_data 0x00 0x01 ;;
  try! i2c_smbus_write_byte_data 0x10 hp_val ;;
  try! i2c_smbus_write_byte_data 0x11 hp_val ;;
  try! i2c_smbus_write_byte_data 0x12 hp_val ;;
  try! i2c_smbus_write_byte_data 0x13 hp_val ;;
  (* page 0: DAC volumes *)
  try! i2c_smbus_write_byte_data 0x00 0x00 ;;
  try! i2c_smbus_write_byte_data 0x41 dac_val ;;
  try! i2c_smbus_write_byte_data 0x42 dac_val ;;
  dev_info "Volume set to %d%% (hp_val=0x%02x, dac_val=0x%02x)\n"
           [volume; hp_val; dac_val] ;;
  pure 0.

Definition pamir_ai_i2c_sound_set_input_gain (gain : Z) : drv Z :=
  let gain := clamp_percent (to_u8 gain) in
  set_data_input_gain gain ;;
  let adc_val := encode_gain gain in
  try! i2c_smbus_write_byte_data 0x00 0x00 ;;
  try! i2c_smbus_write_byte_data 0x53 adc_val ;;
  try! i2c_smbus_write_byte_data 0x54 adc_val ;;
  dev_info "Input gain set to %d%% (adc_val=0x%02x)\n" [gain; adc_val] ;;
  pure 0.

Definition pamir_ai_i2c_sound_get_volume : drv Z :=
  try! i2c_smbus_write_byte_data 0x00 0x01 ;;
  ret <-! i2c_smbus_read_byte_data 0x10 ;;
  let hp_val := to_u8 ret in
  try! i2c_smbus_write_byte_data 0x00 0x00 ;;
  ret <-! i2c_smbus_read_byte_data 0x41 ;;
  let dac_val := to_u8 ret in
  set_data_volume (decode_volume hp_val dac_val) ;;
  pure 0.

Definition pamir_ai_i2c_sound_get_input_gain : drv Z :=
  try! i2c_smbus_write_byte_data 0x00 0x00 ;;
  ret <-! i2c_smbus_read_byte_data 0x53 ;;
  set_data_input_gain (decode_gain ret) ;;
  pure 0.

(** ** Raw register access and the sysfs handlers

    The text parsers ([sscanf], [kstrtoint]) belong to the kernel; the
    handlers take their outcome: the list of integers [sscanf] converted,
    and for [kstrtoint] an error number or the parsed [int]. *)

Definition nl : string := String (Ascii.ascii_of_nat 10) EmptyString.

(** [sprintf(buf, "%d\n", v)]: the text written; its length is returned. *)
Definition sprintf_d (v : Z) : string := pretty v +:+ nl.

Definition strlen (s : string) : Z := Z.of_nat (String.length s).

Definition register_access_show (scanned : list Z) : drv (Z * option string) :=
  match scanned with
  | [page; reg] =>
      if (page <? 0) || (page >? 255) || (reg <? 0) || (reg >? 255) then
        dev_err "Invalid page or register value (0-255)\n" [] ;;
        pure (- EINVAL, None)
      else
        ret <- i2c_smbus_write_byte_data 0x00 page ;;
        if ret <? 0 then
          dev_err "Failed to select page %d: %d\n" [page; ret] ;;
          pure (ret, None)
        else
          value <- i2c_smbus_read_byte_data reg ;;
          if value <? 0 then
            dev_err "Failed to read register 0x%02x: %d\n" [reg; value] ;;
            pure (value, None)
          else
            dev_info "Read page %d reg 0x%02x: 0x%02x\n" [page; reg; value] ;;
            pure (strlen (sprintf_d value), Some (sprintf_d value))
  | _ =>
      dev_err "Invalid format. Use: 'page reg'\n" [] ;;
      pure (- EINVAL, None)
  end.

Definition register_access_store (scanned : list Z) (count : Z) : drv Z :=
  match scanned with
  | [page; reg; value] =>
      if (page <? 0) || (page >? 255) || (reg <? 0) || (reg >? 255)
         || (value <? 0) || (value >? 255) then
        dev_err "Invalid parameter(s), valid range is 0-255\n" [] ;;
        pure (- EINVAL)
      else
        ret <- i2c_smbus_write_byte_data 0x00 page ;;
        if ret <? 0 then
          dev_err "Failed to select page %d: %d\n" [page; ret] ;;
          pure ret
        else
          ret <- i2c_smbus_write_byte_data reg value ;;
          if ret <? 0 then
            dev_err "Failed to write 0x%02x to page %d reg 0x%02x: %d\n"
                    [value; page; reg; ret] ;;
            pure ret
          else
            dev_info "Wrote 0x%02x to page %d reg 0x%02x\n" [value; page; reg] ;;
            pure count
  | _ =>
      dev_err "Invalid format. Use: 'page reg value'\n" [] ;;
      pure (- EINVAL)
  end.

(** Outcome of [kstrtoint(buf, 10, &v)]. *)
Inductive kstrtoint_result :=
  | KstrErr (e : positive)
  | KstrOk (v : Z).

Definition volume_level_show : drv (Z * option string) :=
  ret <- pamir_ai_i2c_sound_get_volume ;;
  if ret <? 0 then pure (ret, None)
  else
    d <- get_data ;;
    pure (strlen (sprintf_d (volume d)), Some (sprintf_d (volume d))).

Definition volume_level_store (parsed : kstrtoint_result) (count : Z) : drv Z :=
  match parsed with
  | KstrErr e => pure (Z.neg e)
  | KstrOk volume =>
      let volume := if volume <? 0 then 0 else if volume >? 100 then 100 else volume in
      try! pamir_ai_i2c_sound_set_volume volume ;;
      pure count
  end.

(** ** Initialisation and probe

    The two revisions share this code and differ in the table and in the
    input-gain functions, which are the section's variables. *)

Section Revision.

Variable table : list reg_val.
Variable set_input_gain : Z -> drv Z.
Variable get_input_gain : drv Z.

Definition input_gain_show_of : drv (Z * option string) :=
  ret <- get_input_gain ;;
  if ret <? 0 then pure (ret, None)
  else
    d <- get_data ;;
    pure (strlen (sprintf_d (input_gain d)), Some (sprintf_d (input_gain d))).

Definition input_gain_store_of (parsed : kstrtoint_result) (count : Z) : drv Z :=
  match parsed with
  | KstrErr e => pure (Z.neg e)
  | KstrOk gain =>
      let gain := if gain <? 0 then 0 else if gain >? 100 then 100 else gain in
      try! set_input_gain gain ;;
      pure count
  end.

(** The [for] loop of [probe] over what remains of the table. *)
Fixpoint probe_init_loop (tbl : list reg_val) : drv Z :=
  match tbl with
  | [] => pure 0
  | e :: rest =>
      ret <- i2c_smbus_write_byte_data (reg e) (val e) ;;
      if ret <? 0 then
        dev_err "Failed to write reg 0x%02x with value 0x%02x: %d\n"
                [reg e; val e; ret] ;;
        pure ret
      else
        dev_info "Wrote 0x%02x to reg 0x%02x\n" [val e; reg e] ;;
        probe_init_loop rest
  end.

(** [probe] once [devm_kzalloc] has succeeded and the cache holds 50/50;
    [sysfs_ret] is what [sysfs_create_group] returns. *)
Definition probe_attach (sysfs_ret : Z) : drv Z :=
  dev_info "Starting initialization sequence\n" [] ;;
  try! probe_init_loop table ;;
  dev_info "Initialization sequence completed successfully\n" [] ;;
  if sysfs_ret <? 0 then
    dev_err "Failed to create sysfs group: %d\n" [sysfs_ret] ;;
    pure sysfs_ret
  else
    set_sysfs_group true ;;
    d <- get_data ;;
    ret <- pamir_ai_i2c_sound_set_volume (volume d) ;;
    if ret <? 0 then
      dev_err "Failed to set initial volume: %d\n" [ret] ;;
      set_sysfs_group false ;;
      pure ret
    else
      d <- get_data ;;
      ret <- set_input_gain (input_gain d) ;;
      if ret <? 0 then
        dev_err "Failed to set initial input gain: %d\n" [ret] ;;
        set_sysfs_group false ;;
        pure ret
      else pure 0.

(** [probe] on a client: [kzalloc_ok] tells whether the allocation of
    the private data succeeds. *)
Definition probe_of (kzalloc_ok : bool) (sysfs_ret : Z)
    (c : i2c_client) (klog : list kmsg) : Z * option driver_state :=
  if kzalloc_ok then
    let '(ret, s) := probe_attach sysfs_ret (State (Data 50 50) c klog false) in
    (ret, Some s)
  else (- ENOMEM, None).

End Revision.

(** The table of the revised driver. *)
Definition init_sequence : list reg_val := [
  RV 0x00 0x00; RV 0x01 0x01;
  RV 0x00 0x00; RV 0x0b 0x81; RV 0x0c 0x84; RV 0x12 0x81; RV 0x13 0x84;
  RV 0x19 0x07; RV 0x1a 0x81; RV 0x34 0x10;
  RV 0x00 0x01; RV 0x02 0x09; RV 0x01 0x08; RV 0x02 0x01; RV 0x21 0x00;
  RV 0x7b 0x01;
  RV 0x00 0x01; RV 0x14 0x25; RV 0x0c 0x08; RV 0x0d 0x08; RV 0x0e 0x08;
  RV 0x0f 0x08; RV 0x09 0x3c; RV 0x10 0x07; RV 0x11 0x07; RV 0x12 0x07;
  RV 0x13 0x07;
  RV 0x00 0x01; RV 0x34 0x80; RV 0x36 0x80; RV 0x37 0x80; RV 0x39 0x80;
  RV 0x3b 0x0f; RV 0x3c 0x0f;
  RV 0x00 0x00; RV 0x51 0xc0; RV 0x52 0x00;
  RV 0x00 0x00; RV 0x53 0x23; RV 0x54 0x23; RV 0x41 0x30; RV 0x42 0x30;
  RV 0x00 0x00; RV 0x41 0x00; RV 0x42 0x00; RV 0x3f 0xd6; RV 0x40 0x00
].

Definition input_gain_show : drv (Z * option string) :=
  input_gain_show_of pamir_ai_i2c_sound_get_input_gain.

Definition input_gain_store : kstrtoint_result -> Z -> drv Z :=
  input_gain_store_of pamir_ai_i2c_sound_set_input_gain.

Definition pamir_ai_i2c_sound_probe :
    bool -> Z -> i2c_client -> list kmsg -> Z * option driver_state :=
  probe_of init_sequence pamir_ai_i2c_sound_set_input_gain.

(** ** The earlier revision: its table and its input-gain mapping, in which
    both ranges meet at register 0x00. *)

Module Legacy.

Definition init_sequence : list reg_val := [
  RV 0x01 0x01;
  RV 0x00 0x00; RV 0x0b 0x81; RV 0x0c 0x84; RV 0x12 0x81; RV 0x13 0x84;
  RV 0x19 0x07; RV 0x1a 0x81; RV 0x34 0x10;
  RV 0x00 0x01; RV 0x02 0x09; RV 0x01 0x08; RV 0x02 0x01; RV 0x47 0x32;
  RV 0x7b 0x01;
  RV 0x00 0x00; RV 0x37 0x0e; RV 0x38 0x02; RV 0x53 0x23; RV 0x54 0x23;
  RV 0x41 0x30; RV 0x42 0x30;
  RV 0x00 0x01; RV 0x14 0x25; RV 0x0c 0x08; RV 0x0d 0x08; RV 0x0e 0x08;
  RV 0x0f 0x08; RV 0x09 0x3c; RV 0x10 0x07; RV 0x11 0x07; RV 0x12 0x07;
  RV 0x13 0x07;
  RV 0x00 0x00; RV 0x41 0x00; RV 0x42 0x00; RV 0x3f 0xd6; RV 0x40 0x00;
  RV 0x51 0xdc; RV 0x52 0x00
].

Definition encode_gain (gain : Z) : Z :=
  if gain <=? 20 then to_u8 (0x68 - (gain * (0x68 - 0x00)) ÷ 20)
  else to_u8 (((gain - 20) * 0x28) ÷ 80).

Definition decode_gain (ret : Z) : Z :=
  let adc_val := to_u8 (Z.land ret 0x7F) in
  if adc_val >=? 0x68 then 0
  else if adc_val >? 0x00 then to_u8 (((0x68 - adc_val) * 20) ÷ 0x68)
  else if adc_val <=? 0x28 then to_u8 (20 + (adc_val * 80) ÷ 0x28)
  else 100.

Definition pamir_ai_i2c_sound_set_input_gain (gain : Z) : drv Z :=
  let gain := clamp_percent (to_u8 gain) in
  set_data_input_gain gain ;;
  let adc_val := encode_gain gain in
  try! i2c_smbus_write_byte_data 0x00 0x00 ;;
  try! i2c_smbus_write_byte_data 0x53 adc_val ;;
  try! i2c_smbus_write_byte_data 0x54 adc_val ;;
  dev_info "Input gain set to %d%% (adc_val=0x%02x)\n" [gain; adc_val] ;;
  pure 0.

Definition pamir_ai_i2c_sound_get_input_gain : drv Z :=
  try! i2c_smbus_write_byte_data 0x00 0x00 ;;
  ret <-! i2c_smbus_read_byte_data 0x53 ;;
  set_data_input_gain (decode_gain ret) ;;
  pure 0.

Definition input_gain_show : drv (Z * option string) :=
  input_gain_show_of pamir_ai_i2c_sound_get_input_gain.

Definition input_gain_store : kstrtoint_result -> Z -> drv Z :=
  input_gain_store_of pamir_ai_i2c_sound_set_input_gain.

Definition pamir_ai_i2c_sound_probe :
    bool -> Z -> i2c_client -> list kmsg -> Z * option driver_state :=
  probe_of init_sequence pamir_ai_i2c_sound_set_input_gain.

End Legacy.

(** ** Running the sysfs interface *)

Inductive sysfs_op :=
  | VolumeLevelShow
  | VolumeLevelStore (parsed : kstrtoint_result) (count : Z)
  | InputGainShow
  | InputGainStore (parsed : kstrtoint_result) (count : Z)
  | RegisterAccessShow (scanned : list Z)
  | RegisterAccessStore (scanned : list Z) (count : Z).

(** The state after one handler has run; its return value goes to the
    caller in user space. *)
Definition run_op (o : sysfs_op) (s : driver_state) : driver_state :=
  match o with
  | VolumeLevelShow => snd (volume_level_show s)
  | VolumeLevelStore parsed count => snd (volume_level_store parsed count s)
  | InputGainShow => snd (input_gain_show s)
  | InputGainStore parsed count => snd (input_gain_store parsed count s)
  | RegisterAccessShow scanned => snd (register_access_show scanned s)
  | RegisterAccessStore scanned count => snd (register_access_store scanned count s)
  end.

Definition run_ops (ops : list sysfs_op) (s : driver_state) : driver_state :=
  foldl (fun s o => run_op o s) s ops.

(** ** Vocabulary of the statements *)

(** *** Bus scripts *)

(** The outcome scripted for the [i]-th coming transfer. *)
Definition outcome_at (i : nat) (p : list (option positive)) : option positive :=
  default None (p !! i).

(** The first failing transfer among the next [n], with its error. *)
Fixpoint first_fault (n : nat) (p : list (option positive)) : option (nat * positive) :=
  match n with
  | O => None
  | S n' =>
      match next_outcome p with
      | (Some e, _) => Some (O, e)
      | (None, rest) =>
          match first_fault n' rest with
          | Some (i, e) => Some (S i, e)
          | None => None
          end
      end
  end.

(** How many of [n] coming transfers are attempted by a fail-fast run. *)
Definition attempted (n : nat) (p : list (option positive)) : nat :=
  match first_fault n p with
  | Some (i, _) => S i
  | None => n
  end.

(** What a fail-fast run of [n] transfers returns. *)
Definition fail_fast_result (n : nat) (p : list (option positive)) : Z :=
  match first_fault n p with
  | Some (_, e) => Z.neg e
  | None => 0
  end.

(** *** Runs of register writes *)

(** The transfers that writing the entries of a table amounts to. *)
Definition table_writes (tbl : list reg_val) : list xfer :=
  map (fun e => XWrite (to_u8 (reg e)) (to_u8 (val e))) tbl.

(** The register writes of [set_volume] and [set_input_gain], in order. *)
Definition volume_writes (hp_val dac_val : Z) : list reg_val :=
  [RV 0x00 0x01; RV 0x10 hp_val; RV 0x11 hp_val; RV 0x12 hp_val; RV 0x13 hp_val;
   RV 0x00 0x00; RV 0x41 dac_val; RV 0x42 dac_val].

Definition gain_writes (adc_val : Z) : list reg_val :=
  [RV 0x00 0x00; RV 0x53 adc_val; RV 0x54 adc_val].

(** A run of register writes that stops at the first failure: the shape
    of the write sequences of [set_volume] and [set_input_gain]. *)
Fixpoint write_seq (ws : list reg_val) : drv Z :=
  match ws with
  | [] => pure 0
  | w :: rest => try! i2c_smbus_write_byte_data (reg w) (val w) ;; write_seq rest
  end.

(** The selected page and the registers of the device once the writes of
    [ws] have all succeeded. *)
Fixpoint device_after (ws : list reg_val) (pg : Z) (rs : gmap (Z * Z) Z)
    : Z * gmap (Z * Z) Z :=
  match ws with
  | [] => (pg, rs)
  | w :: rest =>
      let '(pg', rs') :=
        device_write (to_u8 (reg w)) (to_u8 (val w)) (Client pg rs [] []) in
      device_after rest pg' rs'
  end.

(** The device once the writes before the first failure are done. *)
Definition device_reached (ws : list reg_val) (p : list (option positive))
    (pg : Z) (rs : gmap (Z * Z) Z) : Z * gmap (Z * Z) Z :=
  match first_fault (length ws) p with
  | Some (i, _) => device_after (take i ws) pg rs
  | None => device_after ws pg rs
  end.

(** *** The kernel log of the initialisation loop *)

Definition init_wrote (w : reg_val) : kmsg :=
  Kmsg KERN_INFO "Wrote 0x%02x to reg 0x%02x\n" [val w; reg w].

Definition init_failed (w : reg_val) (ret : Z) : kmsg :=
  Kmsg KERN_ERR "Failed to write reg 0x%02x with value 0x%02x: %d\n"
       [reg w; val w; ret].

(** A line per entry written, then the error line of the entry whose
    write failed. *)
Definition init_log (tbl : list reg_val) (p : list (option positive)) : list kmsg :=
  match first_fault (length tbl) p with
  | Some (i, e) =>
      map init_wrote (take i tbl) ++
      match tbl !! i with
      | Some w => [init_failed w (Z.neg e)]
      | None => []
      end
  | None => map init_wrote tbl
  end.

(** *** The cache invariant *)

(** Both cached percentages are percentages. *)
Definition cache_ok (d : pamir_ai_i2c_sound_data) : Prop :=
  (0 <= volume d <= 100) /\ (0 <= input_gain d <= 100).

(** A computation keeps the cache invariant. *)
Definition keeps_cache {A} (m : drv A) : Prop :=
  forall s, cache_ok (data s) -> cache_ok (data (snd (m s))).

(** *** The volume table of the specification *)

(** The tiers of the table and the tier of a percentage. *)
Inductive tier := TierMute | TierLow | TierMedium | TierHigh | TierBoost.

Definition tier_of (p : Z) : tier :=
  if p <=? 0 then TierMute
  else if p <=? 20 then TierLow
  else if p <=? 60 then TierMedium
  else if p <=? 90 then TierHigh
  else TierBoost.

(** The table as the specification words it: each tier a linear step
    [low + (percent - range_low) * (high - low) / range_span], truncated
    toward zero, over the tier's own percent range. *)
Definition linear_step (low high range_low range_span percent : Z) : Z :=
  low + ((percent - range_low) * (high - low)) ÷ range_span.

Definition tier_table (p : Z) : Z * Z :=
  match tier_of p with
  | TierMute => (0x40, 0x00)
  | TierLow => (linear_step 0x3A 0x00 1 19 p, 0xA0)
  | TierMedium => (linear_step 0x00 0x14 21 39 p, 0x00)
  | TierHigh => (linear_step 0x14 0x1D 61 29 p, 0x00)
  | TierBoost => (0x1D, linear_step 0x04 0x10 91 9 p)
  end.

(** *** Sessions to run the driver on *)

(** A session on a bus that never fails, one whose very next transfer
    fails with error 5 ([EIO]), and one whose eleventh transfer (index 10)
    does. *)
Definition quiet_session : driver_state :=
  State (Data 50 50) (Client 0 ∅ [] []) [] true.

Definition failing_session : driver_state :=
  State (Data 50 50) (Client 0 ∅ [Some 5%positive] []) [] true.

Definition fault_at_10 : driver_state :=
  State (Data 50 50) (Client 0 ∅ (replicate 10 None ++ [Some 5%positive]) []) [] false.

(** Percentage read back after it was set: decode of encode. *)
Definition volume_readback (p : Z) : Z :=
  decode_volume (fst (encode_volume p)) (snd (encode_volume p)).

Definition gain_readback (p : Z) : Z := decode_gain (encode_gain p).

#[global] Instance tier_eq_dec : EqDecision tier.
Proof. solve_decision. Defined.

(** The transfers of [get_volume] and [get_input_gain], in order. *)
Definition volume_reads : list xfer :=
  [XWrite 0x00 0x01; XRead 0x10; XWrite 0x00 0x00; XRead 0x41].

Definition gain_reads : list xfer := [XWrite 0x00 0x00; XRead 0x53].

(** A sysfs request with what it hands back to user space: the return
    value and, for a [show], the text printed. *)
Definition handle (o : sysfs_op) : drv (Z * option string) :=
  match o with
  | VolumeLevelShow => volume_level_show
  | VolumeLevelStore parsed count =>
      r <- volume_level_store parsed count ;; pure (r, None)
  | InputGainShow => input_gain_show
  | InputGainStore parsed count =>
      r <- input_gain_store parsed count ;; pure (r, None)
  | RegisterAccessShow scanned => register_access_show scanned
  | RegisterAccessStore scanned count =>
      r <- register_access_store scanned count ;; pure (r, None)
  end.

Fixpoint handle_all (ops : list sysfs_op) : drv (list (Z * option string)) :=
  match ops with
  | [] => pure []
  | o :: rest =>
      r <- handle o ;;
      rs <- handle_all rest ;;
      pure (r :: rs)
  end.

(** Two driver states that differ at most in the page the device has
    selected. *)
Definition same_but_page (s1 s2 : driver_state) : Prop :=
  data s1 = data s2 /\ dmesg s1 = dmesg s2 /\ sysfs_group s1 = sysfs_group s2 /\
  regs (client s1) = regs (client s2) /\
  pending (client s1) = pending (client s2) /\
  xfers (client s1) = xfers (client s2).

(** A computation that cannot tell such states apart. *)
Definition page_blind {A} (m : drv A) : Prop :=
  forall s1 s2, same_but_page s1 s2 ->
    fst (m s1) = fst (m s2) /\ same_but_page (snd (m s1)) (snd (m s2)).

(** [pamir_ai_i2c_sound_remove]: the sysfs group goes away when the
    client has driver data. *)
Definition pamir_ai_i2c_sound_remove (s : option driver_state) : option driver_state :=
  match s with
  | Some s => Some (snd (set_sysfs_group false s))
  | None => None
  end.

(** The register writes of a [probe] that succeeds: the table, then the
    writes of [set_volume] and of [set_input_gain] for the initial 50
    percent. *)
Definition probe_writes : list reg_val :=
  init_sequence ++ volume_writes 14 0 ++ gain_writes 15.

(** ** Shell scripts *)

(** [grep -q] with a pattern of ordinary characters: does some line
    contain the pattern.  The patterns of the scripts hold no line break,
    so this is whether the text contains the pattern. *)
Fixpoint contains (pat s : string) : bool :=
  if String.prefix pat s then true
  else match s with
       | EmptyString => false
       | String _ rest => contains pat rest
       end.

(** *** Platform detection ([platform-detect.sh]) *)

Module Platform.

(** What the script looks at: the environment variable (unset reads as
    the empty string), whether standard error is a terminal, the two
    Armbian marker files, the output of [uname -r], the names listed in
    [/lib/modules/], and the content of [/proc/device-tree/compatible]
    when that file exists. *)
Record machine := Machine {
  DISTILLER_PLATFORM : string;
  stderr_tty : bool;
  armbian_release : bool;
  armbianEnv : bool;
  uname_r : string;
  lib_modules : list string;
  compatible : option string
}.

Definition validate_platform (platform : string) : bool :=
  String.eqb platform "rpi" || String.eqb platform "rockchip" ||
  String.eqb platform "armbian" || String.eqb platform "unknown".

(** The extended pattern
    [(vendor|current|edge|legacy)-(rk35xx|rockchip64)]. *)
Definition armbian_kernel_name (s : string) : bool :=
  existsb (fun flavour =>
    existsb (fun family => contains (flavour +:+ "-" +:+ family) s)
            ["rk35xx"; "rockchip64"])
    ["vendor"; "current"; "edge"; "legacy"].

Definition is_armbian_kernel (m : machine) : bool :=
  if armbian_kernel_name (uname_r m) then true
  else if existsb armbian_kernel_name (lib_modules m) then true
  else false.

(** [detect_platform]: the line printed on standard output and the lines
    printed on standard error. *)
Definition detect_platform (m : machine) : string * list string :=
  let env := DISTILLER_PLATFORM m in
  if negb (String.eqb env "") && validate_platform env then
    (env, if stderr_tty m
          then ["Platform overridden by DISTILLER_PLATFORM: " +:+ env]
          else [])
  else
    let warning :=
      if negb (String.eqb env "")
      then ["Warning: Invalid DISTILLER_PLATFORM value: " +:+ env]
      else [] in
    if armbian_release m || armbianEnv m || is_armbian_kernel m then
      ("armbian", warning)
    else
      match compatible m with
      | Some compat =>
          if contains "brcm,bcm2712" compat then ("rpi", warning)
          else if contains "rockchip,rk35" compat then ("rockchip", warning)
          else ("unknown", warning)
      | None => ("unknown", warning)
      end.

(** [${1:-$(detect_platform)}]: the argument, or the detected platform
    when the argument is missing or empty. *)
Definition platform_arg (arg : string) (m : machine) : string * list string :=
  if String.eqb arg "" then detect_platform m else (arg, []).

Definition rockchip_paths (platform : string) : bool :=
  String.eqb platform "armbian" || String.eqb platform "rockchip".

Definition get_overlay_dir (arg : string) (m : machine) : string * list string :=
  let '(platform, err) := platform_arg arg m in
  (if rockchip_paths platform then "/boot/dtb/rockchip/overlay/"
   else "/boot/firmware/overlays/", err).

Definition get_config_file (arg : string) (m : machine) : string * list string :=
  let '(platform, err) := platform_arg arg m in
  (if rockchip_paths platform then "/boot/armbianEnv.txt"
   else "/boot/firmware/config.txt", err).

Definition get_overlay_name (arg : string) (m : machine) : string * list string :=
  let '(platform, err) := platform_arg arg m in
  (if rockchip_paths platform then "pamir-ai-soundcard"
   else "pamir-ai-soundcard", err).

Definition get_dts_file (arg : string) (m : machine) : string * list string :=
  let '(platform, err) := platform_arg arg m in
  (if rockchip_paths platform then "pamir-ai-soundcard-overlay.dts"
   else "pamir-ai-soundcard-overlay.dts", err).

(** [print_platform_info]: standard output and standard error, line by
    line. *)
Definition print_platform_info (m : machine) : list string * list string :=
  let env := DISTILLER_PLATFORM m in
  let '(platform, err0) := detect_platform m in
  let detection_method :=
    if negb (String.eqb env "") && validate_platform env
    then "overridden by DISTILLER_PLATFORM" else "auto-detected" in
  let '(dir, err1) := get_overlay_dir platform m in
  let '(config, err2) := get_config_file platform m in
  let '(name, err3) := get_overlay_name platform m in
  let '(dts, err4) := get_dts_file platform m in
  (["Platform: " +:+ platform +:+ " (" +:+ detection_method +:+ ")"] ++
   (if negb (String.eqb env "")
    then ["DISTILLER_PLATFORM env var: " +:+ env] else []) ++
   ["Overlay Directory: " +:+ dir;
    "Config File: " +:+ config;
    "Overlay Name: " +:+ name;
    "DTS File: " +:+ dts],
   err0 ++ err1 ++ err2 ++ err3 ++ err4).

(** The machine with the environment variable taken away. *)
Definition without_override (m : machine) : machine :=
  Machine "" (stderr_tty m) (armbian_release m) (armbianEnv m) (uname_r m)
          (lib_modules m) (compatible m).

(** A Raspberry Pi 5 running an Armbian kernel, with a misspelt override. *)
Definition pi5_armbian_kernel : machine :=
  Machine "raspberrypi" false false false "6.1.75-vendor-rk35xx" []
          (Some "raspberrypi,5-model-b brcm,bcm2712").

End Platform.

(** *** Package builder ([build-deb.sh]): project type and build
    dependencies *)

Module BuildDeb.

(** What the two functions look at: which commands [command -v] finds,
    which packages [dpkg -l] lists as installed ([ii]), the content of
    [pyproject.toml] when the file exists, which other marker files
    exist, and whether [ls *.service] prints a line with [service]. *)
Record host := Host {
  on_path : string -> bool;
  installed : string -> bool;
  pyproject_toml : option string;
  package_json : bool;
  dkms_conf : bool;
  systemd_dir : bool;
  service_listed : bool
}.

Inductive log_level := INFO | SUCCESS | WARNING | ERROR.

Definition detect_project_type (h : host) : string :=
  if match pyproject_toml h with
     | Some content => contains "uv" content
     | None => false
     end
  then "python-uv"
  else if bool_decide (is_Some (pyproject_toml h)) then "python"
  else if package_json h then "nodejs"
  else if dkms_conf h then "dkms"
  else if systemd_dir h || service_listed h then "systemd"
  else "unknown".

(** [check_build_dependencies]: the exit status and the lines logged. *)
Definition check_build_dependencies (h : host) : Z * list (log_level * string) :=
  let missing_deps := "" in
  let missing_deps :=
    if negb (on_path h "dpkg-buildpackage") then
      if negb (installed h "dpkg-dev") then missing_deps +:+ " dpkg-dev"
      else missing_deps
    else missing_deps in
  let missing_deps :=
    if negb (on_path h "dch") then
      if negb (installed h "devscripts") then missing_deps +:+ " devscripts"
      else missing_deps
    else missing_deps in
  let missing_deps :=
    if negb (installed h "debhelper") then missing_deps +:+ " debhelper"
    else missing_deps in
  let missing_deps :=
    if negb (on_path h "fakeroot") then
      if negb (installed h "fakeroot") then missing_deps +:+ " fakeroot"
      else missing_deps
    else missing_deps in
  let project_type := detect_project_type h in
  let missing_deps :=
    if String.eqb project_type "dkms" then
      if negb (on_path h "dtc") then
        if negb (installed h "device-tree-compiler")
        then missing_deps +:+ " device-tree-compiler"
        else missing_deps
      else missing_deps
    else missing_deps in
  if negb (String.eqb missing_deps "") then
    (1, [(ERROR, "Missing build dependencies:" +:+ missing_deps);
         (INFO, "Install with: sudo apt-get install" +:+ missing_deps)])
  else (0, []).

(** A build host with the Debian tools but no device tree compiler, in a
    directory that holds both [dkms.conf] and a [pyproject.toml]. *)
Definition mixed_checkout : host :=
  Host (fun tool => negb (String.eqb tool "dtc"))
       (fun pkg => String.eqb pkg "debhelper")
       (Some "[build-system]") false true false false.

End BuildDeb.

(** ** The simple sound card ([pamir-ai-rpi-soundcard.c]) *)

Module SimpleCard.

(** Conversion of an [int] to [unsigned int]. *)
Definition to_u32 (x : Z) : Z := x `mod` 2 ^ 32.

Definition ENODEV : Z := 19.
Definition EPROBE_DEFER : Z := 517.

Record snd_pamir_ai_simple_drvdata := Drvdata {
  card_name : string;
  fixed_bclk_ratio : Z
}.

(** The only entry of the match table; [fixed_bclk_ratio] is not
    initialised and so is 0. *)
Definition drvdata_pamir_ai : snd_pamir_ai_simple_drvdata :=
  Drvdata "snd_pamir_ai_soundcard" 0.

(** The CPU DAI as the card sees it: the ratios it was asked for, in
    order, and what [snd_soc_dai_set_bclk_ratio] answers. *)
Record snd_soc_dai := Dai {
  bclk_ratios : list Z;
  set_bclk_ratio_ret : Z
}.

Definition snd_soc_dai_set_bclk_ratio (ratio : Z) (cpu_dai : snd_soc_dai)
    : Z * snd_soc_dai :=
  (set_bclk_ratio_ret cpu_dai,
   Dai (bclk_ratios cpu_dai ++ [ratio]) (set_bclk_ratio_ret cpu_dai)).

Definition snd_pamir_ai_simple_init (drvdata : snd_pamir_ai_simple_drvdata)
    (cpu_dai : snd_soc_dai) : Z * snd_soc_dai :=
  if 0 <? fixed_bclk_ratio drvdata
  then snd_soc_dai_set_bclk_ratio (fixed_bclk_ratio drvdata) cpu_dai
  else (0, cpu_dai).

(** [width] is what [snd_pcm_format_width] returns for the format of the
    stream: an [int], negative for a format it does not know. *)
Definition snd_pamir_ai_simple_hw_params (drvdata : snd_pamir_ai_simple_drvdata)
    (width : Z) (cpu_dai : snd_soc_dai) : Z * snd_soc_dai :=
  if 0 <? fixed_bclk_ratio drvdata then (0, cpu_dai)
  else
    let sample_bits := to_u32 width in
    let sample_bits := if sample_bits <=? 16 then 16 else 32 in
    snd_soc_dai_set_bclk_ratio (to_u32 (sample_bits * 2)) cpu_dai.

(** Callbacks a DAI link can carry. *)
Inductive init_fn := simple_init | other_init (n : nat).
Inductive ops_tbl := simple_ops | other_ops (n : nat).

Record snd_soc_dai_link := DaiLink {
  init : option init_fn;
  ops : option ops_tbl;
  cpus_of_node : option string;
  platforms_of_node : option string
}.

(** The static card.  [dai_link] and the driver data are pointers to the
    static DAI link and to [drvdata_pamir_ai], or [NULL]. *)
Record snd_soc_card := Card {
  dev : bool;
  name : option string;
  dai_link : bool;
  drvdata : bool
}.

(** The objects [probe] works on: the static DAI link, the static card,
    the card and link as they were when handed to
    [devm_snd_soc_register_card], and the kernel log. *)
Record world := World {
  link : snd_soc_dai_link;
  card : snd_soc_card;
  registered : option (snd_soc_card * snd_soc_dai_link);
  klog : list kmsg
}.

(** [snd_pamir_ai_simple_probe].  [of_node] is the node of the device,
    [matched] whether [of_match_node] finds it in the table, [i2s_node]
    what the [i2s-controller] phandle resolves to, [register_ret] the
    answer of [devm_snd_soc_register_card].  No result when the code
    reads [of_id->data] through a [NULL] [of_id]. *)
Definition snd_pamir_ai_simple_probe (of_node : option string) (matched : bool)
    (i2s_node : option string) (register_ret : Z) (w : world)
    : option (Z * world) :=
  let card1 := Card true (name (card w)) (dai_link (card w)) (drvdata (card w)) in
  let finish (w1 : world) : option (Z * world) :=
    let w2 := World (link w1) (card w1) (Some (card w1, link w1)) (klog w1) in
    let ret := register_ret in
    if negb (ret =? 0) && negb (ret =? - EPROBE_DEFER)
    then Some (ret, World (link w2) (card w2) (registered w2)
                      (klog w2 ++ [Kmsg KERN_ERR "Failed to register card %d\n" [ret]]))
    else Some (ret, w2) in
  match of_node with
  | None => finish (World (link w) card1 (registered w) (klog w))
  | Some _ =>
      if matched then
        let dai := link w in
        let dai := DaiLink (match init dai with None => Some simple_init | i => i end)
                     (ops dai) (cpus_of_node dai) (platforms_of_node dai) in
        let dai := DaiLink (init dai)
                     (match ops dai with None => Some simple_ops | o => o end)
                     (cpus_of_node dai) (platforms_of_node dai) in
        let card2 := Card true (Some (card_name drvdata_pamir_ai)) true true in
        match i2s_node with
        | None =>
            Some (- ENODEV,
                  World dai card2 (registered w)
                    (klog w ++ [Kmsg KERN_ERR "Failed to find i2s-controller DT node\n" []]))
        | Some n =>
            let dai := DaiLink (init dai) (ops dai) (Some n) (Some n) in
            finish (World dai card2 (registered w) (klog w))
        end
      else None
  end.

(** The static objects before the first [probe]. *)
Definition boot : world :=
  World (DaiLink None None None None) (Card false None false false) None [].

End SimpleCard.

(** * Properties *)

(** ** Arithmetic of bytes *)

Lemma to_u8_small x : 0 <= x < 256 -> to_u8 x = x.
Proof. intros H. unfold to_u8. by apply Z.mod_small. Qed.

Lemma to_u8_range x : 0 <= to_u8 x < 256.
Proof. unfold to_u8. apply Z.mod_pos_bound. lia. Qed.

Lemma to_u8_idemp x : to_u8 (to_u8 x) = to_u8 x.
Proof. apply to_u8_small, to_u8_range. Qed.

Lemma land_0x3F x : Z.land x 0x3F = x `mod` 64.
Proof. exact (Z.land_ones x 6 ltac:(lia)). Qed.

Lemma land_0x7F x : Z.land x 0x7F = x `mod` 128.
Proof. exact (Z.land_ones x 7 ltac:(lia)). Qed.

(** A decidable property holds below [n] once it is checked on [0..n-1]. *)
Lemma forall_below (n : Z) (P : Z -> Prop) `{!forall x, Decision (P x)} :
  bool_decide (Forall P (seqZ 0 n)) = true -> forall x, 0 <= x < n -> P x.
Proof.
  intros HF x Hx. apply bool_decide_eq_true in HF.
  rewrite Forall_forall in HF. apply HF.
  apply elem_of_seqZ. lia.
Qed.

Lemma mute_bit_clear hp :
  0 <= hp < 128 -> Z.land hp 0x40 = 0 -> 0 <= hp < 64.
Proof.
  intros Hhp. revert hp Hhp.
  apply (forall_below 128 (fun hp => Z.land hp 0x40 = 0 -> 0 <= hp < 64)).
  vm_compute. reflexivity.
Qed.

(** Truncating division of non-negative operands, then linear arithmetic. *)
Ltac c_arith :=
  unfold to_u8 in *;
  rewrite ?Z.quot_div_nonneg by lia;
  Z.div_mod_to_equations; lia.

Ltac test_to_prop :=
  rewrite ?andb_true_iff, ?orb_true_iff, ?Z.geb_le, ?Z.leb_le, ?Z.ltb_lt,
          ?Z.gtb_gt, ?Z.eqb_eq.

Ltac test_to_prop_in H :=
  rewrite ?andb_true_iff, ?orb_true_iff, ?Z.geb_le, ?Z.leb_le, ?Z.ltb_lt,
          ?Z.gtb_gt, ?Z.eqb_eq in H.

Ltac btrue := test_to_prop; lia.
Ltac bfalse :=
  let E := fresh in
  apply not_true_is_false; intros E; test_to_prop_in E; lia.

(** Decide a test of the goal from the hypotheses. *)
Ltac eval_if :=
  match goal with
  | |- context [if ?b then _ else _] =>
      first [ replace b with true by (symmetry; btrue)
            | replace b with false by (symmetry; bfalse) ]
  end.

Lemma clamp_100_id v : v <= 100 -> (if v >? 100 then 100 else v) = v.
Proof. intros. by eval_if. Qed.

Lemma clamp_percent_range p : 0 <= clamp_percent p <= 100.
Proof. unfold clamp_percent. repeat case_match; lia. Qed.

(** ** The volume curve *)

(** Whatever the volume, the encoder produces two bytes. *)
Lemma encode_volume_bytes v :
  (0 <= fst (encode_volume v) < 256) /\ (0 <= snd (encode_volume v) < 256).
Proof.
  unfold encode_volume. repeat case_match; simpl; split; try lia; apply to_u8_range.
Qed.

(** On 0..60 percent the encoder is the table of the specification, and
    its DAC byte is the table's at every percent. *)
Lemma encode_volume_on_table p :
  0 <= p <= 100 ->
  snd (encode_volume p) = snd (tier_table p) /\
  (p <= 60 -> encode_volume p = tier_table p).
Proof.
  intros Hp. assert (H : 0 <= p < 101) by lia. clear Hp. revert p H.
  apply (forall_below 101
           (fun p => snd (encode_volume p) = snd (tier_table p) /\
                     (p <= 60 -> encode_volume p = tier_table p))).
  vm_compute. reflexivity.
Qed.

(** C2, as stated, fails: at 91% the headphone byte is 0x1A, where the
    table has it fixed at 0x1D. *)
Lemma encode_volume_91_off_table :
  encode_volume 91 = (0x1A, 0x04) /\ tier_table 91 = (0x1D, 0x04) /\
  encode_volume 91 <> tier_table 91.
Proof. repeat split. discriminate. Qed.

(** The encoder tier by tier. *)
Lemma encode_volume_formulas (p : Z) : 1 <= p <= 100 ->
  (p <= 20 -> encode_volume p = (0x3A - ((p - 1) * 0x3A) ÷ 19, 0xA0)) /\
  (21 <= p <= 60 -> encode_volume p = (((p - 21) * 0x14) ÷ 39, 0x00)) /\
  (61 <= p <= 90 -> encode_volume p = (0x14 + ((p - 61) * 9) ÷ 39, 0x00)) /\
  (91 <= p -> encode_volume p =
     (0x14 + ((p - 61) * 9) ÷ 39, 0x04 + ((p - 91) * 12) ÷ 9)) /\
  (61 <= p -> 0x14 <= fst (encode_volume p) <= 0x1D /\
              (fst (encode_volume p) = 0x1D <-> p = 100)).
Proof.
  intros Hp. unfold encode_volume. rewrite !Z.lor_0_l.
  change (0x3A - 0x00) with 58. change (0x1D - 0x14) with 9.
  change (0x10 - 0x04) with 12.
  split; [|split; [|split; [|split]]]; intros.
  1-4: repeat eval_if; cbv zeta; repeat eval_if;
       f_equal; rewrite ?to_u8_small; try done; c_arith.
  repeat eval_if. cbv zeta. rewrite to_u8_small by c_arith.
  destruct (Z.gtb_spec p 90); simpl; c_arith.
Qed.

(** C2 (amended): for every percent 1..100 the encoder gives, with
    truncating division: for 1-20 the headphone byte
    [0x3A - (p-1)*0x3A/19] with DAC byte 0xA0; for 21-60 the headphone byte
    [(p-21)*0x14/39] with DAC byte 0x00; for 61-100 the headphone byte
    [0x14 + (p-61)*9/39], one ramp over the whole range 61-100 that lies in
    0x14..0x1D and reaches 0x1D at 100 only; the DAC byte is 0x00 for 61-90
    and [0x04 + (p-91)*12/9] for 91-100.  Up to 60 percent, and in the DAC
    byte throughout, this is the table of the specification. *)
Theorem encode_volume_tiers (p : Z) : 1 <= p <= 100 ->
  (p <= 20 -> encode_volume p = (0x3A - ((p - 1) * 0x3A) ÷ 19, 0xA0)) /\
  (21 <= p <= 60 -> encode_volume p = (((p - 21) * 0x14) ÷ 39, 0x00)) /\
  (61 <= p <= 90 -> encode_volume p = (0x14 + ((p - 61) * 9) ÷ 39, 0x00)) /\
  (91 <= p -> encode_volume p =
     (0x14 + ((p - 61) * 9) ÷ 39, 0x04 + ((p - 91) * 12) ÷ 9)) /\
  (61 <= p -> 0x14 <= fst (encode_volume p) <= 0x1D /\
              (fst (encode_volume p) = 0x1D <-> p = 100)) /\
  (p <= 60 -> encode_volume p = tier_table p) /\
  snd (encode_volume p) = snd (tier_table p).
Proof.
  intros Hp.
  destruct (encode_volume_on_table p ltac:(lia)) as [Hdac Hlow].
  destruct (encode_volume_formulas p Hp) as (H1 & H2 & H3 & H4 & H5).
  split; [exact H1|]. split; [exact H2|]. split; [exact H3|]. split; [exact H4|].
  split; [exact H5|]. split; [exact Hlow | exact Hdac].
Qed.

Lemma encode_volume_tiers_witness :
  encode_volume 10 = (0x3A - ((10 - 1) * 0x3A) ÷ 19, 0xA0) /\
  encode_volume 40 = (((40 - 21) * 0x14) ÷ 39, 0x00) /\
  encode_volume 75 = (0x14 + ((75 - 61) * 9) ÷ 39, 0x00) /\
  encode_volume 95 = (0x14 + ((95 - 61) * 9) ÷ 39, 0x04 + ((95 - 91) * 12) ÷ 9).
Proof.
  split; [|split; [|split]].
  - destruct (encode_volume_tiers 10) as (H & _); [lia|]. apply H. lia.
  - destruct (encode_volume_tiers 40) as (_ & H & _); [lia|]. apply H. lia.
  - destruct (encode_volume_tiers 75) as (_ & _ & H & _); [lia|]. apply H. lia.
  - destruct (encode_volume_tiers 95) as (_ & _ & _ & H & _); [lia|]. apply H. lia.
Defined.

Lemma decode_volume_unmuted hp dac :
  0 <= hp < 128 -> Z.land hp 0x40 = 0 ->
  decode_volume hp dac =
    if volume_tiers hp dac >? 100 then 100 else volume_tiers hp dac.
Proof.
  intros Hhp Hm. pose proof (mute_bit_clear hp Hhp Hm) as Hlt.
  unfold decode_volume. rewrite Hm, land_0x3F. simpl c_true. cbv iota zeta.
  rewrite (Z.mod_small hp 64) by lia. rewrite (to_u8_small hp) by lia. reflexivity.
Qed.

Lemma decode_volume_muted hp dac :
  Z.land hp 0x40 <> 0 -> decode_volume hp dac = 0.
Proof.
  intros Hm. unfold decode_volume, c_true.
  destruct (Z.eqb_spec (Z.land hp 64) 0); [done|]. reflexivity.
Qed.

Lemma decode_volume_bit7 hp dac :
  decode_volume (Z.land hp 0x7F) dac = decode_volume hp dac.
Proof.
  unfold decode_volume. rewrite <- !Z.land_assoc.
  change (Z.land 0x7F 0x40) with 0x40. change (Z.land 0x7F 0x3F) with 0x3F.
  reflexivity.
Qed.

Lemma volume_fallback_range hp : 0 <= hp < 64 -> 20 <= volume_fallback hp <= 100.
Proof. intros. unfold volume_fallback. repeat case_match; try lia; c_arith. Qed.

(** C3: the decoder on a headphone byte (a 7-bit field) and a DAC byte.
    A set mute bit gives 0 whatever the two bytes are.  With the mute bit
    clear the tiers are tried in this order, each one only when the ones
    before it do not apply: DAC byte in 0x04..0x10 gives 91..100;
    headphone byte in 0x14..0x1D gives 61..90, capped at 90; headphone byte
    at most 0x14 with DAC byte 0x00 gives 21..60; headphone byte in
    0..0x3A with DAC byte 0xA0 gives 1..20; otherwise the guess depends on
    the headphone byte alone and is 20 unless that byte is below 0x14.
    Bit 7 of the byte read from the register plays no part. *)
Theorem decode_volume_priority (hp dac : Z) :
  (Z.land hp 0x40 <> 0 -> decode_volume hp dac = 0) /\
  decode_volume (Z.land hp 0x7F) dac = decode_volume hp dac /\
  (0 <= hp < 128 -> Z.land hp 0x40 = 0 ->
     let boost := 0x04 <= dac <= 0x10 in
     let high := 0x14 <= hp <= 0x1D in
     let mid := hp <= 0x14 /\ dac = 0x00 in
     let low := 0 <= hp <= 0x3A /\ dac = 0xA0 in
     (boost ->
        decode_volume hp dac = 91 + ((dac - 0x04) * 9) ÷ 12 /\
        91 <= decode_volume hp dac <= 100) /\
     (~ boost -> high ->
        decode_volume hp dac = Z.min 90 (61 + ((hp - 0x14) * 39) ÷ 9) /\
        61 <= decode_volume hp dac <= 90) /\
     (~ boost -> ~ high -> mid ->
        decode_volume hp dac = 21 + (hp * 39) ÷ 0x14 /\
        21 <= decode_volume hp dac <= 60) /\
     (~ boost -> ~ high -> ~ mid -> low ->
        decode_volume hp dac = 1 + ((0x3A - hp) * 19) ÷ 0x3A /\
        1 <= decode_volume hp dac <= 20) /\
     (~ boost -> ~ high -> ~ mid -> ~ low ->
        decode_volume hp dac = volume_fallback hp /\
        decode_volume hp dac =
          (if hp =? 0 then 21
           else if hp <? 0x14 then 21 + (hp * 39) ÷ 0x14
           else 20))).
Proof.
  split; [apply decode_volume_muted|]. split; [apply decode_volume_bit7|].
  intros Hhp Hm. pose proof (mute_bit_clear hp Hhp Hm) as Hlt.
  rewrite (decode_volume_unmuted hp dac Hhp Hm).
  unfold volume_tiers.
  change (0x3A - 0x00) with 58. change (0x1D - 0x14) with 9.
  change (0x10 - 0x04) with 12. cbv zeta.
  split; [|split; [|split; [|split]]].
  - intros Hb. repeat eval_if.
    rewrite to_u8_small by c_arith. rewrite clamp_100_id by c_arith.
    split; [done | c_arith].
  - intros Hb Hh. repeat eval_if.
    rewrite to_u8_small by c_arith.
    assert (Hq : 0 <= ((hp - 20) * 39) ÷ 9 <= 39) by c_arith.
    destruct (Z.gtb_spec (61 + ((hp - 20) * 39) ÷ 9) 90).
    + simpl. rewrite Z.min_l by lia. lia.
    + rewrite clamp_100_id by lia. rewrite Z.min_r by lia. lia.
  - intros Hb Hh [Hm1 Hm2]. subst dac. repeat eval_if.
    rewrite to_u8_small by c_arith. rewrite clamp_100_id by c_arith.
    split; [done | c_arith].
  - intros Hb Hh Hmid [Hl1 Hl2]. subst dac. repeat eval_if.
    rewrite to_u8_small by c_arith. rewrite clamp_100_id by c_arith.
    split; [done | c_arith].
  - intros Hb Hh Hmid Hlow.
    pose proof (volume_fallback_range hp Hlt) as Hv.
    repeat eval_if. split; [done|].
    unfold volume_fallback. repeat eval_if.
    destruct (Z.eqb_spec hp 0) as [->|Hne]; [done|]. repeat eval_if.
    destruct (Z.ltb_spec hp 20); repeat eval_if; [|done].
    rewrite to_u8_small by c_arith. done.
Qed.

Lemma decode_volume_priority_witness :
  decode_volume 0x40 0x00 = 0 /\
  decode_volume 0x1D 0x10 = 91 + ((0x10 - 0x04) * 9) ÷ 12 /\
  decode_volume 0x14 0x00 = Z.min 90 (61 + ((0x14 - 0x14) * 39) ÷ 9) /\
  decode_volume 0x09 0x00 = 21 + (0x09 * 39) ÷ 0x14 /\
  decode_volume 0x3A 0xA0 = 1 + ((0x3A - 0x3A) * 19) ÷ 0x3A /\
  decode_volume 0x3F 0x55 = 20.
Proof.
  split; [|split; [|split; [|split; [|split]]]].
  - apply (proj1 (decode_volume_priority 0x40 0x00)). compute; discriminate.
  - destruct (proj2 (proj2 (decode_volume_priority 0x1D 0x10))) as (H & _); [lia|done|].
    apply H. lia.
  - destruct (proj2 (proj2 (decode_volume_priority 0x14 0x00))) as (_ & H & _); [lia|done|].
    apply H; lia.
  - destruct (proj2 (proj2 (decode_volume_priority 0x09 0x00))) as (_ & _ & H & _); [lia|done|].
    apply H; lia.
  - destruct (proj2 (proj2 (decode_volume_priority 0x3A 0xA0))) as (_ & _ & _ & H & _);
      [lia|done|].
    apply H; lia.
  - destruct (proj2 (proj2 (decode_volume_priority 0x3F 0x55))) as (_ & _ & _ & _ & H);
      [lia|done|].
    apply H; lia.
Defined.

(** C9: volume 0 is encoded as the mute bit alone (gain bits zero) with DAC
    byte 0x00, and every byte pair whose headphone byte has the mute bit
    set decodes to 0, that pair included. *)
Theorem encode_volume_zero_muted (hp dac : Z) :
  encode_volume 0 = (0x40, 0x00) /\
  Z.land (fst (encode_volume 0)) 0x40 = 0x40 /\
  Z.land (fst (encode_volume 0)) 0x3F = 0 /\
  snd (encode_volume 0) = 0x00 /\
  decode_volume (fst (encode_volume 0)) (snd (encode_volume 0)) = 0 /\
  (Z.land hp 0x40 <> 0 -> decode_volume hp dac = 0).
Proof.
  split; [done|]. split; [done|]. split; [done|]. split; [done|]. split; [done|].
  apply decode_volume_muted.
Qed.

Lemma encode_volume_zero_muted_witness :
  Z.land 0x5D 0x40 <> 0 /\ decode_volume 0x5D 0x10 = 0.
Proof.
  split; [compute; discriminate|].
  destruct (encode_volume_zero_muted 0x5D 0x10) as (_ & _ & _ & _ & _ & H).
  apply H. compute; discriminate.
Defined.

(** Each of 1, 21, 40, 61, 91 and 100 percent is decoded from its own
    encoding into the tier it came from. *)
Lemma volume_roundtrip_tier (p : Z) :
  p ∈ [1; 21; 40; 61; 91; 100] ->
  tier_of (decode_volume (fst (encode_volume p)) (snd (encode_volume p))) = tier_of p.
Proof.
  intros Hp. repeat (apply elem_of_cons in Hp as [->|Hp]; [reflexivity|]).
  by apply elem_of_nil in Hp.
Qed.

(** ** The input gain curve *)

Lemma encode_gain_low p : 0 <= p <= 19 -> 0x29 <= encode_gain p <= 0x68.
Proof.
  intros. unfold encode_gain. eval_if.
  change (0x68 - 0x29) with 63. rewrite to_u8_small; c_arith.
Qed.

Lemma encode_gain_high q : 20 <= q <= 100 -> 0x00 <= encode_gain q <= 0x28.
Proof.
  intros. unfold encode_gain. eval_if. rewrite to_u8_small; c_arith.
Qed.

(** C5: in the revised (disjoint-range) mapping, 0 and 100 percent survive
    the round trip exactly, as do 19 and 20 on either side of the boundary;
    percents 0..19 are encoded in 0x29..0x68 (the two ends reached at 19
    and 0), percents 20..100 in 0x00..0x28, and so no percent below 20
    shares a register value with one from 20 up. *)
Theorem gain_roundtrip_disjoint (p q : Z) :
  decode_gain (encode_gain 0) = 0 /\
  decode_gain (encode_gain 100) = 100 /\
  decode_gain (encode_gain 19) = 19 /\
  decode_gain (encode_gain 20) = 20 /\
  encode_gain 0 = 0x68 /\ encode_gain 19 = 0x29 /\
  encode_gain 20 = 0x00 /\ encode_gain 100 = 0x28 /\
  (0 <= p <= 19 -> 0x29 <= encode_gain p <= 0x68) /\
  (20 <= q <= 100 -> 0x00 <= encode_gain q <= 0x28) /\
  (0 <= p <= 19 -> 20 <= q <= 100 -> encode_gain p <> encode_gain q).
Proof.
  do 8 (split; [done|]).
  split; [apply encode_gain_low|]. split; [apply encode_gain_high|].
  intros Hp Hq. pose proof (encode_gain_low p Hp). pose proof (encode_gain_high q Hq).
  lia.
Qed.

Lemma gain_roundtrip_disjoint_witness :
  (0x29 <= encode_gain 7 <= 0x68) /\ (0x00 <= encode_gain 55 <= 0x28) /\
  encode_gain 7 <> encode_gain 55.
Proof.
  destruct (gain_roundtrip_disjoint 7 55)
    as (_ & _ & _ & _ & _ & _ & _ & _ & Hl & Hh & Hne).
  split; [|split].
  - apply Hl. lia.
  - apply Hh. lia.
  - apply Hne; lia.
Defined.

(** C6, as stated, fails: in the earlier (overlapping) mapping 20 percent
    is encoded as 0x00 and 0x00 is decoded as 20. *)
Lemma legacy_gain_roundtrip_20_exact :
  Legacy.encode_gain 20 = 0x00 /\
  Legacy.decode_gain (Legacy.encode_gain 20) = 20.
Proof. split; reflexivity. Qed.

(** C6 (amended): in the earlier mapping 20 and 21 percent are both
    encoded as register value 0x00, which is decoded as 20: the round trip
    is exact at 20 and fails at 21.  It fails at every percent from 21 up,
    whose register value 0x00..0x28 is decoded as at most 20; 100 percent
    comes back as 12. *)
Theorem legacy_gain_roundtrip_overlap (p : Z) :
  Legacy.encode_gain 20 = 0x00 /\ Legacy.encode_gain 21 = 0x00 /\
  Legacy.decode_gain (Legacy.encode_gain 20) = 20 /\
  Legacy.decode_gain (Legacy.encode_gain 21) = 20 /\
  Legacy.decode_gain (Legacy.encode_gain 21) <> 21 /\
  Legacy.decode_gain (Legacy.encode_gain 100) = 12 /\
  (21 <= p <= 100 ->
     Legacy.decode_gain (Legacy.encode_gain p) <= 20 /\
     Legacy.decode_gain (Legacy.encode_gain p) <> p).
Proof.
  do 6 (split; [done|]). intros Hp.
  assert (He : Legacy.encode_gain p = ((p - 20) * 40) ÷ 80 /\
               0 <= ((p - 20) * 40) ÷ 80 <= 40).
  { unfold Legacy.encode_gain. eval_if. rewrite to_u8_small; split; try done; c_arith. }
  destruct He as [-> Hr]. set (r := ((p - 20) * 40) ÷ 80) in *.
  assert (Hd : Legacy.decode_gain r <= 20); [|lia].
  unfold Legacy.decode_gain. rewrite land_0x7F, (Z.mod_small r 128) by lia.
  rewrite (to_u8_small r) by lia. eval_if.
  destruct (Z.gtb_spec r 0).
  - rewrite to_u8_small; c_arith.
  - eval_if. replace r with 0 by lia. done.
Qed.

Lemma legacy_gain_roundtrip_overlap_witness :
  Legacy.decode_gain (Legacy.encode_gain 100) <= 20 /\
  Legacy.decode_gain (Legacy.encode_gain 100) <> 100.
Proof.
  destruct (legacy_gain_roundtrip_overlap 100) as (_ & _ & _ & _ & _ & _ & H).
  apply H. lia.
Defined.

(** ** The scripted bus *)

Lemma next_outcome_eq p : next_outcome p = (outcome_at 0 p, drop 1 p).
Proof. by destruct p. Qed.

Lemma outcome_at_S j p : outcome_at (S j) p = outcome_at j (drop 1 p).
Proof. unfold outcome_at. by rewrite lookup_drop. Qed.

Lemma first_fault_Some n p i e :
  first_fault n p = Some (i, e) <->
  (i < n)%nat /\ outcome_at i p = Some e /\
  forall j, (j < i)%nat -> outcome_at j p = None.
Proof.
  revert p i e. induction n as [|n IH]; intros p i e; simpl.
  - split; [done | intros (? & _); lia].
  - rewrite next_outcome_eq. destruct (outcome_at 0 p) as [e0|] eqn:E0.
    + split.
      * intros [= <- <-]. split; [lia|]. split; [done|]. intros j ?; lia.
      * intros (_ & Hi & Hj). destruct i as [|i]; [congruence|].
        specialize (Hj 0%nat ltac:(lia)). congruence.
    + destruct (first_fault n (drop 1 p)) as [[k e1]|] eqn:Ef.
      * apply IH in Ef as (Hk & Hke & Hkj). split.
        -- intros [= <- <-]. split; [lia|]. rewrite outcome_at_S. split; [done|].
           intros [|j] ?; [done|]. rewrite outcome_at_S. apply Hkj. lia.
        -- intros (Hi & Hie & Hij). destruct i as [|i]; [congruence|].
           rewrite outcome_at_S in Hie.
           assert (first_fault n (drop 1 p) = Some (i, e)) as Hfi.
           { apply IH. split; [lia|]. split; [done|]. intros j ?.
             rewrite <- outcome_at_S. apply Hij. lia. }
           apply IH in Hfi as (_ & Hie' & Hij').
           destruct (lt_eq_lt_dec i k) as [[Hlt|Heq]|Hgt].
           ++ specialize (Hkj i Hlt). congruence.
           ++ subst k. congruence.
           ++ specialize (Hij' k Hgt). congruence.
      * split; [done|]. intros (Hi & Hie & Hij). destruct i as [|i]; [congruence|].
        rewrite outcome_at_S in Hie.
        assert (first_fault n (drop 1 p) = Some (i, e)) as Hfi; [|congruence].
        apply IH. split; [lia|]. split; [done|]. intros j ?.
        rewrite <- outcome_at_S. apply Hij. lia.
Qed.

Lemma first_fault_None n p :
  first_fault n p = None <-> forall j, (j < n)%nat -> outcome_at j p = None.
Proof.
  revert p. induction n as [|n IH]; intros p; simpl.
  - split; [intros _ j ?; lia | done].
  - rewrite next_outcome_eq. destruct (outcome_at 0 p) as [e0|] eqn:E0.
    + split; [done|]. intros H. specialize (H 0%nat ltac:(lia)). congruence.
    + destruct (first_fault n (drop 1 p)) as [[k e1]|] eqn:Ef.
      * split; [done|]. intros H.
        assert (first_fault n (drop 1 p) = None) as Hn; [|congruence].
        apply IH. intros j ?. rewrite <- outcome_at_S. apply H. lia.
      * split; [|done]. intros _ [|j] ?; [done|].
        rewrite outcome_at_S. apply (proj1 (IH _) Ef). lia.
Qed.

(** One write on a state given by its fields. *)
Lemma i2c_write_eq command value d pg rs p xf log sg :
  i2c_smbus_write_byte_data command value (State d (Client pg rs p xf) log sg) =
  match outcome_at 0 p with
  | Some e =>
      (Z.neg e,
       State d (Client pg rs (drop 1 p) (xf ++ [XWrite (to_u8 command) (to_u8 value)]))
             log sg)
  | None =>
      let '(pg', rs') :=
        device_write (to_u8 command) (to_u8 value) (Client pg rs [] []) in
      (0, State d (Client pg' rs' (drop 1 p)
                     (xf ++ [XWrite (to_u8 command) (to_u8 value)])) log sg)
  end.
Proof.
  unfold i2c_smbus_write_byte_data, smbus_write.
  cbn [client data dmesg sysfs_group pending page regs xfers].
  rewrite next_outcome_eq. destruct (outcome_at 0 p); [done|].
  unfold device_write. cbn [page regs].
  by destruct (to_u8 command =? 0).
Qed.

Lemma i2c_read_eq command d pg rs p xf log sg :
  i2c_smbus_read_byte_data command (State d (Client pg rs p xf) log sg) =
  (match outcome_at 0 p with
   | Some e => Z.neg e
   | None => device_read (to_u8 command) (Client pg rs [] [])
   end,
   State d (Client pg rs (drop 1 p) (xf ++ [XRead (to_u8 command)])) log sg).
Proof.
  unfold i2c_smbus_read_byte_data, smbus_read.
  cbn [client data dmesg sysfs_group pending page regs xfers].
  rewrite next_outcome_eq. by destruct (outcome_at 0 p).
Qed.

(** What a fail-fast run of writes does to the state. *)
Lemma write_seq_run ws d pg rs p xf log sg :
  write_seq ws (State d (Client pg rs p xf) log sg) =
  (fail_fast_result (length ws) p,
   let done_ws := take (attempted (length ws) p) ws in
   let ok_ws :=
     match first_fault (length ws) p with
     | Some (i, _) => take i ws
     | None => ws
     end in
   State d (Client (fst (device_after ok_ws pg rs)) (snd (device_after ok_ws pg rs))
                   (drop (attempted (length ws) p) p)
                   (xf ++ table_writes done_ws)) log sg).
Proof.
  revert pg rs p xf. induction ws as [|w ws IH]; intros pg rs p xf.
  - simpl. unfold pure, fail_fast_result, attempted. simpl.
    by rewrite app_nil_r, drop_0.
  - cbn [write_seq]. unfold bind. rewrite i2c_write_eq.
    unfold fail_fast_result, attempted. cbn [length first_fault].
    rewrite next_outcome_eq.
    destruct (outcome_at 0 p) as [e|] eqn:E0.
    + simpl. reflexivity.
    + destruct (device_write (to_u8 (reg w)) (to_u8 (val w)) (Client pg rs [] []))
        as [pg' rs'] eqn:Ew.
      change (0 <? 0) with false. cbv iota. rewrite IH.
      unfold fail_fast_result, attempted.
      destruct (first_fault (length ws) (drop 1 p)) as [[i e]|] eqn:Ef.
      * cbv zeta. cbn [take table_writes map device_after].
        rewrite Ew. rewrite drop_drop. rewrite <- app_assoc. reflexivity.
      * cbv zeta. cbn [take table_writes map device_after].
        rewrite Ew. rewrite drop_drop. rewrite <- app_assoc. reflexivity.
Qed.

(** ** The setters *)

(** Abstract the result of each write in turn and follow both branches. *)
Ltac split_writes :=
  repeat match goal with
  | |- context [i2c_smbus_write_byte_data ?c ?v ?st] =>
      let r := fresh "r" in
      let s' := fresh "s" in
      let E := fresh "E" in
      destruct (i2c_smbus_write_byte_data c v st) as [r s'];
      cbv beta iota;
      destruct (r <? 0) eqn:E; [cbv beta iota; rewrite ?E; reflexivity|];
      cbv beta iota
  end.

Lemma set_volume_as_seq volume s :
  pamir_ai_i2c_sound_set_volume volume s =
  (let vol := clamp_percent (to_u8 volume) in
   let hp_val := fst (encode_volume vol) in
   let dac_val := snd (encode_volume vol) in
   set_data_volume vol ;;
   r <- write_seq (volume_writes hp_val dac_val) ;;
   if r <? 0 then pure r
   else
     dev_info "Volume set to %d%% (hp_val=0x%02x, dac_val=0x%02x)\n"
              [vol; hp_val; dac_val] ;;
     pure 0) s.
Proof.
  unfold pamir_ai_i2c_sound_set_volume. cbv zeta.
  destruct (encode_volume (clamp_percent (to_u8 volume))) as [hp dac].
  unfold volume_writes, write_seq, bind, pure, set_data_volume.
  cbn [fst snd reg val].
  split_writes. reflexivity.
Qed.

Lemma set_input_gain_as_seq gain s :
  pamir_ai_i2c_sound_set_input_gain gain s =
  (let g := clamp_percent (to_u8 gain) in
   set_data_input_gain g ;;
   r <- write_seq (gain_writes (encode_gain g)) ;;
   if r <? 0 then pure r
   else
     dev_info "Input gain set to %d%% (adc_val=0x%02x)\n" [g; encode_gain g] ;;
     pure 0) s.
Proof.
  unfold pamir_ai_i2c_sound_set_input_gain. cbv zeta.
  unfold gain_writes, write_seq, bind, pure, set_data_input_gain.
  cbn [fst snd reg val].
  split_writes. reflexivity.
Qed.

Lemma fail_fast_result_neg n p :
  (fail_fast_result n p <? 0) = true \/ fail_fast_result n p = 0.
Proof.
  unfold fail_fast_result. destruct (first_fault n p) as [[i e]|]; [left|right]; done.
Qed.

Lemma fail_fast_result_fault n p i e :
  (i < n)%nat -> outcome_at i p = Some e ->
  (forall j, (j < i)%nat -> outcome_at j p = None) ->
  fail_fast_result n p = Z.neg e /\ attempted n p = S i.
Proof.
  intros Hi He Hj.
  assert (first_fault n p = Some (i, e)) as Hf by (by apply first_fault_Some).
  unfold fail_fast_result, attempted. by rewrite Hf.
Qed.

Lemma fail_fast_result_quiet n p :
  (forall j, (j < n)%nat -> outcome_at j p = None) ->
  fail_fast_result n p = 0 /\ attempted n p = n /\ first_fault n p = None.
Proof.
  intros Hj. assert (first_fault n p = None) as Hf by (by apply first_fault_None).
  unfold fail_fast_result, attempted. by rewrite Hf.
Qed.

(** The setters on a state given by its fields. *)
Lemma set_volume_run volume d pg rs p xf log sg :
  let vol := clamp_percent (to_u8 volume) in
  let hp_val := fst (encode_volume vol) in
  let dac_val := snd (encode_volume vol) in
  let ws := volume_writes hp_val dac_val in
  pamir_ai_i2c_sound_set_volume volume (State d (Client pg rs p xf) log sg) =
  (fail_fast_result 8 p,
   State (Data vol (input_gain d))
         (Client (fst (device_reached ws p pg rs)) (snd (device_reached ws p pg rs))
                 (drop (attempted 8 p) p)
                 (xf ++ table_writes (take (attempted 8 p) ws)))
         (log ++ match first_fault 8 p with
                 | Some _ => []
                 | None =>
                     [Kmsg KERN_INFO
                           "Volume set to %d%% (hp_val=0x%02x, dac_val=0x%02x)\n"
                           [vol; hp_val; dac_val]]
                 end)
         sg).
Proof.
  cbv zeta. rewrite set_volume_as_seq. cbv zeta.
  unfold bind, set_data_volume, dev_info, pure.
  cbn [data client dmesg sysfs_group input_gain].
  rewrite write_seq_run. unfold device_reached, fail_fast_result, attempted.
  cbn [length volume_writes].
  destruct (first_fault 8 p) as [[i e]|]; cbv zeta.
  - change (Z.neg e <? 0) with true. cbv iota. by rewrite app_nil_r.
  - reflexivity.
Qed.

Lemma set_input_gain_run gain d pg rs p xf log sg :
  let g := clamp_percent (to_u8 gain) in
  let ws := gain_writes (encode_gain g) in
  pamir_ai_i2c_sound_set_input_gain gain (State d (Client pg rs p xf) log sg) =
  (fail_fast_result 3 p,
   State (Data (volume d) g)
         (Client (fst (device_reached ws p pg rs)) (snd (device_reached ws p pg rs))
                 (drop (attempted 3 p) p)
                 (xf ++ table_writes (take (attempted 3 p) ws)))
         (log ++ match first_fault 3 p with
                 | Some _ => []
                 | None =>
                     [Kmsg KERN_INFO "Input gain set to %d%% (adc_val=0x%02x)\n"
                           [g; encode_gain g]]
                 end)
         sg).
Proof.
  cbv zeta. rewrite set_input_gain_as_seq. cbv zeta.
  unfold bind, set_data_input_gain, dev_info, pure.
  cbn [data client dmesg sysfs_group volume].
  rewrite write_seq_run. unfold device_reached, fail_fast_result, attempted.
  cbn [length gain_writes].
  destruct (first_fault 3 p) as [[i e]|]; cbv zeta.
  - change (Z.neg e <? 0) with true. cbv iota. by rewrite app_nil_r.
  - reflexivity.
Qed.

(** C1, as stated, fails: with the cache at 50 and a bus whose next write
    fails, [set_volume 80] returns the error and leaves 80 in the cache;
    [set_input_gain] likewise. *)
Lemma set_failure_overwrites_cache :
  volume (data failing_session) = 50 /\
  fst (pamir_ai_i2c_sound_set_volume 80 failing_session) = -5 /\
  volume (data (snd (pamir_ai_i2c_sound_set_volume 80 failing_session))) = 80 /\
  volume (data (snd (pamir_ai_i2c_sound_set_volume 80 failing_session)))
    <> volume (data failing_session) /\
  input_gain (data failing_session) = 50 /\
  fst (pamir_ai_i2c_sound_set_input_gain 80 failing_session) = -5 /\
  input_gain (data (snd (pamir_ai_i2c_sound_set_input_gain 80 failing_session))) = 80 /\
  input_gain (data (snd (pamir_ai_i2c_sound_set_input_gain 80 failing_session)))
    <> input_gain (data failing_session).
Proof.
  split; [reflexivity|]. split; [reflexivity|]. split; [reflexivity|].
  split; [vm_compute; discriminate|].
  split; [reflexivity|]. split; [reflexivity|]. split; [reflexivity|].
  vm_compute; discriminate.
Qed.

(** C1 (amended): [set_volume] and [set_input_gain] store the clamped
    percentage in the cache before the first register write, so the cache
    holds it whatever the bus does.  When the write at position [i] is the
    first to fail, the operation returns that error and has attempted the
    writes up to [i] and none after; when no write fails it returns 0 after
    all its writes, in order. *)
Theorem set_percent_caches_then_writes (percent : Z) (s : driver_state)
    (i : nat) (e : positive) :
  let script := pending (client s) in
  let vol := clamp_percent (to_u8 percent) in
  let vws := volume_writes (fst (encode_volume vol)) (snd (encode_volume vol)) in
  let gws := gain_writes (encode_gain vol) in
  let sv := pamir_ai_i2c_sound_set_volume percent s in
  let sg := pamir_ai_i2c_sound_set_input_gain percent s in
  data (snd sv) = Data vol (input_gain (data s)) /\
  data (snd sg) = Data (volume (data s)) vol /\
  (outcome_at i script = Some e ->
   (forall j, (j < i)%nat -> outcome_at j script = None) ->
   ((i < 8)%nat ->
      fst sv = Z.neg e /\
      xfers (client (snd sv)) = xfers (client s) ++ table_writes (take (S i) vws)) /\
   ((i < 3)%nat ->
      fst sg = Z.neg e /\
      xfers (client (snd sg)) = xfers (client s) ++ table_writes (take (S i) gws))) /\
  ((forall j, (j < 8)%nat -> outcome_at j script = None) ->
     fst sv = 0 /\ xfers (client (snd sv)) = xfers (client s) ++ table_writes vws) /\
  ((forall j, (j < 3)%nat -> outcome_at j script = None) ->
     fst sg = 0 /\ xfers (client (snd sg)) = xfers (client s) ++ table_writes gws).
Proof.
  destruct s as [d [pg rs p xf] log sgr]. cbn [pending client data xfers]. cbv zeta.
  rewrite set_volume_run, set_input_gain_run.
  cbn [fst snd data client xfers]. cbv zeta.
  split; [done|]. split; [done|]. split; [|split].
  - intros He Hj. split; intros Hi.
    + destruct (fail_fast_result_fault _ p i e Hi He Hj) as [Hr Ha].
      by rewrite Hr, Ha.
    + destruct (fail_fast_result_fault _ p i e Hi He Hj) as [Hr Ha].
      by rewrite Hr, Ha.
  - intros Hq. destruct (fail_fast_result_quiet _ p Hq) as (Hr & Ha & _).
    by rewrite Hr, Ha.
  - intros Hq. destruct (fail_fast_result_quiet _ p Hq) as (Hr & Ha & _).
    by rewrite Hr, Ha.
Qed.

Lemma set_percent_caches_then_writes_witness :
  fst (pamir_ai_i2c_sound_set_volume 80 failing_session) = Z.neg 5 /\
  data (snd (pamir_ai_i2c_sound_set_volume 80 failing_session)) = Data 80 50 /\
  fst (pamir_ai_i2c_sound_set_volume 80 quiet_session) = 0.
Proof.
  pose proof (set_percent_caches_then_writes 80 failing_session 0 5) as Hf.
  pose proof (set_percent_caches_then_writes 80 quiet_session 0 5) as Hq.
  cbv zeta in Hf, Hq.
  destruct Hf as (Hd & _ & Hf & _). destruct Hq as (_ & _ & _ & Hq & _).
  split; [|split].
  - apply Hf; [reflexivity | intros j Hj; lia | lia].
  - exact Hd.
  - apply Hq. intros j _. unfold outcome_at. cbn. by rewrite lookup_nil.
Defined.

(** ** The initialisation sequence *)

Lemma probe_init_loop_run tbl d pg rs p xf log sg :
  probe_init_loop tbl (State d (Client pg rs p xf) log sg) =
  (fail_fast_result (length tbl) p,
   State d
         (Client (fst (device_reached tbl p pg rs)) (snd (device_reached tbl p pg rs))
                 (drop (attempted (length tbl) p) p)
                 (xf ++ table_writes (take (attempted (length tbl) p) tbl)))
         (log ++ init_log tbl p) sg).
Proof.
  revert pg rs p xf log. induction tbl as [|w tbl IH]; intros pg rs p xf log.
  - unfold init_log, device_reached, fail_fast_result, attempted. simpl.
    unfold pure. by rewrite !app_nil_r, drop_0.
  - cbn [probe_init_loop]. unfold bind at 1. rewrite i2c_write_eq.
    unfold init_log, device_reached, fail_fast_result, attempted.
    cbn [length first_fault]. rewrite next_outcome_eq.
    destruct (outcome_at 0 p) as [e|] eqn:E0.
    + change (Z.neg e <? 0) with true. cbv iota.
      unfold bind, dev_err, pure. cbn. reflexivity.
    + destruct (device_write (to_u8 (reg w)) (to_u8 (val w)) (Client pg rs [] []))
        as [pg' rs'] eqn:Ew.
      change (0 <? 0) with false. cbv iota.
      unfold bind at 1. unfold dev_info at 1.
      cbn [data client dmesg sysfs_group]. rewrite IH.
      unfold init_log, device_reached, fail_fast_result, attempted.
      destruct (first_fault (length tbl) (drop 1 p)) as [[i e]|] eqn:Ef.
      * cbn [take table_writes map lookup list_lookup device_after].
        rewrite Ew, drop_drop, <- !app_assoc. reflexivity.
      * cbn [take table_writes map device_after].
        rewrite Ew, drop_drop, <- !app_assoc. reflexivity.
Qed.

(** [probe] when the initialisation loop fails: nothing follows the loop. *)
Lemma probe_init_failure table set_gain sysfs_ret pg rs p xf log i e :
  first_fault (length table) p = Some (i, e) ->
  probe_of table set_gain true sysfs_ret (Client pg rs p xf) log =
  (Z.neg e,
   Some (State (Data 50 50)
               (Client (fst (device_reached table p pg rs))
                       (snd (device_reached table p pg rs))
                       (drop (S i) p)
                       (xf ++ table_writes (take (S i) table)))
               ((log ++ [Kmsg KERN_INFO "Starting initialization sequence\n" []])
                  ++ init_log table p)
               false)).
Proof.
  intros Hf. unfold probe_of, probe_attach.
  unfold bind at 1. unfold dev_info at 1. cbn [data client dmesg sysfs_group].
  unfold bind at 1. rewrite probe_init_loop_run.
  unfold fail_fast_result, attempted. rewrite Hf.
  change (Z.neg e <? 0) with true. cbv iota. reflexivity.
Qed.

Lemma init_sequence_bytes :
  table_writes init_sequence = map (fun w => XWrite (reg w) (val w)) init_sequence.
Proof. reflexivity. Qed.

(** C7: the initialisation loop over the table, and [probe] around it.
    When the write of entry [i] is the first to fail, the loop returns that
    error, has attempted the writes of entries 0..i in table order and no
    other transfer, and its last log line is the error naming the register
    and value of entry [i]; [probe] then returns the same error with no
    further transfer.  When none of the writes fails, the loop returns 0
    having written every entry once, in table order. *)
Theorem init_sequence_fail_fast (s : driver_state) (i : nat) (e : positive)
    (w : reg_val) (sysfs_ret : Z) :
  let script := pending (client s) in
  let run := probe_init_loop init_sequence s in
  let attach := pamir_ai_i2c_sound_probe true sysfs_ret (client s) (dmesg s) in
  (init_sequence !! i = Some w ->
   outcome_at i script = Some e ->
   (forall j, (j < i)%nat -> outcome_at j script = None) ->
     fst run = Z.neg e /\
     xfers (client (snd run)) =
       xfers (client s) ++ table_writes (take (S i) init_sequence) /\
     last (dmesg (snd run)) = Some (init_failed w (Z.neg e)) /\
     data (snd run) = data s /\
     fst attach = Z.neg e /\
     (xfers ∘ client) <$> snd attach =
       Some (xfers (client s) ++ table_writes (take (S i) init_sequence))) /\
  ((forall j, (j < length init_sequence)%nat -> outcome_at j script = None) ->
     fst run = 0 /\
     xfers (client (snd run)) = xfers (client s) ++ table_writes init_sequence /\
     dmesg (snd run) = dmesg s ++ map init_wrote init_sequence) /\
  table_writes init_sequence = map (fun w => XWrite (reg w) (val w)) init_sequence.
Proof.
  destruct s as [d [pg rs p xf] log sg]. cbn [pending client data xfers dmesg].
  cbv zeta. split; [|split; [|apply init_sequence_bytes]].
  - intros Hw He Hj.
    assert (Hi : (i < length init_sequence)%nat) by (by eapply lookup_lt_Some).
    destruct (fail_fast_result_fault _ p i e Hi He Hj) as [Hr Ha].
    assert (Hf : first_fault (length init_sequence) p = Some (i, e))
      by (by apply first_fault_Some).
    rewrite probe_init_loop_run. cbn [fst snd data client xfers dmesg].
    rewrite Hr, Ha. split; [done|]. split; [done|]. split; [|split; [done|]].
    + unfold init_log. rewrite Hf, Hw. rewrite !app_assoc. apply last_snoc.
    + unfold pamir_ai_i2c_sound_probe.
      rewrite (probe_init_failure _ _ _ _ _ _ _ _ i e Hf). done.
  - intros Hq. destruct (fail_fast_result_quiet _ p Hq) as (Hr & Ha & Hf).
    rewrite probe_init_loop_run. cbn [fst snd data client xfers dmesg].
    rewrite Hr, Ha. unfold init_log. rewrite Hf.
    by rewrite firstn_all.
Qed.

Lemma init_sequence_fail_fast_witness :
  fst (probe_init_loop init_sequence fault_at_10) = -5 /\
  xfers (client (snd (probe_init_loop init_sequence fault_at_10))) =
    table_writes (take 11 init_sequence) /\
  fst (pamir_ai_i2c_sound_probe true 0 (client fault_at_10) []) = -5 /\
  fst (probe_init_loop init_sequence quiet_session) = 0.
Proof.
  destruct (init_sequence_fail_fast fault_at_10 10 5 (RV 0x00 0x01) 0) as (Hf & _).
  destruct (init_sequence_fail_fast quiet_session 0 5 (RV 0x00 0x00) 0) as (_ & Hq & _).
  destruct Hf as (Hr & Hx & _ & _ & Hp & _).
  - reflexivity.
  - reflexivity.
  - intros j Hj. do 10 (destruct j as [|j]; [reflexivity|]). lia.
  - destruct Hq as (Hq & _).
    + intros j _. unfold outcome_at. cbn. by rewrite lookup_nil.
    + split; [exact Hr|]. split; [exact Hx|]. split; [exact Hp | exact Hq].
Defined.

(** ** Raw register access *)

Lemma register_access_store_run pg rg value count d pgs rs p xf log sg :
  0 <= pg <= 255 -> 0 <= rg <= 255 -> 0 <= value <= 255 ->
  register_access_store [pg; rg; value] count (State d (Client pgs rs p xf) log sg) =
  match outcome_at 0 p with
  | Some e =>
      (Z.neg e,
       State d (Client pgs rs (drop 1 p) (xf ++ [XWrite 0 pg]))
             (log ++ [Kmsg KERN_ERR "Failed to select page %d: %d\n" [pg; Z.neg e]]) sg)
  | None =>
      match outcome_at 1 p with
      | Some e =>
          (Z.neg e,
           State d (Client pg rs (drop 2 p) (xf ++ [XWrite 0 pg; XWrite rg value]))
                 (log ++ [Kmsg KERN_ERR
                               "Failed to write 0x%02x to page %d reg 0x%02x: %d\n"
                               [value; pg; rg; Z.neg e]]) sg)
      | None =>
          (count,
           State d (Client (if rg =? 0 then value else pg)
                           (if rg =? 0 then rs else <[(pg, rg) := value]> rs)
                           (drop 2 p) (xf ++ [XWrite 0 pg; XWrite rg value]))
                 (log ++ [Kmsg KERN_INFO "Wrote 0x%02x to page %d reg 0x%02x\n"
                               [value; pg; rg]]) sg)
      end
  end.
Proof.
  intros Hpg Hrg Hv. unfold register_access_store.
  replace ((pg <? 0) || (pg >? 255) || (rg <? 0) || (rg >? 255)
           || (value <? 0) || (value >? 255)) with false by (symmetry; bfalse).
  unfold bind at 1. rewrite i2c_write_eq.
  change (to_u8 0) with 0. rewrite (to_u8_small pg) by lia.
  destruct (outcome_at 0 p) as [e|] eqn:E0.
  - change (Z.neg e <? 0) with true. reflexivity.
  - unfold device_write. change (0 =? 0) with true. cbn [regs page].
    change (0 <? 0) with false. cbv iota.
    unfold bind at 1. rewrite i2c_write_eq.
    rewrite (to_u8_small rg), (to_u8_small value) by lia.
    rewrite <- outcome_at_S. rewrite drop_drop, <- app_assoc. cbn [app Nat.add].
    destruct (outcome_at 1 p) as [e|] eqn:E1.
    + change (Z.neg e <? 0) with true. reflexivity.
    + unfold device_write. cbn [regs page]. by destruct (rg =? 0).
Qed.

Lemma register_access_show_run pg rg d pgs rs p xf log sg :
  0 <= pg <= 255 -> 0 <= rg <= 255 ->
  register_access_show [pg; rg] (State d (Client pgs rs p xf) log sg) =
  match outcome_at 0 p with
  | Some e =>
      ((Z.neg e, None),
       State d (Client pgs rs (drop 1 p) (xf ++ [XWrite 0 pg]))
             (log ++ [Kmsg KERN_ERR "Failed to select page %d: %d\n" [pg; Z.neg e]]) sg)
  | None =>
      match outcome_at 1 p with
      | Some e =>
          ((Z.neg e, None),
           State d (Client pg rs (drop 2 p) (xf ++ [XWrite 0 pg; XRead rg]))
                 (log ++ [Kmsg KERN_ERR "Failed to read register 0x%02x: %d\n"
                               [rg; Z.neg e]]) sg)
      | None =>
          let value := device_read rg (Client pg rs [] []) in
          ((strlen (sprintf_d value), Some (sprintf_d value)),
           State d (Client pg rs (drop 2 p) (xf ++ [XWrite 0 pg; XRead rg]))
                 (log ++ [Kmsg KERN_INFO "Read page %d reg 0x%02x: 0x%02x\n"
                               [pg; rg; value]]) sg)
      end
  end.
Proof.
  intros Hpg Hrg. unfold register_access_show.
  replace ((pg <? 0) || (pg >? 255) || (rg <? 0) || (rg >? 255))
    with false by (symmetry; bfalse).
  unfold bind at 1. rewrite i2c_write_eq.
  change (to_u8 0) with 0. rewrite (to_u8_small pg) by lia.
  destruct (outcome_at 0 p) as [e|] eqn:E0.
  - change (Z.neg e <? 0) with true. reflexivity.
  - unfold device_write. change (0 =? 0) with true. cbn [regs page].
    change (0 <? 0) with false. cbv iota.
    unfold bind at 1. rewrite i2c_read_eq.
    rewrite (to_u8_small rg) by lia.
    rewrite <- outcome_at_S. rewrite drop_drop, <- app_assoc. cbn [app Nat.add].
    destruct (outcome_at 1 p) as [e|] eqn:E1.
    + change (Z.neg e <? 0) with true. reflexivity.
    + assert (Hv : 0 <= device_read rg (Client pg rs [] []) < 256).
      { apply to_u8_range. }
      replace (device_read rg (Client pg rs [] []) <? 0) with false
        by (symmetry; bfalse).
      reflexivity.
Qed.

(** Out of range, or not the expected number of fields: [-EINVAL], with
    the bus and the cache untouched. *)
Lemma register_access_store_invalid scanned count s :
  (forall pg rg value, scanned = [pg; rg; value] ->
     ~ (0 <= pg <= 255 /\ 0 <= rg <= 255 /\ 0 <= value <= 255)) ->
  fst (register_access_store scanned count s) = - EINVAL /\
  client (snd (register_access_store scanned count s)) = client s /\
  data (snd (register_access_store scanned count s)) = data s.
Proof.
  intros H. unfold register_access_store.
  destruct scanned as [|pg [|rg [|value [|? ?]]]]; try done.
  specialize (H pg rg value eq_refl).
  replace ((pg <? 0) || (pg >? 255) || (rg <? 0) || (rg >? 255)
           || (value <? 0) || (value >? 255)) with true by (symmetry; btrue).
  done.
Qed.

Lemma register_access_show_invalid scanned s :
  (forall pg rg, scanned = [pg; rg] -> ~ (0 <= pg <= 255 /\ 0 <= rg <= 255)) ->
  fst (register_access_show scanned s) = (- EINVAL, None) /\
  client (snd (register_access_show scanned s)) = client s /\
  data (snd (register_access_show scanned s)) = data s.
Proof.
  intros H. unfold register_access_show.
  destruct scanned as [|pg [|rg [|? ?]]]; try done.
  specialize (H pg rg eq_refl).
  replace ((pg <? 0) || (pg >? 255) || (rg <? 0) || (rg >? 255))
    with true by (symmetry; btrue).
  done.
Qed.

(** C8: raw register access on the integers parsed from the request.  If
    the page, the register or (for a write) the value lies outside
    [0,255], the handler returns [-EINVAL] and the bus is untouched: no
    transfer is issued.  Otherwise the first transfer writes the page to
    register 0x00 and, that write done, the second and last transfer is
    the read or the write of the given register; a failing transfer ends
    the access with its error. *)
Theorem register_access_validated (s : driver_state) (pg rg value count : Z)
    (e : positive) :
  let script := pending (client s) in
  let show := register_access_show [pg; rg] s in
  let store := register_access_store [pg; rg; value] count s in
  (~ (0 <= pg <= 255 /\ 0 <= rg <= 255) ->
     fst show = (- EINVAL, None) /\ client (snd show) = client s) /\
  (~ (0 <= pg <= 255 /\ 0 <= rg <= 255 /\ 0 <= value <= 255) ->
     fst store = - EINVAL /\ client (snd store) = client s) /\
  (0 <= pg <= 255 -> 0 <= rg <= 255 ->
     (outcome_at 0 script = Some e ->
        fst show = (Z.neg e, None) /\
        xfers (client (snd show)) = xfers (client s) ++ [XWrite 0x00 pg]) /\
     (outcome_at 0 script = None ->
        xfers (client (snd show)) = xfers (client s) ++ [XWrite 0x00 pg; XRead rg] /\
        (outcome_at 1 script = Some e -> fst show = (Z.neg e, None)) /\
        (outcome_at 1 script = None ->
           let v := device_read rg (Client pg (regs (client s)) [] []) in
           fst show = (strlen (sprintf_d v), Some (sprintf_d v))))) /\
  (0 <= pg <= 255 -> 0 <= rg <= 255 -> 0 <= value <= 255 ->
     (outcome_at 0 script = Some e ->
        fst store = Z.neg e /\
        xfers (client (snd store)) = xfers (client s) ++ [XWrite 0x00 pg]) /\
     (outcome_at 0 script = None ->
        xfers (client (snd store)) =
          xfers (client s) ++ [XWrite 0x00 pg; XWrite rg value] /\
        (outcome_at 1 script = Some e -> fst store = Z.neg e) /\
        (outcome_at 1 script = None -> fst store = count))).
Proof.
  cbv zeta. split; [|split; [|split]].
  - intros H. destruct (register_access_show_invalid [pg; rg] s) as (Hr & Hc & _).
    + intros ? ? [= <- <-]. exact H.
    + by rewrite Hr, Hc.
  - intros H.
    destruct (register_access_store_invalid [pg; rg; value] count s) as (Hr & Hc & _).
    + intros ? ? ? [= <- <- <-]. exact H.
    + by rewrite Hr, Hc.
  - intros Hpg Hrg. destruct s as [d [pgs rs p xf] log sg].
    rewrite register_access_show_run by done. cbn [pending client xfers regs].
    split.
    + intros ->. done.
    + intros ->. destruct (outcome_at 1 p) as [e1|]; (split; [done|]).
      * split; [by intros [= ->] | done].
      * split; [done | by intros _].
  - intros Hpg Hrg Hv. destruct s as [d [pgs rs p xf] log sg].
    rewrite register_access_store_run by done. cbn [pending client xfers regs].
    split.
    + intros ->. done.
    + intros ->. destruct (outcome_at 1 p) as [e1|]; (split; [done|]).
      * split; [by intros [= ->] | done].
      * split; [done | by intros _].
Qed.

Lemma register_access_validated_witness :
  fst (register_access_show [256; -1] quiet_session) = (- EINVAL, None) /\
  client (snd (register_access_show [256; -1] quiet_session)) = client quiet_session /\
  fst (register_access_store [1; 16; 256] 8 quiet_session) = - EINVAL /\
  client (snd (register_access_store [1; 16; 256] 8 quiet_session)) =
    client quiet_session /\
  xfers (client (snd (register_access_show [1; 16] quiet_session))) =
    [XWrite 0 1; XRead 16] /\
  xfers (client (snd (register_access_store [1; 16; 7] 8 quiet_session))) =
    [XWrite 0 1; XWrite 16 7] /\
  fst (register_access_store [1; 16; 7] 8 quiet_session) = 8 /\
  fst (register_access_store [1; 16; 7] 8 failing_session) = -5.
Proof.
  destruct (register_access_validated quiet_session 256 (-1) 256 8 5) as (H1 & _).
  destruct (register_access_validated quiet_session 1 16 256 8 5) as (_ & H2 & _).
  destruct (register_access_validated quiet_session 1 16 7 8 5) as (_ & _ & H3 & H4).
  destruct (register_access_validated failing_session 1 16 7 8 5) as (_ & _ & _ & H5).
  destruct H1 as [H1a H1b]; [lia|]. destruct H2 as [H2a H2b]; [lia|].
  destruct H3 as [_ H3]; [lia | lia |]. destruct H3 as (H3 & _); [reflexivity|].
  destruct H4 as [_ H4]; [lia | lia | lia |].
  destruct H4 as (H4a & _ & H4b); [reflexivity|].
  destruct H5 as [H5 _]; [lia | lia | lia |]. destruct H5 as [H5 _]; [reflexivity|].
  split; [exact H1a|]. split; [exact H1b|]. split; [exact H2a|]. split; [exact H2b|].
  split; [exact H3|]. split; [exact H4a|]. split; [apply H4b; reflexivity | exact H5].
Defined.

(** ** The cache invariant *)

Lemma decode_volume_range hp dac : 0 <= decode_volume hp dac <= 100.
Proof.
  unfold decode_volume. cbv zeta.
  set (v := if c_true (Z.land hp 64) then 0 else _).
  assert (Hv : 0 <= v).
  { subst v. case_match; [lia|]. unfold volume_tiers, volume_fallback. cbv zeta.
    repeat case_match; try lia; apply to_u8_range. }
  destruct (Z.gtb_spec v 100); lia.
Qed.

Lemma decode_gain_range ret : 0 <= decode_gain ret <= 100.
Proof.
  unfold decode_gain. cbv zeta. rewrite land_0x7F.
  assert (Ha : 0 <= to_u8 (ret `mod` 128) < 128).
  { rewrite to_u8_small; pose proof (Z.mod_pos_bound ret 128); lia. }
  set (adc := to_u8 (ret `mod` 128)) in *.
  change (0x68 - 0x29) with 63.
  destruct (Z.geb_spec adc 104); [lia|].
  destruct (Z.leb_spec adc 40); rewrite to_u8_small; c_arith.
Qed.

Lemma keeps_pure {A} (a : A) : keeps_cache (pure a).
Proof. by intros s. Qed.

Lemma keeps_bind {A B} (m : drv A) (k : A -> drv B) :
  keeps_cache m -> (forall a, keeps_cache (k a)) -> keeps_cache (bind m k).
Proof.
  intros Hm Hk s Hs. unfold bind. specialize (Hm s Hs).
  destruct (m s) as [a s1]. by apply Hk.
Qed.

Lemma keeps_if {A} (b : bool) (m1 m2 : drv A) :
  keeps_cache m1 -> keeps_cache m2 -> keeps_cache (if b then m1 else m2).
Proof. by destruct b. Qed.

Lemma keeps_write command value : keeps_cache (i2c_smbus_write_byte_data command value).
Proof.
  intros s Hs. unfold i2c_smbus_write_byte_data.
  by destruct (smbus_write command value (client s)).
Qed.

Lemma keeps_read command : keeps_cache (i2c_smbus_read_byte_data command).
Proof.
  intros s Hs. unfold i2c_smbus_read_byte_data.
  by destruct (smbus_read command (client s)).
Qed.

Lemma keeps_dev_err f a : keeps_cache (dev_err f a).
Proof. by intros s. Qed.

Lemma keeps_dev_info f a : keeps_cache (dev_info f a).
Proof. by intros s. Qed.

Lemma keeps_get_data : keeps_cache get_data.
Proof. by intros s. Qed.

Lemma keeps_set_sysfs_group b : keeps_cache (set_sysfs_group b).
Proof. by intros s. Qed.

Lemma keeps_set_data_volume v : 0 <= v <= 100 -> keeps_cache (set_data_volume v).
Proof. intros Hv s [_ Hg]. by split. Qed.

Lemma keeps_set_data_input_gain g :
  0 <= g <= 100 -> keeps_cache (set_data_input_gain g).
Proof. intros Hg s [Hv _]. by split. Qed.

Create HintDb keeps discriminated.
#[local] Hint Resolve keeps_pure keeps_write keeps_read keeps_dev_err keeps_dev_info
  keeps_get_data keeps_set_sysfs_group keeps_set_data_volume
  keeps_set_data_input_gain clamp_percent_range decode_volume_range
  decode_gain_range : keeps.

(** Walk down a computation: binds, tests and matches on the input. *)
Ltac keeps_step :=
  match goal with
  | |- keeps_cache (bind _ _) => apply keeps_bind; [|intros ?]
  | |- keeps_cache (if _ then _ else _) => apply keeps_if
  | |- keeps_cache (let '(_, _) := ?p in _) => destruct p
  | |- keeps_cache (match ?x with _ => _ end) => destruct x
  | |- keeps_cache _ => solve [auto with keeps]
  end.

Lemma keeps_set_volume v : keeps_cache (pamir_ai_i2c_sound_set_volume v).
Proof. unfold pamir_ai_i2c_sound_set_volume. cbv zeta. repeat keeps_step. Qed.

Lemma keeps_set_input_gain g : keeps_cache (pamir_ai_i2c_sound_set_input_gain g).
Proof. unfold pamir_ai_i2c_sound_set_input_gain. cbv zeta. repeat keeps_step. Qed.

Lemma keeps_get_volume : keeps_cache pamir_ai_i2c_sound_get_volume.
Proof. unfold pamir_ai_i2c_sound_get_volume. cbv zeta. repeat keeps_step. Qed.

Lemma keeps_get_input_gain : keeps_cache pamir_ai_i2c_sound_get_input_gain.
Proof. unfold pamir_ai_i2c_sound_get_input_gain. repeat keeps_step. Qed.

#[local] Hint Resolve keeps_set_volume keeps_set_input_gain keeps_get_volume
  keeps_get_input_gain : keeps.

Lemma keeps_register_access_show scanned : keeps_cache (register_access_show scanned).
Proof. unfold register_access_show. repeat keeps_step. Qed.

Lemma keeps_register_access_store scanned count :
  keeps_cache (register_access_store scanned count).
Proof. unfold register_access_store. repeat keeps_step. Qed.

Lemma keeps_volume_level_show : keeps_cache volume_level_show.
Proof. unfold volume_level_show. repeat keeps_step. Qed.

Lemma keeps_volume_level_store parsed count :
  keeps_cache (volume_level_store parsed count).
Proof. unfold volume_level_store. cbv zeta. repeat keeps_step. Qed.

Lemma keeps_input_gain_show : keeps_cache input_gain_show.
Proof. unfold input_gain_show, input_gain_show_of. repeat keeps_step. Qed.

Lemma keeps_input_gain_store parsed count :
  keeps_cache (input_gain_store parsed count).
Proof. unfold input_gain_store, input_gain_store_of. cbv zeta. repeat keeps_step. Qed.

Lemma keeps_probe_init_loop tbl : keeps_cache (probe_init_loop tbl).
Proof. induction tbl as [|w tbl IH]; cbn [probe_init_loop]; repeat keeps_step. Qed.

Lemma keeps_probe_attach sysfs_ret :
  keeps_cache (probe_attach init_sequence pamir_ai_i2c_sound_set_input_gain sysfs_ret).
Proof.
  unfold probe_attach. pose proof keeps_probe_init_loop. repeat keeps_step.
Qed.

Lemma run_op_cache_ok o s : cache_ok (data s) -> cache_ok (data (run_op o s)).
Proof.
  destruct o; cbn [run_op].
  - apply keeps_volume_level_show.
  - apply keeps_volume_level_store.
  - apply keeps_input_gain_show.
  - apply keeps_input_gain_store.
  - apply keeps_register_access_show.
  - apply keeps_register_access_store.
Qed.

Lemma run_ops_cache_ok ops s : cache_ok (data s) -> cache_ok (data (run_ops ops s)).
Proof.
  revert s. induction ops as [|o ops IH]; intros s Hs; [done|].
  cbn [run_ops foldl]. apply IH. by apply run_op_cache_ok.
Qed.

Lemma probe_cache_ok kzalloc_ok sysfs_ret c klog s :
  snd (pamir_ai_i2c_sound_probe kzalloc_ok sysfs_ret c klog) = Some s ->
  cache_ok (data s).
Proof.
  unfold pamir_ai_i2c_sound_probe, probe_of. destruct kzalloc_ok; [|done].
  pose proof (keeps_probe_attach sysfs_ret (State (Data 50 50) c klog false)) as H.
  destruct (probe_attach _ _ _ _) as [r s1]. intros [= <-]. apply H.
  split; cbn; lia.
Qed.

(** C10: the cached percentages stay in [0,100].  Both setters cache the
    clamped input, which lies in [0,100]; the decoders give a value in
    [0,100] on any bytes whatever; hence each operation, any sequence of
    requests on the sysfs interface, and [probe] leave both cached values
    in [0,100]. *)
Theorem cache_always_percent (ops : list sysfs_op) (s : driver_state)
    (percent hp_byte dac_byte adc_byte : Z) :
  let vol := clamp_percent (to_u8 percent) in
  (0 <= vol <= 100) /\
  volume (data (snd (pamir_ai_i2c_sound_set_volume percent s))) = vol /\
  input_gain (data (snd (pamir_ai_i2c_sound_set_input_gain percent s))) = vol /\
  (0 <= decode_volume hp_byte dac_byte <= 100) /\
  (0 <= decode_gain adc_byte <= 100) /\
  (cache_ok (data s) ->
     cache_ok (data (snd (pamir_ai_i2c_sound_set_volume percent s))) /\
     cache_ok (data (snd (pamir_ai_i2c_sound_set_input_gain percent s))) /\
     cache_ok (data (snd (pamir_ai_i2c_sound_get_volume s))) /\
     cache_ok (data (snd (pamir_ai_i2c_sound_get_input_gain s))) /\
     cache_ok (data (run_ops ops s))) /\
  (forall kzalloc_ok sysfs_ret s',
     snd (pamir_ai_i2c_sound_probe kzalloc_ok sysfs_ret (client s) (dmesg s)) = Some s' ->
     cache_ok (data s')).
Proof.
  cbv zeta. split; [apply clamp_percent_range|].
  split; [|split].
  - destruct s as [d [pg rs p xf] log sg]. by rewrite set_volume_run.
  - destruct s as [d [pg rs p xf] log sg]. by rewrite set_input_gain_run.
  - split; [apply decode_volume_range|]. split; [apply decode_gain_range|].
    split.
    + intros Hs. split; [by apply keeps_set_volume|].
      split; [by apply keeps_set_input_gain|].
      split; [by apply keeps_get_volume|].
      split; [by apply keeps_get_input_gain | by apply run_ops_cache_ok].
    + intros kz sr s' H. by eapply probe_cache_ok.
Qed.

Lemma cache_always_percent_witness :
  cache_ok (data quiet_session) /\
  cache_ok (data (run_ops [VolumeLevelStore (KstrOk 250) 4;
                           RegisterAccessStore [1; 16; 0x3F] 8;
                           VolumeLevelShow; InputGainShow] quiet_session)) /\
  cache_ok (data (snd (pamir_ai_i2c_sound_get_volume quiet_session))).
Proof.
  assert (H0 : cache_ok (data quiet_session)) by (split; cbn; lia).
  destruct (cache_always_percent
              [VolumeLevelStore (KstrOk 250) 4; RegisterAccessStore [1; 16; 0x3F] 8;
               VolumeLevelShow; InputGainShow] quiet_session 0 0 0 0)
    as (_ & _ & _ & _ & _ & H & _).
  destruct (H H0) as (_ & _ & Hg & _ & Hr).
  split; [exact H0|]. split; [exact Hr | exact Hg].
Defined.

(** ** Setting, then reading back *)

(** The device after the eight writes of [set_volume]. *)
Lemma device_after_volume hp dac pg rs :
  0 <= hp < 256 -> 0 <= dac < 256 ->
  device_after (volume_writes hp dac) pg rs =
  (0, <[(0, 0x42) := dac]> (<[(0, 0x41) := dac]> (<[(1, 0x13) := hp]>
        (<[(1, 0x12) := hp]> (<[(1, 0x11) := hp]> (<[(1, 0x10) := hp]> rs)))))).
Proof.
  intros Hhp Hdac. unfold volume_writes. cbn [device_after reg val].
  rewrite !(to_u8_small hp), !(to_u8_small dac) by done. reflexivity.
Qed.

(** [get_volume] on a bus whose next four transfers succeed. *)
Lemma get_volume_run d pg rs p xf log sg :
  (forall j, (j < 4)%nat -> outcome_at j p = None) ->
  let hp_val := to_u8 (device_read 0x10 (Client 1 rs [] [])) in
  let dac_val := to_u8 (device_read 0x41 (Client 0 rs [] [])) in
  pamir_ai_i2c_sound_get_volume (State d (Client pg rs p xf) log sg) =
  (0, State (Data (decode_volume hp_val dac_val) (input_gain d))
            (Client 0 rs (drop 4 p)
                    (xf ++ [XWrite 0x00 0x01; XRead 0x10; XWrite 0x00 0x00; XRead 0x41]))
            log sg).
Proof.
  intros Hq. cbv zeta.
  pose proof (Hq 0%nat ltac:(lia)) as H0. pose proof (Hq 1%nat ltac:(lia)) as H1.
  pose proof (Hq 2%nat ltac:(lia)) as H2. pose proof (Hq 3%nat ltac:(lia)) as H3.
  rewrite outcome_at_S in H1. rewrite !outcome_at_S in H2. rewrite !outcome_at_S in H3.
  unfold pamir_ai_i2c_sound_get_volume.
  unfold bind at 1. rewrite i2c_write_eq, H0.
  change (to_u8 0) with 0. change (to_u8 1) with 1.
  unfold device_write at 1. change (0 =? 0) with true. cbn [page regs].
  change (0 <? 0) with false. cbv iota.
  unfold bind at 1. rewrite i2c_read_eq, H1. change (to_u8 16) with 16.
  assert (Hhp : 0 <= device_read 16 (Client 1 rs [] []) < 256) by apply to_u8_range.
  replace (device_read 16 (Client 1 rs [] []) <? 0) with false by (symmetry; bfalse).
  unfold bind at 1. rewrite i2c_write_eq, H2.
  change (to_u8 0) with 0.
  unfold device_write at 1. change (0 =? 0) with true. cbn [page regs].
  change (0 <? 0) with false. cbv iota.
  unfold bind at 1. rewrite i2c_read_eq, H3. change (to_u8 65) with 65.
  assert (Hdac : 0 <= device_read 65 (Client 0 rs [] []) < 256) by apply to_u8_range.
  replace (device_read 65 (Client 0 rs [] []) <? 0) with false by (symmetry; bfalse).
  unfold bind, set_data_volume, pure. cbn [data client dmesg sysfs_group input_gain].
  rewrite !drop_drop, <- !app_assoc. reflexivity.
Qed.

(** Set, then get, on a bus whose next twelve transfers succeed: the cache
    ends with the decoding of what was encoded. *)
Lemma set_get_volume_run percent s :
  (forall j, (j < 12)%nat -> outcome_at j (pending (client s)) = None) ->
  let vol := clamp_percent (to_u8 percent) in
  let set := pamir_ai_i2c_sound_set_volume percent s in
  let get := pamir_ai_i2c_sound_get_volume (snd set) in
  fst set = 0 /\ fst get = 0 /\
  data (snd get) =
    Data (decode_volume (fst (encode_volume vol)) (snd (encode_volume vol)))
         (input_gain (data s)).
Proof.
  intros Hq. destruct s as [d [pg rs p xf] log sg]. cbn [pending client] in Hq.
  cbv zeta. rewrite set_volume_run. cbv zeta.
  assert (Hq8 : forall j, (j < 8)%nat -> outcome_at j p = None)
    by (intros j ?; apply Hq; lia).
  destruct (fail_fast_result_quiet 8 p Hq8) as (Hr & Ha & Hf).
  rewrite Hr, Ha. unfold device_reached. cbn [length volume_writes]. rewrite Hf.
  cbn [fst snd].
  destruct (encode_volume_bytes (clamp_percent (to_u8 percent))) as [Hhp Hdac].
  set (hp := fst (encode_volume (clamp_percent (to_u8 percent)))) in *.
  set (dac := snd (encode_volume (clamp_percent (to_u8 percent)))) in *.
  change [RV 0 1; RV 16 hp; RV 17 hp; RV 18 hp; RV 19 hp; RV 0 0; RV 65 dac; RV 66 dac]
    with (volume_writes hp dac).
  rewrite device_after_volume by done. cbn [fst snd].
  rewrite get_volume_run.
  2:{ intros j Hj. unfold outcome_at. rewrite lookup_drop. apply Hq. lia. }
  cbn [fst snd data input_gain]. split; [done|]. split; [done|].
  unfold device_read. change (16 =? 0) with false. change (65 =? 0) with false.
  cbn [page regs].
  rewrite lookup_insert_ne by done. rewrite lookup_insert_ne by done.
  rewrite lookup_insert_ne by done. rewrite lookup_insert_ne by done.
  rewrite lookup_insert_ne by done. rewrite lookup_insert_eq.
  rewrite lookup_insert_ne by done. rewrite lookup_insert_eq.
  cbn [default from_option id]. unfold id.
  by rewrite !to_u8_idemp, (to_u8_small hp), (to_u8_small dac).
Qed.

(** The same with the cache replaced by any other before the read: what
    [get_volume] finds comes from the registers, and the transfers of the
    two calls are the eight writes followed by the two page selects and
    the two reads. *)
Lemma set_get_volume_fresh percent s d' :
  (forall j, (j < 12)%nat -> outcome_at j (pending (client s)) = None) ->
  let vol := clamp_percent (to_u8 percent) in
  let hp_val := fst (encode_volume vol) in
  let dac_val := snd (encode_volume vol) in
  let set := snd (pamir_ai_i2c_sound_set_volume percent s) in
  let get := pamir_ai_i2c_sound_get_volume
               (State d' (client set) (dmesg set) (sysfs_group set)) in
  fst get = 0 /\
  data (snd get) = Data (decode_volume hp_val dac_val) (input_gain d') /\
  xfers (client (snd get)) =
    xfers (client s) ++ table_writes (volume_writes hp_val dac_val) ++
    [XWrite 0x00 0x01; XRead 0x10; XWrite 0x00 0x00; XRead 0x41].
Proof.
  intros Hq. destruct s as [d [pg rs p xf] log sg]. cbn [pending client] in Hq.
  cbv zeta. rewrite set_volume_run. cbv zeta.
  assert (Hq8 : forall j, (j < 8)%nat -> outcome_at j p = None)
    by (intros j ?; apply Hq; lia).
  destruct (fail_fast_result_quiet 8 p Hq8) as (Hr & Ha & Hf).
  rewrite Ha. unfold device_reached. cbn [length volume_writes]. rewrite Hf.
  cbn [fst snd client dmesg sysfs_group xfers].
  destruct (encode_volume_bytes (clamp_percent (to_u8 percent))) as [Hhp Hdac].
  set (hp := fst (encode_volume (clamp_percent (to_u8 percent)))) in *.
  set (dac := snd (encode_volume (clamp_percent (to_u8 percent)))) in *.
  change [RV 0 1; RV 16 hp; RV 17 hp; RV 18 hp; RV 19 hp; RV 0 0; RV 65 dac; RV 66 dac]
    with (volume_writes hp dac).
  rewrite device_after_volume by done. cbn [fst snd].
  rewrite get_volume_run.
  2:{ intros j Hj. unfold outcome_at. rewrite lookup_drop. apply Hq. lia. }
  cbn [fst snd data client xfers input_gain]. split; [done|]. split.
  - unfold device_read. change (16 =? 0) with false. change (65 =? 0) with false.
    cbn [page regs].
    rewrite lookup_insert_ne by done. rewrite lookup_insert_ne by done.
    rewrite lookup_insert_ne by done. rewrite lookup_insert_ne by done.
    rewrite lookup_insert_ne by done. rewrite lookup_insert_eq.
    rewrite lookup_insert_ne by done. rewrite lookup_insert_eq.
    cbn [default from_option id]. unfold id.
    by rewrite !to_u8_idemp, (to_u8_small hp), (to_u8_small dac).
  - rewrite <- app_assoc. f_equal.
Qed.

(** C4: each of 1, 21, 40, 61, 91 and 100 percent is decoded from its
    own encoding into the tier it came from.  On a bus whose transfers
    succeed and whose reads return the bytes last written, [set_volume p]
    followed by [get_volume] issues the eight register writes of the
    encoding, then selects page 1 and reads register 0x10, selects page 0
    and reads register 0x41, and leaves in the cache the decoding of the
    encoding of the clamped [p].  The value comes from the registers and
    not from the cache: it is the same whatever the cache is made to hold
    between the two calls, and it is 48, not 50, after [set_volume 50].
    It is exactly 0 after [set_volume 0], in [91,100] after
    [set_volume 100], in [21,60] after [set_volume 50], and for the six
    percentages above in the tier of [p]. *)
Theorem volume_roundtrip_same_tier (p : Z) (s : driver_state) :
  let set := pamir_ai_i2c_sound_set_volume p s in
  let get := pamir_ai_i2c_sound_get_volume (snd set) in
  let read_back := volume (data (snd get)) in
  let vol := clamp_percent (to_u8 p) in
  let hp_val := fst (encode_volume vol) in
  let dac_val := snd (encode_volume vol) in
  (p ∈ [1; 21; 40; 61; 91; 100] ->
     tier_of (decode_volume (fst (encode_volume p)) (snd (encode_volume p)))
       = tier_of p) /\
  ((forall j, (j < 12)%nat -> outcome_at j (pending (client s)) = None) ->
     fst set = 0 /\ fst get = 0 /\
     read_back = decode_volume hp_val dac_val /\
     data (snd get) = Data read_back (input_gain (data s)) /\
     xfers (client (snd get)) =
       xfers (client s) ++ table_writes (volume_writes hp_val dac_val) ++
       [XWrite 0x00 0x01; XRead 0x10; XWrite 0x00 0x00; XRead 0x41] /\
     (forall cache,
        volume (data (snd (pamir_ai_i2c_sound_get_volume
          (State cache (client (snd set)) (dmesg (snd set)) (sysfs_group (snd set))))))
        = read_back) /\
     (p = 0 -> read_back = 0) /\
     (p = 100 -> 91 <= read_back <= 100) /\
     (p = 50 -> read_back = 48 /\ 21 <= read_back <= 60) /\
     (p ∈ [1; 21; 40; 61; 91; 100] -> tier_of read_back = tier_of p)).
Proof.
  cbv zeta. split; [apply volume_roundtrip_tier|].
  intros Hq. destruct (set_get_volume_run p s Hq) as (Hs & Hg & Hd).
  cbv zeta in Hd.
  assert (Hx := set_get_volume_fresh p s
                  (data (snd (pamir_ai_i2c_sound_set_volume p s))) Hq).
  cbv zeta in Hx. destruct Hx as (_ & _ & Hx).
  replace (State (data (snd (pamir_ai_i2c_sound_set_volume p s)))
                 (client (snd (pamir_ai_i2c_sound_set_volume p s)))
                 (dmesg (snd (pamir_ai_i2c_sound_set_volume p s)))
                 (sysfs_group (snd (pamir_ai_i2c_sound_set_volume p s))))
    with (snd (pamir_ai_i2c_sound_set_volume p s)) in Hx
    by (by destruct (snd (pamir_ai_i2c_sound_set_volume p s))).
  rewrite Hd. cbn [volume].
  split; [done|]. split; [done|]. split; [done|]. split; [done|].
  split; [exact Hx|]. split.
  { intros cache. destruct (set_get_volume_fresh p s cache Hq) as (_ & Hc & _).
    cbv zeta in Hc. by rewrite Hc. }
  split; [by intros ->|]. split; [by intros ->|]. split; [by intros ->|].
  intros Hp. repeat (apply elem_of_cons in Hp as [->|Hp]; [reflexivity|]).
  by apply elem_of_nil in Hp.
Qed.

Lemma volume_roundtrip_same_tier_witness :
  volume (data (snd (pamir_ai_i2c_sound_get_volume
                       (snd (pamir_ai_i2c_sound_set_volume 0 quiet_session))))) = 0 /\
  volume (data (snd (pamir_ai_i2c_sound_get_volume
                       (snd (pamir_ai_i2c_sound_set_volume 50 quiet_session))))) = 48 /\
  tier_of (volume (data (snd (pamir_ai_i2c_sound_get_volume
                       (snd (pamir_ai_i2c_sound_set_volume 40 quiet_session))))))
    = tier_of 40 /\
  tier_of (decode_volume (fst (encode_volume 91)) (snd (encode_volume 91)))
    = tier_of 91.
Proof.
  assert (Hq : forall j, (j < 12)%nat ->
                 outcome_at j (pending (client quiet_session)) = None).
  { intros j _. unfold outcome_at. cbn. by rewrite lookup_nil. }
  destruct (volume_roundtrip_same_tier 0 quiet_session) as (_ & H0).
  destruct (volume_roundtrip_same_tier 40 quiet_session) as (_ & H40).
  destruct (volume_roundtrip_same_tier 50 quiet_session) as (_ & H50).
  destruct (volume_roundtrip_same_tier 91 quiet_session) as (H91 & _).
  destruct (H0 Hq) as (_ & _ & _ & _ & _ & _ & H0' & _).
  destruct (H40 Hq) as (_ & _ & _ & _ & _ & _ & _ & _ & _ & H40').
  destruct (H50 Hq) as (_ & _ & _ & _ & _ & _ & _ & _ & H50' & _).
  split; [by apply H0'|]. split; [by apply H50'|]. split.
  - apply H40'. apply list_elem_of_In. cbn. tauto.
  - apply H91. apply list_elem_of_In. cbn. tauto.
Defined.


(** * Further properties of the driver *)

(** ** Reading back what was set: the curves *)

(** A property of two percentages holds on 0..100 once checked there. *)
Lemma forall_below2 (n : Z) (P : Z -> Z -> Prop)
    `{!forall x y, Decision (P x y)} :
  bool_decide (Forall (fun x => Forall (P x) (seqZ 0 n)) (seqZ 0 n)) = true ->
  forall x y, 0 <= x < n -> 0 <= y < n -> P x y.
Proof.
  intros HF x y Hx Hy. apply bool_decide_eq_true in HF.
  rewrite Forall_forall in HF. specialize (HF x).
  rewrite Forall_forall in HF. apply HF; apply elem_of_seqZ; lia.
Qed.

(** X1: the volume read back after [set_volume p], for every percent.
    Apart from 11, 12, 13 and 60 it is at most [p], at least [p - 4], and
    in the tier of [p].  11, 12 and 13 percent are encoded with a headphone
    byte in 0x14..0x1D, which the decoder takes for the 61-90 tier: they
    come back as 90, 82 and 69; 60 comes back as 61.  The read-back equals
    [p] for eleven percentages only. *)
Theorem volume_readback_error (p : Z) :
  0 <= p <= 100 ->
  (p ∉ [11; 12; 13; 60] ->
     p - 4 <= volume_readback p <= p /\
     tier_of (volume_readback p) = tier_of p) /\
  (p ∈ [11; 12; 13] ->
     0x14 <= fst (encode_volume p) <= 0x1D /\ snd (encode_volume p) = 0xA0 /\
     volume_readback p = Z.min 90 (61 + ((fst (encode_volume p) - 0x14) * 39) ÷ 9)) /\
  volume_readback 11 = 90 /\ volume_readback 12 = 82 /\
  volume_readback 13 = 69 /\ volume_readback 60 = 61 /\
  (volume_readback p = p <->
     p ∈ [0; 1; 20; 21; 61; 74; 87; 91; 94; 97; 100]).
Proof.
  intros Hp. assert (H : 0 <= p < 101) by lia. clear Hp. revert p H.
  apply (forall_below 101 (fun p =>
    (p ∉ [11; 12; 13; 60] ->
       p - 4 <= volume_readback p <= p /\
       tier_of (volume_readback p) = tier_of p) /\
    (p ∈ [11; 12; 13] ->
       0x14 <= fst (encode_volume p) <= 0x1D /\ snd (encode_volume p) = 0xA0 /\
       volume_readback p = Z.min 90 (61 + ((fst (encode_volume p) - 0x14) * 39) ÷ 9)) /\
    volume_readback 11 = 90 /\ volume_readback 12 = 82 /\
    volume_readback 13 = 69 /\ volume_readback 60 = 61 /\
    (volume_readback p = p <->
       p ∈ [0; 1; 20; 21; 61; 74; 87; 91; 94; 97; 100]))).
  vm_compute. reflexivity.
Qed.

Lemma volume_readback_error_witness :
  (40 - 4 <= volume_readback 40 <= 40) /\ volume_readback 12 = 82.
Proof.
  destruct (volume_readback_error 40) as (H & _); [lia|].
  destruct (volume_readback_error 12) as (_ & _ & _ & H12 & _); [lia|].
  split; [|exact H12]. apply H. intros Hin.
  repeat (apply elem_of_cons in Hin as [Hin|Hin]; [discriminate|]).
  by apply elem_of_nil in Hin.
Defined.

(** X2: writing back the volume just read never raises it, and in the
    21-60 tier it lowers it: from any percent 22..59 the read-back is
    smaller, and repeating set-then-get [p - 21] times from [p] in 21..59
    ends at 21. *)
Theorem volume_readback_decays (p : Z) :
  0 <= p <= 100 ->
  (volume_readback p <= p \/ p ∈ [11; 12; 13; 60]) /\
  (22 <= p <= 59 -> 21 <= volume_readback p < p) /\
  (21 <= p <= 59 -> Nat.iter (Z.to_nat (p - 21)) volume_readback p = 21).
Proof.
  intros Hp. assert (H : 0 <= p < 101) by lia. clear Hp. revert p H.
  apply (forall_below 101 (fun p =>
    (volume_readback p <= p \/ p ∈ [11; 12; 13; 60]) /\
    (22 <= p <= 59 -> 21 <= volume_readback p < p) /\
    (21 <= p <= 59 -> Nat.iter (Z.to_nat (p - 21)) volume_readback p = 21))).
  vm_compute. reflexivity.
Qed.

Lemma volume_readback_decays_witness :
  (21 <= volume_readback 50 < 50) /\
  Nat.iter (Z.to_nat (50 - 21)) volume_readback 50 = 21.
Proof.
  destruct (volume_readback_decays 50) as (_ & H1 & H2); [lia|].
  split; [apply H1 | apply H2]; lia.
Defined.

(** X3: the bytes of the encoders move one way within a range.  The
    headphone byte falls as the percent rises over 1..20 and does not fall
    over 21..100; the DAC byte does not fall over 91..100; the ADC byte
    falls over 0..19 and does not fall over 20..100.  Every headphone byte
    written is 0x40 or at most 0x3A, every ADC byte at most 0x68: bit 7 is
    never set. *)
Theorem encoders_monotone (p q : Z) :
  0 <= p <= q -> q <= 100 ->
  (1 <= p -> q <= 20 -> p < q -> fst (encode_volume q) < fst (encode_volume p)) /\
  (21 <= p -> fst (encode_volume p) <= fst (encode_volume q)) /\
  (91 <= p -> snd (encode_volume p) <= snd (encode_volume q)) /\
  (q <= 19 -> p < q -> encode_gain q < encode_gain p) /\
  (20 <= p -> encode_gain p <= encode_gain q) /\
  (fst (encode_volume p) = 0x40 \/ 0 <= fst (encode_volume p) <= 0x3A) /\
  (0 <= encode_gain p <= 0x68).
Proof.
  intros Hp Hq. assert (H1 : 0 <= p < 101) by lia. assert (H2 : 0 <= q < 101) by lia.
  assert (H : p <= q) by lia. clear Hp Hq. revert p q H1 H2 H.
  apply (forall_below2 101 (fun p q => p <= q ->
    (1 <= p -> q <= 20 -> p < q -> fst (encode_volume q) < fst (encode_volume p)) /\
    (21 <= p -> fst (encode_volume p) <= fst (encode_volume q)) /\
    (91 <= p -> snd (encode_volume p) <= snd (encode_volume q)) /\
    (q <= 19 -> p < q -> encode_gain q < encode_gain p) /\
    (20 <= p -> encode_gain p <= encode_gain q) /\
    (fst (encode_volume p) = 0x40 \/ 0 <= fst (encode_volume p) <= 0x3A) /\
    (0 <= encode_gain p <= 0x68))).
  vm_compute. reflexivity.
Qed.

Lemma encoders_monotone_witness :
  fst (encode_volume 15) < fst (encode_volume 3) /\
  fst (encode_volume 30) <= fst (encode_volume 95) /\
  encode_gain 19 < encode_gain 2.
Proof.
  destruct (encoders_monotone 3 15) as (H1 & _); [lia | lia |].
  destruct (encoders_monotone 30 95) as (_ & H2 & _); [lia | lia |].
  destruct (encoders_monotone 2 19) as (_ & _ & _ & H3 & _); [lia | lia |].
  split; [apply H1; lia|]. split; [apply H2; lia | apply H3; lia].
Defined.

(** X4: the input gain read back after [set_input_gain p] (revised
    driver) is [p] or [p - 1], never more than [p].  It equals [p] exactly
    at 0, at 19 and at the even percents from 20; from 1 to 18 it is
    [p - 1], so that [p] rounds of set-then-get from [p] in 0..18 end at 0. *)
Theorem gain_readback_error (p : Z) :
  0 <= p <= 100 ->
  (p - 1 <= gain_readback p <= p) /\
  (gain_readback p = p <-> p = 0 \/ p = 19 \/ (20 <= p /\ Z.even p = true)) /\
  (1 <= p <= 18 -> gain_readback p = p - 1) /\
  (p <= 18 -> Nat.iter (Z.to_nat p) gain_readback p = 0).
Proof.
  intros Hp. assert (H : 0 <= p < 101) by lia. clear Hp. revert p H.
  apply (forall_below 101 (fun p =>
    (p - 1 <= gain_readback p <= p) /\
    (gain_readback p = p <-> p = 0 \/ p = 19 \/ (20 <= p /\ Z.even p = true)) /\
    (1 <= p <= 18 -> gain_readback p = p - 1) /\
    (p <= 18 -> Nat.iter (Z.to_nat p) gain_readback p = 0))).
  vm_compute. reflexivity.
Qed.

Lemma gain_readback_error_witness :
  gain_readback 10 = 10 - 1 /\ Nat.iter (Z.to_nat 10) gain_readback 10 = 0.
Proof.
  destruct (gain_readback_error 10) as (_ & _ & H1 & H2); [lia|].
  split; [apply H1 | apply H2]; lia.
Defined.

(** X5: the earlier revision's decoder never reports more than 20
    percent, whatever byte the register holds: every non-zero byte below
    0x68 is read as attenuation, and its last branch (100 percent) is never
    taken.  Its round trip is exact at 0, 5, 10, 15 and 20 percent only. *)
Theorem legacy_gain_readback (ret p : Z) :
  (0 <= Legacy.decode_gain ret <= 20) /\
  (0 <= p <= 100 ->
     (Legacy.decode_gain (Legacy.encode_gain p) = p <-> p ∈ [0; 5; 10; 15; 20])).
Proof.
  split.
  - unfold Legacy.decode_gain. cbv zeta. rewrite land_0x7F.
    assert (Ha : 0 <= to_u8 (ret `mod` 128) < 128).
    { rewrite to_u8_small; pose proof (Z.mod_pos_bound ret 128); lia. }
    set (adc := to_u8 (ret `mod` 128)) in *.
    destruct (Z.geb_spec adc 104); [lia|].
    destruct (Z.gtb_spec adc 0).
    + rewrite to_u8_small; c_arith.
    + destruct (Z.leb_spec adc 40); [|lia]. rewrite to_u8_small; c_arith.
  - intros Hp. assert (H : 0 <= p < 101) by lia. clear Hp. revert p H.
    apply (forall_below 101 (fun p =>
      Legacy.decode_gain (Legacy.encode_gain p) = p <-> p ∈ [0; 5; 10; 15; 20])).
    vm_compute. reflexivity.
Qed.

Lemma legacy_gain_readback_witness :
  Legacy.decode_gain (Legacy.encode_gain 15) = 15.
Proof.
  destruct (legacy_gain_readback 0 15) as (_ & H).
  apply H; [lia|]. apply list_elem_of_In. cbn. tauto.
Defined.

(** ** The getters on any bus *)

Lemma device_read_nonneg command c : (device_read command c <? 0) = false.
Proof. pose proof (to_u8_range
         (if command =? 0 then page c else default 0 (regs c !! (page c, command)))).
       unfold device_read. bfalse. Qed.

(** [get_volume] whatever the bus does. *)
Lemma get_volume_eq d pg rs p xf log sg :
  pamir_ai_i2c_sound_get_volume (State d (Client pg rs p xf) log sg) =
  match first_fault 4 p with
  | Some (i, e) =>
      (Z.neg e,
       State d (Client (match i with O => pg | 1%nat | 2%nat => 1 | _ => 0 end) rs
                       (drop (S i) p) (xf ++ take (S i) volume_reads)) log sg)
  | None =>
      (0, State (Data (decode_volume
                         (to_u8 (device_read 0x10 (Client 1 rs [] [])))
                         (to_u8 (device_read 0x41 (Client 0 rs [] []))))
                      (input_gain d))
                (Client 0 rs (drop 4 p) (xf ++ volume_reads)) log sg)
  end.
Proof.
  unfold pamir_ai_i2c_sound_get_volume, volume_reads.
  cbn [first_fault]. rewrite !next_outcome_eq.
  unfold bind at 1. rewrite i2c_write_eq.
  change (to_u8 0) with 0. change (to_u8 1) with 1.
  destruct (outcome_at 0 p) as [e|]; [reflexivity|].
  unfold device_write at 1. change (0 =? 0) with true. cbn [page regs].
  change (0 <? 0) with false. cbv iota.
  unfold bind at 1. rewrite i2c_read_eq. change (to_u8 16) with 16.
  destruct (outcome_at 0 (drop 1 p)) as [e|].
  { change (Z.neg e <? 0) with true. cbv iota. unfold pure.
    by rewrite drop_drop, <- app_assoc. }
  rewrite device_read_nonneg.
  unfold bind at 1. rewrite i2c_write_eq. change (to_u8 0) with 0.
  destruct (outcome_at 0 (drop 1 (drop 1 p))) as [e|].
  { change (Z.neg e <? 0) with true. cbv iota. unfold pure.
    by rewrite !drop_drop, <- !app_assoc. }
  unfold device_write at 1. change (0 =? 0) with true. cbn [page regs].
  change (0 <? 0) with false. cbv iota.
  unfold bind at 1. rewrite i2c_read_eq. change (to_u8 65) with 65.
  destruct (outcome_at 0 (drop 1 (drop 1 (drop 1 p)))) as [e|].
  { change (Z.neg e <? 0) with true. cbv iota. unfold pure.
    by rewrite !drop_drop, <- !app_assoc. }
  rewrite device_read_nonneg.
  unfold bind, set_data_volume, pure. cbn [data client dmesg sysfs_group input_gain].
  by rewrite !drop_drop, <- !app_assoc.
Qed.

(** [get_input_gain] whatever the bus does. *)
Lemma get_input_gain_eq d pg rs p xf log sg :
  pamir_ai_i2c_sound_get_input_gain (State d (Client pg rs p xf) log sg) =
  match first_fault 2 p with
  | Some (i, e) =>
      (Z.neg e,
       State d (Client (match i with O => pg | _ => 0 end) rs
                       (drop (S i) p) (xf ++ take (S i) gain_reads)) log sg)
  | None =>
      (0, State (Data (volume d) (decode_gain (device_read 0x53 (Client 0 rs [] []))))
                (Client 0 rs (drop 2 p) (xf ++ gain_reads)) log sg)
  end.
Proof.
  unfold pamir_ai_i2c_sound_get_input_gain, gain_reads.
  cbn [first_fault]. rewrite !next_outcome_eq.
  unfold bind at 1. rewrite i2c_write_eq. change (to_u8 0) with 0.
  destruct (outcome_at 0 p) as [e|]; [reflexivity|].
  unfold device_write at 1. change (0 =? 0) with true. cbn [page regs].
  change (0 <? 0) with false. cbv iota.
  unfold bind at 1. rewrite i2c_read_eq. change (to_u8 83) with 83.
  destruct (outcome_at 0 (drop 1 p)) as [e|].
  { change (Z.neg e <? 0) with true. cbv iota. unfold pure.
    by rewrite drop_drop, <- app_assoc. }
  rewrite device_read_nonneg.
  unfold bind, set_data_input_gain, pure. cbn [data client dmesg sysfs_group volume].
  by rewrite !drop_drop, <- !app_assoc.
Qed.

(** X6: the getters stop at the first failing transfer and leave the cache
    alone.  When transfer [i] of [get_volume] (of four) or of
    [get_input_gain] (of two) is the first to fail, the getter returns that
    error, has attempted the transfers up to [i] and none after, and both
    cached values are what they were; the [show] handlers then return the
    error and print nothing. *)
Theorem getters_fail_fast (s : driver_state) (i : nat) (e : positive) :
  let script := pending (client s) in
  outcome_at i script = Some e ->
  (forall j, (j < i)%nat -> outcome_at j script = None) ->
  ((i < 4)%nat ->
     let run := pamir_ai_i2c_sound_get_volume s in
     fst run = Z.neg e /\ data (snd run) = data s /\
     xfers (client (snd run)) = xfers (client s) ++ take (S i) volume_reads /\
     fst (volume_level_show s) = (Z.neg e, None) /\
     data (snd (volume_level_show s)) = data s) /\
  ((i < 2)%nat ->
     let run := pamir_ai_i2c_sound_get_input_gain s in
     fst run = Z.neg e /\ data (snd run) = data s /\
     xfers (client (snd run)) = xfers (client s) ++ take (S i) gain_reads /\
     fst (input_gain_show s) = (Z.neg e, None) /\
     data (snd (input_gain_show s)) = data s).
Proof.
  destruct s as [d [pg rs p xf] log sg]. cbn [pending client data xfers]. cbv zeta.
  intros He Hj. split; intros Hi.
  - assert (Hf : first_fault 4 p = Some (i, e)) by (by apply first_fault_Some).
    unfold volume_level_show, bind. rewrite get_volume_eq, Hf.
    change (Z.neg e <? 0) with true. done.
  - assert (Hf : first_fault 2 p = Some (i, e)) by (by apply first_fault_Some).
    unfold input_gain_show, input_gain_show_of, bind. rewrite get_input_gain_eq, Hf.
    change (Z.neg e <? 0) with true. done.
Qed.

Lemma getters_fail_fast_witness :
  fst (pamir_ai_i2c_sound_get_volume failing_session) = -5 /\
  data (snd (pamir_ai_i2c_sound_get_volume failing_session)) = Data 50 50 /\
  fst (input_gain_show failing_session) = (-5, None).
Proof.
  destruct (getters_fail_fast failing_session 0 5) as (Hv & Hg);
    [reflexivity | intros j Hj; lia |].
  destruct Hv as (H1 & H2 & _); [lia|]. destruct Hg as (_ & _ & _ & H3 & _); [lia|].
  split; [exact H1|]. split; [exact H2 | exact H3].
Defined.

(** ** The sysfs handlers of the two percentages *)

Lemma saturate_eq v :
  (if v <? 0 then 0 else if v >? 100 then 100 else v) = Z.max 0 (Z.min 100 v).
Proof.
  destruct (Z.ltb_spec v 0); [lia|]. destruct (Z.gtb_spec v 100); lia.
Qed.

Lemma clamp_saturated v :
  clamp_percent (to_u8 (Z.max 0 (Z.min 100 v))) = Z.max 0 (Z.min 100 v).
Proof.
  rewrite to_u8_small by lia. unfold clamp_percent. by repeat eval_if.
Qed.

(** The [store] handlers on any bus. *)
Lemma stores_run (v count : Z) (e : positive) (s : driver_state) :
  let sat := Z.max 0 (Z.min 100 v) in
  let script := pending (client s) in
  volume_level_store (KstrErr e) count s = (Z.neg e, s) /\
  input_gain_store (KstrErr e) count s = (Z.neg e, s) /\
  snd (volume_level_store (KstrOk v) count s) =
    snd (pamir_ai_i2c_sound_set_volume sat s) /\
  snd (input_gain_store (KstrOk v) count s) =
    snd (pamir_ai_i2c_sound_set_input_gain sat s) /\
  data (snd (volume_level_store (KstrOk v) count s)) = Data sat (input_gain (data s)) /\
  data (snd (input_gain_store (KstrOk v) count s)) = Data (volume (data s)) sat /\
  fst (volume_level_store (KstrOk v) count s) =
    match first_fault 8 script with Some (_, e') => Z.neg e' | None => count end /\
  fst (input_gain_store (KstrOk v) count s) =
    match first_fault 3 script with Some (_, e') => Z.neg e' | None => count end.
Proof.
  cbv zeta. split; [done|]. split; [done|].
  destruct s as [d [pg rs p xf] log sg]. cbn [pending client data].
  unfold input_gain_store, input_gain_store_of, volume_level_store. cbv zeta.
  rewrite !saturate_eq. unfold bind.
  rewrite set_volume_run, set_input_gain_run. cbv zeta.
  rewrite !clamp_saturated. unfold fail_fast_result.
  destruct (first_fault 8 p) as [[i8 e8]|]; destruct (first_fault 3 p) as [[i3 e3]|];
    cbn [fst snd data]; done.
Qed.

(** X7: the [store] handlers.  A parse error of [kstrtoint] is returned as
    it is and nothing else happens.  A parsed integer is saturated to
    0..100 (a negative one to 0, one above 100 to 100) and handed to the
    setter: the cache holds the saturated value whatever the bus does, and
    the handler returns [count] when no write fails and the first error
    otherwise. *)
Theorem stores_saturate (v count : Z) (e : positive) (s : driver_state) :
  let sat := Z.max 0 (Z.min 100 v) in
  let script := pending (client s) in
  volume_level_store (KstrErr e) count s = (Z.neg e, s) /\
  input_gain_store (KstrErr e) count s = (Z.neg e, s) /\
  snd (volume_level_store (KstrOk v) count s) =
    snd (pamir_ai_i2c_sound_set_volume sat s) /\
  snd (input_gain_store (KstrOk v) count s) =
    snd (pamir_ai_i2c_sound_set_input_gain sat s) /\
  data (snd (volume_level_store (KstrOk v) count s)) = Data sat (input_gain (data s)) /\
  data (snd (input_gain_store (KstrOk v) count s)) = Data (volume (data s)) sat /\
  fst (volume_level_store (KstrOk v) count s) =
    match first_fault 8 script with Some (_, e') => Z.neg e' | None => count end /\
  fst (input_gain_store (KstrOk v) count s) =
    match first_fault 3 script with Some (_, e') => Z.neg e' | None => count end.
Proof.
  destruct (stores_run v count e s) as (He1 & He2 & Hs1 & Hs2 & Hd1 & Hd2 & Hr1 & Hr2).
  cbv zeta. split; [exact He1|]. split; [exact He2|]. split; [exact Hs1|].
  split; [exact Hs2|]. split; [exact Hd1|]. split; [exact Hd2|].
  split; [exact Hr1 | exact Hr2].
Qed.

Lemma device_after_gain adc pg rs :
  0 <= adc < 256 ->
  device_after (gain_writes adc) pg rs =
  (0, <[(0, 0x54) := adc]> (<[(0, 0x53) := adc]> rs)).
Proof.
  intros Hadc. unfold gain_writes. cbn [device_after reg val].
  rewrite !(to_u8_small adc) by done. reflexivity.
Qed.

Lemma encode_gain_byte g : 0 <= encode_gain g < 256.
Proof. unfold encode_gain. case_match; apply to_u8_range. Qed.

Lemma quiet_drop n m p :
  (forall j, (j < n + m)%nat -> outcome_at j p = None) ->
  forall j, (j < m)%nat -> outcome_at j (drop n p) = None.
Proof.
  intros H j Hj. unfold outcome_at. rewrite lookup_drop. apply H. lia.
Qed.

(** Set, then get, the input gain on a bus whose next five transfers
    succeed. *)
Lemma set_get_input_gain_run percent s :
  (forall j, (j < 5)%nat -> outcome_at j (pending (client s)) = None) ->
  let set := pamir_ai_i2c_sound_set_input_gain percent s in
  let get := pamir_ai_i2c_sound_get_input_gain (snd set) in
  fst set = 0 /\ fst get = 0 /\
  data (snd get) =
    Data (volume (data s)) (gain_readback (clamp_percent (to_u8 percent))).
Proof.
  intros Hq. destruct s as [d [pg rs p xf] log sg]. cbn [pending client] in Hq.
  cbv zeta. rewrite set_input_gain_run. cbv zeta.
  assert (Hq3 : forall j, (j < 3)%nat -> outcome_at j p = None)
    by (intros j ?; apply Hq; lia).
  destruct (fail_fast_result_quiet 3 p Hq3) as (Hr & Ha & Hf).
  rewrite Hr, Ha. unfold device_reached. cbn [length gain_writes]. rewrite Hf.
  pose proof (encode_gain_byte (clamp_percent (to_u8 percent))) as Hb.
  set (adc := encode_gain (clamp_percent (to_u8 percent))) in *.
  change [RV 0 0; RV 83 adc; RV 84 adc] with (gain_writes adc).
  rewrite device_after_gain by done. cbn [fst snd].
  rewrite get_input_gain_eq.
  assert (Hf2 : first_fault 2 (drop 3 p) = None).
  { apply first_fault_None. by apply (quiet_drop 3 2). }
  rewrite Hf2. cbn [fst snd data volume]. split; [done|]. split; [done|].
  unfold device_read. change (83 =? 0) with false. cbn [page regs].
  rewrite lookup_insert_ne by done. rewrite lookup_insert_eq.
  cbn [default from_option id]. unfold id, gain_readback. fold adc.
  by rewrite (to_u8_small adc).
Qed.

Lemma sprintf_percent_length v :
  0 <= v <= 100 -> 2 <= strlen (sprintf_d v) <= 4.
Proof.
  intros Hv. assert (H : 0 <= v < 101) by lia. clear Hv. revert v H.
  apply (forall_below 101 (fun v => 2 <= strlen (sprintf_d v) <= 4)).
  vm_compute. reflexivity.
Qed.

(** X8: storing a percentage and showing it, on a bus that does not fail.
    The [store] returns [count]; the [show] that follows returns the
    length of what it prints, 2 to 4 characters: the decimal digits of the
    read-back of the saturated value (decode of encode) and a newline. *)
Theorem store_then_show (v count : Z) (s : driver_state) :
  let sat := Z.max 0 (Z.min 100 v) in
  let script := pending (client s) in
  ((forall j, (j < 12)%nat -> outcome_at j script = None) ->
     let text := sprintf_d (volume_readback sat) in
     fst (volume_level_store (KstrOk v) count s) = count /\
     fst (volume_level_show (snd (volume_level_store (KstrOk v) count s))) =
       (strlen text, Some text) /\
     2 <= strlen text <= 4) /\
  ((forall j, (j < 5)%nat -> outcome_at j script = None) ->
     let text := sprintf_d (gain_readback sat) in
     fst (input_gain_store (KstrOk v) count s) = count /\
     fst (input_gain_show (snd (input_gain_store (KstrOk v) count s))) =
       (strlen text, Some text) /\
     2 <= strlen text <= 4).
Proof.
  cbv zeta.
  destruct (stores_run v count 1 s) as (_ & _ & Hv & Hg & _ & _ & Hrv & Hrg).
  cbv zeta in Hv, Hg, Hrv, Hrg. split; intros Hq.
  - destruct (set_get_volume_run (Z.max 0 (Z.min 100 v)) s Hq) as (_ & Hget & Hd).
    cbv zeta in Hget, Hd. rewrite clamp_saturated in Hd.
    rewrite Hrv, Hv.
    assert (Hf : first_fault 8 (pending (client s)) = None).
    { apply first_fault_None. intros j ?. apply Hq. lia. }
    rewrite Hf. split; [done|].
    unfold volume_level_show, bind, get_data, pure.
    destruct (pamir_ai_i2c_sound_get_volume _) as [r s2].
    cbn [fst snd] in Hget, Hd. subst r. change (0 <? 0) with false. cbv beta iota.
    cbn [fst]. rewrite Hd. cbn [volume]. split; [done|].
    apply sprintf_percent_length, decode_volume_range.
  - destruct (set_get_input_gain_run (Z.max 0 (Z.min 100 v)) s Hq) as (_ & Hget & Hd).
    cbv zeta in Hget, Hd. rewrite clamp_saturated in Hd.
    rewrite Hrg, Hg.
    assert (Hf : first_fault 3 (pending (client s)) = None).
    { apply first_fault_None. intros j ?. apply Hq. lia. }
    rewrite Hf. split; [done|].
    unfold input_gain_show, input_gain_show_of, bind, get_data, pure.
    destruct (pamir_ai_i2c_sound_get_input_gain _) as [r s2].
    cbn [fst snd] in Hget, Hd. subst r. change (0 <? 0) with false. cbv beta iota.
    cbn [fst]. rewrite Hd. cbn [input_gain]. split; [done|].
    apply sprintf_percent_length, decode_gain_range.
Qed.

Lemma store_then_show_witness :
  fst (volume_level_show (snd (volume_level_store (KstrOk 250) 4 quiet_session))) =
    (strlen (sprintf_d (volume_readback 100)), Some (sprintf_d (volume_readback 100))) /\
  fst (input_gain_show (snd (input_gain_store (KstrOk (-7)) 3 quiet_session))) =
    (strlen (sprintf_d (gain_readback 0)), Some (sprintf_d (gain_readback 0))).
Proof.
  assert (Hq : forall n j, (j < n)%nat ->
                 outcome_at j (pending (client quiet_session)) = None).
  { intros n j _. unfold outcome_at. cbn. by rewrite lookup_nil. }
  destruct (store_then_show 250 4 quiet_session) as (Hv & _).
  destruct (store_then_show (-7) 3 quiet_session) as (_ & Hg).
  destruct (Hv (Hq 12%nat)) as (_ & Hv' & _). destruct (Hg (Hq 5%nat)) as (_ & Hg' & _).
  split; [exact Hv' | exact Hg'].
Defined.

(** ** Raw register access composed *)

(** The byte a raw read of register [rg] on page [pg] prints when the
    device registers are [rs]. *)
Lemma raw_read_value pg rg rs :
  device_read rg (Client pg rs [] []) =
  to_u8 (if rg =? 0 then pg else default 0 (rs !! (pg, rg))).
Proof. reflexivity. Qed.

(** X9: a raw write changes what [get_input_gain] finds.  On a bus that
    does not fail, a raw write of [v] returns [count]; the getter that
    follows selects page 0, reads register 0x53 and caches the decoding of
    the byte now there: [v] where the write went to register 0x53 of page
    0, the byte held before otherwise.  The cached volume stays.  So a raw
    write there of a byte whose low seven bits are 0x68 or more makes the
    gain read 0, and a write anywhere else leaves the reading as it was. *)
Theorem raw_write_then_get_input_gain (s : driver_state) (pg rg v count : Z) :
  0 <= pg <= 255 -> 0 <= rg <= 255 -> 0 <= v <= 255 ->
  (forall j, (j < 4)%nat -> outcome_at j (pending (client s)) = None) ->
  let rs := regs (client s) in
  let adc_before := device_read 0x53 (Client 0 rs [] []) in
  let written := snd (register_access_store [pg; rg; v] count s) in
  let adc_now := if bool_decide ((pg, rg) = (0, 0x53)) then v else adc_before in
  let get := pamir_ai_i2c_sound_get_input_gain written in
  fst (register_access_store [pg; rg; v] count s) = count /\
  fst get = 0 /\
  data (snd get) = Data (volume (data s)) (decode_gain adc_now) /\
  xfers (client (snd get)) =
    xfers (client s) ++ [XWrite 0x00 pg; XWrite rg v] ++ gain_reads /\
  (pg = 0 -> rg = 0x53 -> 0x68 <= Z.land v 0x7F ->
     input_gain (data (snd get)) = 0) /\
  ((pg, rg) <> (0, 0x53) ->
     input_gain (data (snd get)) =
     input_gain (data (snd (pamir_ai_i2c_sound_get_input_gain s)))).
Proof.
  intros Hpg Hrg Hv Hq. destruct s as [d [pgs rs p xf] log sg].
  cbn [pending client regs] in *. cbv zeta.
  pose proof (Hq 0%nat ltac:(lia)) as H0. pose proof (Hq 1%nat ltac:(lia)) as H1.
  rewrite register_access_store_run by done. rewrite H0, H1. cbn [fst snd].
  rewrite !get_input_gain_eq.
  assert (Hf : first_fault 2 (drop 2 p) = None).
  { apply first_fault_None. by apply (quiet_drop 2 2). }
  assert (Hf' : first_fault 2 p = None).
  { apply first_fault_None. intros j ?. apply Hq. lia. }
  rewrite Hf, Hf'. cbn [fst snd data client xfers volume input_gain].
  assert (Hnow :
    device_read 83 (Client 0 (if rg =? 0 then rs else <[(pg, rg):=v]> rs) [] []) =
    if bool_decide ((pg, rg) = (0, 83)) then v
    else device_read 83 (Client 0 rs [] [])).
  { rewrite !raw_read_value. change (83 =? 0) with false. cbv iota.
    destruct (Z.eqb_spec rg 0) as [->|Hne].
    - by rewrite bool_decide_eq_false_2 by (intros [=]).
    - case_bool_decide as E.
      + injection E as -> ->. rewrite lookup_insert_eq.
        cbn [default from_option id]. unfold id. by rewrite (to_u8_small v) by lia.
      + rewrite lookup_insert_ne by congruence. done. }
  rewrite Hnow. split; [done|]. split; [done|]. split; [done|].
  split; [by rewrite <- app_assoc|]. split.
  - intros -> -> Hm. rewrite bool_decide_eq_true_2 by done.
    unfold decode_gain. cbv zeta.
    assert (Hr : 0 <= Z.land v 0x7F < 128)
      by (rewrite land_0x7F; apply Z.mod_pos_bound; lia).
    rewrite (to_u8_small (Z.land v 127)) by lia.
    replace (Z.land v 127 >=? 104) with true by (symmetry; btrue). done.
  - intros N. by rewrite bool_decide_eq_false_2 by done.
Qed.

Lemma raw_write_then_get_input_gain_witness :
  input_gain (data (snd (pamir_ai_i2c_sound_get_input_gain
    (snd (register_access_store [0; 0x53; 0x7F] 8 quiet_session))))) = 0.
Proof.
  destruct (raw_write_then_get_input_gain quiet_session 0 0x53 0x7F 8)
    as (_ & _ & _ & _ & H & _); try lia.
  - intros j _. unfold outcome_at. cbn. by rewrite lookup_nil.
  - apply H; [reflexivity | reflexivity | compute; discriminate].
Defined.

(** X10: a raw write changes what [get_volume] finds.  On a bus that does
    not fail, after a raw write of [v] the getter caches the decoding of
    the bytes now in register 0x10 of page 1 and register 0x41 of page 0:
    [v] where the write went to one of them, the byte held before
    otherwise.  So a raw write of a byte with bit 6 set to page 1 register
    0x10 makes the volume read 0, and a write anywhere else leaves the
    reading as it was. *)
Theorem raw_write_then_get_volume (s : driver_state) (pg rg v count : Z) :
  0 <= pg <= 255 -> 0 <= rg <= 255 -> 0 <= v <= 255 ->
  (forall j, (j < 6)%nat -> outcome_at j (pending (client s)) = None) ->
  let rs := regs (client s) in
  let hp_before := to_u8 (device_read 0x10 (Client 1 rs [] [])) in
  let dac_before := to_u8 (device_read 0x41 (Client 0 rs [] [])) in
  let written := snd (register_access_store [pg; rg; v] count s) in
  let hp_now := if bool_decide ((pg, rg) = (1, 0x10)) then v else hp_before in
  let dac_now := if bool_decide ((pg, rg) = (0, 0x41)) then v else dac_before in
  fst (pamir_ai_i2c_sound_get_volume written) = 0 /\
  volume (data (snd (pamir_ai_i2c_sound_get_volume written))) =
    decode_volume hp_now dac_now /\
  (pg = 1 -> rg = 0x10 -> Z.land v 0x40 <> 0 ->
     volume (data (snd (pamir_ai_i2c_sound_get_volume written))) = 0) /\
  ((pg, rg) <> (1, 0x10) -> (pg, rg) <> (0, 0x41) ->
     volume (data (snd (pamir_ai_i2c_sound_get_volume written))) =
     volume (data (snd (pamir_ai_i2c_sound_get_volume s)))).
Proof.
  intros Hpg Hrg Hv Hq. destruct s as [d [pgs rs p xf] log sg].
  cbn [pending client regs] in *. cbv zeta.
  pose proof (Hq 0%nat ltac:(lia)) as H0. pose proof (Hq 1%nat ltac:(lia)) as H1.
  rewrite register_access_store_run by done. rewrite H0, H1. cbn [fst snd].
  rewrite !get_volume_eq.
  assert (Hf : first_fault 4 (drop 2 p) = None).
  { apply first_fault_None. by apply (quiet_drop 2 4). }
  assert (Hf' : first_fault 4 p = None).
  { apply first_fault_None. intros j ?. apply Hq. lia. }
  rewrite Hf, Hf'. cbn [fst snd data volume].
  assert (Hnow :
    decode_volume
      (to_u8 (device_read 16
         (Client 1 (if rg =? 0 then rs else <[(pg, rg):=v]> rs) [] [])))
      (to_u8 (device_read 65
         (Client 0 (if rg =? 0 then rs else <[(pg, rg):=v]> rs) [] []))) =
    decode_volume
      (if bool_decide ((pg, rg) = (1, 16)) then v
       else to_u8 (device_read 16 (Client 1 rs [] [])))
      (if bool_decide ((pg, rg) = (0, 65)) then v
       else to_u8 (device_read 65 (Client 0 rs [] [])))).
  { rewrite !raw_read_value. change (16 =? 0) with false. change (65 =? 0) with false.
    cbv iota. destruct (Z.eqb_spec rg 0) as [->|Hne].
    - rewrite !bool_decide_eq_false_2 by (intros [=]; lia). done.
    - f_equal.
      + case_bool_decide as E.
        * injection E as -> ->. rewrite lookup_insert_eq.
          cbn [default from_option id]. unfold id.
          by rewrite !(to_u8_small v) by lia.
        * rewrite lookup_insert_ne by congruence. done.
      + case_bool_decide as E.
        * injection E as -> ->. rewrite lookup_insert_eq.
          cbn [default from_option id]. unfold id.
          by rewrite !(to_u8_small v) by lia.
        * rewrite lookup_insert_ne by congruence. done. }
  rewrite Hnow. split; [done|]. split; [done|]. split.
  - intros -> -> Hm. rewrite bool_decide_eq_true_2 by done.
    by apply decode_volume_muted.
  - intros N1 N2. by rewrite !bool_decide_eq_false_2 by done.
Qed.

Lemma raw_write_then_get_volume_witness :
  volume (data (snd (pamir_ai_i2c_sound_get_volume
    (snd (register_access_store [1; 16; 0x45] 8 quiet_session))))) = 0.
Proof.
  destruct (raw_write_then_get_volume quiet_session 1 16 0x45 8) as (_ & _ & H & _);
    try lia.
  - intros j _. unfold outcome_at. cbn. by rewrite lookup_nil.
  - apply H; [reflexivity | reflexivity | compute; discriminate].
Defined.

(** ** The selected page is never observed *)

Lemma same_but_page_refl s : same_but_page s s.
Proof. by repeat split. Qed.

Lemma blind_pure {A} (a : A) : page_blind (pure a).
Proof. by intros s1 s2 H. Qed.

Lemma blind_bind {A B} (m : drv A) (k : A -> drv B) :
  page_blind m -> (forall a, page_blind (k a)) -> page_blind (bind m k).
Proof.
  intros Hm Hk s1 s2 Hs. unfold bind. destruct (Hm s1 s2 Hs) as [Hr Hs'].
  destruct (m s1) as [a1 t1]. destruct (m s2) as [a2 t2]. cbn [fst snd] in *.
  subst a2. by apply Hk.
Qed.

Lemma blind_if {A} (b : bool) (m1 m2 : drv A) :
  page_blind m1 -> page_blind m2 -> page_blind (if b then m1 else m2).
Proof. by destruct b. Qed.

Lemma blind_dev_err f a : page_blind (dev_err f a).
Proof.
  intros s1 s2 (Hd & Hl & Hg & Hr & Hp & Hx). unfold dev_err. cbn.
  repeat split; try done. by rewrite Hl.
Qed.

Lemma blind_dev_info f a : page_blind (dev_info f a).
Proof.
  intros s1 s2 (Hd & Hl & Hg & Hr & Hp & Hx). unfold dev_info. cbn.
  repeat split; try done. by rewrite Hl.
Qed.

Lemma blind_get_data : page_blind get_data.
Proof. intros s1 s2 H. unfold get_data. cbn. split; [apply H | done]. Qed.

Lemma blind_set_data_volume v : page_blind (set_data_volume v).
Proof.
  intros s1 s2 (Hd & Hl & Hg & Hr & Hp & Hx). unfold set_data_volume. cbn.
  repeat split; try done. by rewrite Hd.
Qed.

Lemma blind_set_data_input_gain g : page_blind (set_data_input_gain g).
Proof.
  intros s1 s2 (Hd & Hl & Hg & Hr & Hp & Hx). unfold set_data_input_gain. cbn.
  repeat split; try done. by rewrite Hd.
Qed.

(** A page select followed by anything: once the select has succeeded the
    two states are one and the same. *)
Lemma blind_page_select {A} value (kerr : Z -> drv A) (k : drv A) :
  (forall r, page_blind (kerr r)) ->
  page_blind (bind (i2c_smbus_write_byte_data 0x00 value)
                   (fun r => if r <? 0 then kerr r else k)).
Proof.
  intros Hk [d1 [pg1 rs1 p1 xf1] l1 g1] [d2 [pg2 rs2 p2 xf2] l2 g2].
  intros (Hd & Hl & Hg & Hr & Hp & Hx). cbn in Hd, Hl, Hg, Hr, Hp, Hx. subst.
  unfold bind. rewrite !i2c_write_eq. change (to_u8 0) with 0.
  destruct (outcome_at 0 p2) as [e|].
  - change (Z.neg e <? 0) with true. cbv iota. apply Hk. by repeat split.
  - unfold device_write. change (0 =? 0) with true. cbn [page regs].
    change (0 <? 0) with false. cbv iota. split; [done|]. apply same_but_page_refl.
Qed.

Create HintDb blind discriminated.
#[local] Hint Resolve blind_pure blind_dev_err blind_dev_info blind_get_data
  blind_set_data_volume blind_set_data_input_gain : blind.

Ltac blind_step :=
  match goal with
  | |- page_blind (bind (i2c_smbus_write_byte_data 0 _) _) =>
      apply blind_page_select; intros ?
  | |- page_blind (bind _ _) => apply blind_bind; [|intros ?]
  | |- page_blind (if _ then _ else _) => apply blind_if
  | |- page_blind (let '(_, _) := ?p in _) => destruct p
  | |- page_blind (match ?x with _ => _ end) => destruct x
  | |- page_blind _ => solve [auto with blind]
  end.

Lemma blind_set_volume v : page_blind (pamir_ai_i2c_sound_set_volume v).
Proof. unfold pamir_ai_i2c_sound_set_volume. cbv zeta. repeat blind_step. Qed.

Lemma blind_set_input_gain g : page_blind (pamir_ai_i2c_sound_set_input_gain g).
Proof. unfold pamir_ai_i2c_sound_set_input_gain. cbv zeta. repeat blind_step. Qed.

Lemma blind_get_volume : page_blind pamir_ai_i2c_sound_get_volume.
Proof. unfold pamir_ai_i2c_sound_get_volume. repeat blind_step. Qed.

Lemma blind_get_input_gain : page_blind pamir_ai_i2c_sound_get_input_gain.
Proof. unfold pamir_ai_i2c_sound_get_input_gain. repeat blind_step. Qed.

#[local] Hint Resolve blind_set_volume blind_set_input_gain blind_get_volume
  blind_get_input_gain : blind.

Lemma blind_handle o : page_blind (handle o).
Proof.
  destruct o; cbn [handle];
    unfold volume_level_show, volume_level_store, input_gain_show, input_gain_show_of,
      input_gain_store, input_gain_store_of, register_access_show,
      register_access_store; cbv zeta; repeat blind_step.
Qed.

Lemma blind_handle_all ops : page_blind (handle_all ops).
Proof.
  induction ops as [|o ops IH]; cbn [handle_all]; [apply blind_pure|].
  apply blind_bind; [apply blind_handle|]. intros r.
  apply blind_bind; [apply IH|]. intros rs. apply blind_pure.
Qed.

Lemma run_op_handle o s : run_op o s = snd (handle o s).
Proof.
  destruct o; cbn [run_op handle]; try done; unfold bind, pure;
    by match goal with |- context [let '(_, _) := ?m in _] => destruct m end.
Qed.

(** X11: the page the device has selected when a request arrives is never
    observed.  Every operation selects its page before it touches a
    register, so for two sessions that differ in the selected page only,
    any sequence of sysfs requests hands back the same return values and
    texts, and leaves the same cache, kernel log, registers and
    transfers. *)
Theorem selected_page_unobserved (ops : list sysfs_op) (s1 s2 : driver_state) :
  same_but_page s1 s2 ->
  fst (handle_all ops s1) = fst (handle_all ops s2) /\
  same_but_page (snd (handle_all ops s1)) (snd (handle_all ops s2)) /\
  (forall percent,
     fst (pamir_ai_i2c_sound_set_volume percent s1) =
       fst (pamir_ai_i2c_sound_set_volume percent s2) /\
     fst (pamir_ai_i2c_sound_set_input_gain percent s1) =
       fst (pamir_ai_i2c_sound_set_input_gain percent s2)) /\
  data (snd (pamir_ai_i2c_sound_get_volume s1)) =
    data (snd (pamir_ai_i2c_sound_get_volume s2)) /\
  data (snd (pamir_ai_i2c_sound_get_input_gain s1)) =
    data (snd (pamir_ai_i2c_sound_get_input_gain s2)).
Proof.
  intros Hs. destruct (blind_handle_all ops s1 s2 Hs) as [Hr Hs'].
  split; [done|]. split; [done|]. split; [|split].
  - intros percent. split.
    + apply (blind_set_volume percent s1 s2 Hs).
    + apply (blind_set_input_gain percent s1 s2 Hs).
  - apply (blind_get_volume s1 s2 Hs).
  - apply (blind_get_input_gain s1 s2 Hs).
Qed.

Lemma selected_page_unobserved_witness :
  fst (handle_all [VolumeLevelShow; RegisterAccessShow [0; 0]]
         (State (Data 50 50) (Client 7 ∅ [] []) [] true)) =
  fst (handle_all [VolumeLevelShow; RegisterAccessShow [0; 0]] quiet_session).
Proof.
  symmetry.
  apply (selected_page_unobserved [VolumeLevelShow; RegisterAccessShow [0; 0]]
           quiet_session (State (Data 50 50) (Client 7 ∅ [] []) [] true)).
  split; [reflexivity|]. split; [reflexivity|]. split; [reflexivity|].
  split; [reflexivity|]. split; reflexivity.
Defined.

(** ** The two setters side by side *)

Lemma quiet_segment a n p :
  (forall j, (j < a + n)%nat -> outcome_at j p = None) ->
  first_fault n (drop a p) = None /\
  fail_fast_result n (drop a p) = 0 /\ attempted n (drop a p) = n.
Proof.
  intros H. pose proof (quiet_drop a n p H) as Hq.
  destruct (fail_fast_result_quiet n (drop a p) Hq) as (Hr & Ha & Hf). done.
Qed.

Ltac lookup_inserts :=
  repeat first [ rewrite lookup_insert_eq | rewrite lookup_insert_ne by done ].

(** Both setters, then both getters, on a bus that does not fail. *)
Lemma set_both_read_both (p g : Z) (s : driver_state) :
  (forall j, (j < 17)%nat -> outcome_at j (pending (client s)) = None) ->
  let read_both s' :=
    data (snd (pamir_ai_i2c_sound_get_input_gain
                 (snd (pamir_ai_i2c_sound_get_volume s')))) in
  let expected :=
    Data (volume_readback (clamp_percent (to_u8 p)))
         (gain_readback (clamp_percent (to_u8 g))) in
  read_both (snd (pamir_ai_i2c_sound_set_input_gain g
                    (snd (pamir_ai_i2c_sound_set_volume p s)))) = expected /\
  read_both (snd (pamir_ai_i2c_sound_set_volume p
                    (snd (pamir_ai_i2c_sound_set_input_gain g s)))) = expected.
Proof.
  intros Hq. destruct s as [d [pg rs sc xf] log sg]. cbn [pending client] in Hq.
  cbv zeta.
  destruct (encode_volume_bytes (clamp_percent (to_u8 p))) as [Hhp Hdac].
  pose proof (encode_gain_byte (clamp_percent (to_u8 g))) as Hadc.
  unfold volume_readback, gain_readback.
  set (hp := fst (encode_volume (clamp_percent (to_u8 p)))) in *.
  set (dac := snd (encode_volume (clamp_percent (to_u8 p)))) in *.
  set (adc := encode_gain (clamp_percent (to_u8 g))) in *.
  split.
  - rewrite set_volume_run. cbv zeta. fold hp dac.
    destruct (quiet_segment 0 8 sc) as (Hf1 & Hr1 & Ha1); [intros; apply Hq; lia|].
    rewrite drop_0 in Hf1, Hr1, Ha1.
    unfold device_reached. cbn [length volume_writes]. rewrite Hf1, Ha1.
    change [RV 0 1; RV 16 hp; RV 17 hp; RV 18 hp; RV 19 hp; RV 0 0; RV 65 dac; RV 66 dac]
      with (volume_writes hp dac).
    rewrite device_after_volume by done. cbn [fst snd].
    rewrite set_input_gain_run. cbv zeta. fold adc. cbn [volume].
    destruct (quiet_segment 8 3 sc) as (Hf2 & Hr2 & Ha2); [intros; apply Hq; lia|].
    unfold device_reached. cbn [length gain_writes]. rewrite Hf2, Ha2.
    change [RV 0 0; RV 83 adc; RV 84 adc] with (gain_writes adc).
    rewrite device_after_gain by done. cbn [fst snd].
    rewrite get_volume_eq. rewrite drop_drop.
    destruct (quiet_segment (8 + 3) 4 sc) as (Hf3 & _); [intros; apply Hq; lia|].
    rewrite Hf3. cbn [fst snd input_gain].
    rewrite get_input_gain_eq. rewrite drop_drop.
    destruct (quiet_segment (8 + 3 + 4) 2 sc) as (Hf4 & _); [intros; apply Hq; lia|].
    rewrite Hf4. cbn [fst snd data volume].
    rewrite !raw_read_value. change (16 =? 0) with false.
    change (65 =? 0) with false. change (83 =? 0) with false. cbv iota.
    lookup_inserts. cbn [default from_option id]. unfold id.
    by rewrite !to_u8_idemp, (to_u8_small hp), (to_u8_small dac), (to_u8_small adc).
  - rewrite set_input_gain_run. cbv zeta. fold adc.
    destruct (quiet_segment 0 3 sc) as (Hf1 & Hr1 & Ha1); [intros; apply Hq; lia|].
    rewrite drop_0 in Hf1, Hr1, Ha1.
    unfold device_reached. cbn [length gain_writes]. rewrite Hf1, Ha1.
    change [RV 0 0; RV 83 adc; RV 84 adc] with (gain_writes adc).
    rewrite device_after_gain by done. cbn [fst snd].
    rewrite set_volume_run. cbv zeta. fold hp dac. cbn [input_gain].
    destruct (quiet_segment 3 8 sc) as (Hf2 & Hr2 & Ha2); [intros; apply Hq; lia|].
    unfold device_reached. cbn [length volume_writes]. rewrite Hf2, Ha2.
    change [RV 0 1; RV 16 hp; RV 17 hp; RV 18 hp; RV 19 hp; RV 0 0; RV 65 dac; RV 66 dac]
      with (volume_writes hp dac).
    rewrite device_after_volume by done. cbn [fst snd].
    rewrite get_volume_eq. rewrite drop_drop.
    destruct (quiet_segment (3 + 8) 4 sc) as (Hf3 & _); [intros; apply Hq; lia|].
    rewrite Hf3. cbn [fst snd input_gain].
    rewrite get_input_gain_eq. rewrite drop_drop.
    destruct (quiet_segment (3 + 8 + 4) 2 sc) as (Hf4 & _); [intros; apply Hq; lia|].
    rewrite Hf4. cbn [fst snd data volume].
    rewrite !raw_read_value. change (16 =? 0) with false.
    change (65 =? 0) with false. change (83 =? 0) with false. cbv iota.
    lookup_inserts. cbn [default from_option id]. unfold id.
    by rewrite !to_u8_idemp, (to_u8_small hp), (to_u8_small dac), (to_u8_small adc).
Qed.

(** X12: the volume and the input gain do not disturb each other.  On a
    bus that does not fail, after both setters have run, in either order,
    [get_volume] then [get_input_gain] leave in the cache the read-back of
    the volume set and the read-back of the gain set. *)
Theorem setters_do_not_interfere (p g : Z) (s : driver_state) :
  (forall j, (j < 17)%nat -> outcome_at j (pending (client s)) = None) ->
  let read_both s' :=
    data (snd (pamir_ai_i2c_sound_get_input_gain
                 (snd (pamir_ai_i2c_sound_get_volume s')))) in
  let expected :=
    Data (volume_readback (clamp_percent (to_u8 p)))
         (gain_readback (clamp_percent (to_u8 g))) in
  read_both (snd (pamir_ai_i2c_sound_set_input_gain g
                    (snd (pamir_ai_i2c_sound_set_volume p s)))) = expected /\
  read_both (snd (pamir_ai_i2c_sound_set_volume p
                    (snd (pamir_ai_i2c_sound_set_input_gain g s)))) = expected.
Proof.
  intros Hq. destruct (set_both_read_both p g s Hq) as [Hvg Hgv].
  cbv zeta. split; [exact Hvg | exact Hgv].
Qed.

Lemma setters_do_not_interfere_witness :
  data (snd (pamir_ai_i2c_sound_get_input_gain
    (snd (pamir_ai_i2c_sound_get_volume
      (snd (pamir_ai_i2c_sound_set_input_gain 30
        (snd (pamir_ai_i2c_sound_set_volume 75 quiet_session)))))))) =
  Data (volume_readback 75) (gain_readback 30).
Proof.
  destruct (setters_do_not_interfere 75 30 quiet_session) as (H & _).
  - intros j _. unfold outcome_at. cbn. by rewrite lookup_nil.
  - exact H.
Defined.

(** ** [probe] from end to end *)

Lemma first_fault_app a n p :
  first_fault (a + n) p =
  match first_fault a p with
  | Some x => Some x
  | None =>
      match first_fault n (drop a p) with
      | Some (i, e) => Some ((a + i)%nat, e)
      | None => None
      end
  end.
Proof.
  revert p. induction a as [|a IH]; intros p.
  - cbn [first_fault Nat.add]. rewrite drop_0. by destruct (first_fault n p) as [[i e]|].
  - cbn [first_fault Nat.add]. rewrite next_outcome_eq.
    destruct (outcome_at 0 p) as [e|]; [done|]. rewrite IH.
    destruct (first_fault a (drop 1 p)) as [[i e]|]; [done|].
    rewrite drop_drop. cbn [Nat.add].
    by destruct (first_fault n (drop (S a) p)) as [[i e]|].
Qed.

Lemma table_writes_app a b : table_writes (a ++ b) = table_writes a ++ table_writes b.
Proof. unfold table_writes. apply map_app. Qed.

(** The five ways [probe] can go once the private data is allocated. *)
Lemma probe_outcome sysfs_ret pg rs p xf klog :
  exists s' k,
    pamir_ai_i2c_sound_probe true sysfs_ret (Client pg rs p xf) klog =
      (match first_fault 47 p with
       | Some (_, e) => Z.neg e
       | None => if sysfs_ret <? 0 then sysfs_ret else fail_fast_result 11 (drop 47 p)
       end, Some s') /\
    data s' = Data 50 50 /\
    (k <= 58)%nat /\
    xfers (client s') = xf ++ table_writes (take k probe_writes) /\
    k = attempted (if sysfs_ret <? 0 then 47%nat else 58%nat) p /\
    sysfs_group s' =
      bool_decide (0 <= sysfs_ret /\ first_fault 58 p = None).
Proof.
  pose proof (first_fault_app 47 11 p) as E58.
  pose proof (first_fault_app 8 3 (drop 47 p)) as E11.
  change (47 + 11)%nat with 58%nat in E58. change (8 + 3)%nat with 11%nat in E11.
  rewrite drop_drop in E11. change (47 + 8)%nat with 55%nat in E11.
  unfold pamir_ai_i2c_sound_probe, probe_of, probe_attach.
  unfold bind at 1. unfold dev_info at 1. cbn [data client dmesg sysfs_group].
  unfold bind at 1. rewrite probe_init_loop_run.
  change (length init_sequence) with 47%nat.
  unfold fail_fast_result, attempted.
  destruct (first_fault 47 p) as [[i e]|] eqn:Ef.
  { (* the table fails *)
    change (Z.neg e <? 0) with true. cbv iota. unfold pure.
    apply first_fault_Some in Ef as Hi. destruct Hi as (Hi & _).
    eexists _, (S i). split; [reflexivity|]. cbn [data client xfers sysfs_group].
    split; [done|]. split; [lia|].
    split; [|split; [destruct (sysfs_ret <? 0); by rewrite ?Ef, ?E58|]].
    - unfold probe_writes.
      rewrite take_app_le by (change (length init_sequence) with 47%nat; lia).
      done.
    - symmetry. apply bool_decide_eq_false_2. intros [_ ?]. congruence. }
  change (0 <? 0) with false. cbv iota.
  unfold bind at 1. unfold dev_info at 1. cbn [data client dmesg sysfs_group].
  rewrite (take_ge init_sequence 47) by (cbn; lia).
  destruct (Z.ltb_spec sysfs_ret 0) as [Hneg|Hok].
  { (* the sysfs group cannot be created *)
    unfold bind, dev_err, pure. cbn [data client dmesg sysfs_group].
    eexists _, 47%nat. split; [reflexivity|]. cbn [data client xfers sysfs_group].
    rewrite Ef. split; [done|]. split; [lia|]. split; [|split; [done|]].
    - by change (take 47 probe_writes) with init_sequence.
    - symmetry. apply bool_decide_eq_false_2. intros [? _]. lia. }
  unfold bind at 1. unfold set_sysfs_group at 1. cbn [data client dmesg sysfs_group].
  unfold bind at 1. unfold get_data at 1. cbn [data volume].
  unfold bind at 1. rewrite set_volume_run. cbv zeta.
  change (encode_volume (clamp_percent (to_u8 50))) with (14, 0).
  change (clamp_percent (to_u8 50)) with 50. cbn [fst snd input_gain].
  unfold fail_fast_result, attempted. rewrite E58, E11.
  destruct (first_fault 8 (drop 47 p)) as [[i e]|] eqn:Ef8.
  { (* the initial volume cannot be set *)
    change (Z.neg e <? 0) with true. cbv iota.
    unfold bind, dev_err, set_sysfs_group, pure. cbn [data client dmesg sysfs_group].
    apply first_fault_Some in Ef8 as Hi. destruct Hi as (Hi & _).
    eexists _, (47 + S i)%nat. split; [reflexivity|]. cbn [data client xfers sysfs_group].
    split; [done|]. split; [lia|]. split; [|split; [done|]].
    - unfold probe_writes. rewrite <- app_assoc. f_equal.
      rewrite take_app_ge by (change (length init_sequence) with 47%nat; lia).
      change (length init_sequence) with 47%nat.
      replace (47 + S i - 47)%nat with (S i) by lia.
      rewrite take_app_le by (cbn; lia). by rewrite table_writes_app.
    - symmetry. apply bool_decide_eq_false_2. intros [_ ?]. done. }
  change (0 <? 0) with false. cbv iota.
  unfold bind at 1. unfold get_data at 1. cbn [data input_gain].
  unfold bind at 1. rewrite set_input_gain_run. cbv zeta.
  change (encode_gain (clamp_percent (to_u8 50))) with 15.
  change (clamp_percent (to_u8 50)) with 50. cbn [fst snd volume].
  unfold fail_fast_result, attempted. rewrite !drop_drop.
  change (47 + 8)%nat with 55%nat.
  destruct (first_fault 3 (drop 55 p)) as [[i e]|] eqn:Ef3.
  { (* the initial input gain cannot be set *)
    change (Z.neg e <? 0) with true. cbv iota.
    unfold bind, dev_err, set_sysfs_group, pure. cbn [data client dmesg sysfs_group].
    apply first_fault_Some in Ef3 as Hi. destruct Hi as (Hi & _).
    eexists _, (47 + (8 + S i))%nat. split; [reflexivity|].
    cbn [data client xfers sysfs_group].
    split; [done|]. split; [lia|]. split; [|split; [done|]].
    - unfold probe_writes. rewrite <- !app_assoc. by f_equal.
    - symmetry. apply bool_decide_eq_false_2. intros [_ ?]. done. }
  change (0 <? 0) with false. cbv iota. unfold pure.
  eexists _, 58%nat. split; [reflexivity|]. cbn [data client xfers sysfs_group].
  split; [done|]. split; [lia|]. split; [|split; [done|]].
  - unfold probe_writes. rewrite <- !app_assoc. by f_equal.
  - symmetry. apply bool_decide_eq_true_2. split; [lia | done].
Qed.

(** [probe] on a bus that does not fail is the table, then the two
    setters. *)
Lemma probe_success_state sysfs_ret pg rs p xf klog :
  0 <= sysfs_ret ->
  (forall j, (j < 58)%nat -> outcome_at j p = None) ->
  exists s0,
    data s0 = Data 50 50 /\ pending (client s0) = drop 47 p /\
    pamir_ai_i2c_sound_probe true sysfs_ret (Client pg rs p xf) klog =
    (0, Some (snd (pamir_ai_i2c_sound_set_input_gain 50
                     (snd (pamir_ai_i2c_sound_set_volume 50 s0))))).
Proof.
  intros Hok Hq.
  destruct (quiet_segment 0 47 p) as (Hf1 & Hr1 & Ha1); [intros; apply Hq; lia|].
  rewrite drop_0 in Hf1, Hr1, Ha1.
  destruct (quiet_segment 47 8 p) as (Hf2 & Hr2 & Ha2); [intros; apply Hq; lia|].
  destruct (quiet_segment (47 + 8) 3 p) as (Hf3 & Hr3 & Ha3); [intros; apply Hq; lia|].
  unfold pamir_ai_i2c_sound_probe, probe_of, probe_attach.
  unfold bind at 1. unfold dev_info at 1. cbn [data client dmesg sysfs_group].
  unfold bind at 1. rewrite probe_init_loop_run.
  change (length init_sequence) with 47%nat. rewrite Hr1, Ha1.
  change (0 <? 0) with false. cbv iota.
  unfold bind at 1. unfold dev_info at 1. cbn [data client dmesg sysfs_group].
  replace (sysfs_ret <? 0) with false by (symmetry; bfalse).
  unfold bind at 1. unfold set_sysfs_group at 1. cbn [data client dmesg sysfs_group].
  unfold bind at 1. unfold get_data at 1. cbn [data volume].
  unfold bind at 1.
  match goal with |- context [pamir_ai_i2c_sound_set_volume 50 ?s] =>
    set (s0 := s) end.
  exists s0. split; [done|]. split; [done|].
  assert (Hv : fst (pamir_ai_i2c_sound_set_volume 50 s0) = 0 /\
               data (snd (pamir_ai_i2c_sound_set_volume 50 s0)) = Data 50 50 /\
               pending (client (snd (pamir_ai_i2c_sound_set_volume 50 s0)))
                 = drop (47 + 8) p).
  { subst s0. rewrite set_volume_run. cbv zeta. cbn [fst snd data client pending].
    rewrite Hr2, Ha2, drop_drop. done. }
  destruct (pamir_ai_i2c_sound_set_volume 50 s0) as [r1 s1]. cbn [fst snd] in Hv |- *.
  destruct Hv as (-> & Hd1 & Hp1). change (0 <? 0) with false. cbv iota.
  unfold bind at 1. unfold get_data at 1. rewrite Hd1. cbn [input_gain].
  unfold bind at 1.
  assert (Hg : fst (pamir_ai_i2c_sound_set_input_gain 50 s1) = 0).
  { destruct s1 as [d1 [pg1 rs1 p1 xf1] l1 g1]. cbn [client pending] in Hp1. subst p1.
    rewrite set_input_gain_run. cbv zeta. cbn [fst]. exact Hr3. }
  destruct (pamir_ai_i2c_sound_set_input_gain 50 s1) as [r2 s2]. cbn [fst snd] in *.
  subst r2. change (0 <? 0) with false. cbv iota. reflexivity.
Qed.

Lemma getters_keep_other_field (s : driver_state) :
  input_gain (data (snd (pamir_ai_i2c_sound_get_volume s))) = input_gain (data s) /\
  volume (data (snd (pamir_ai_i2c_sound_get_input_gain s))) = volume (data s).
Proof.
  destruct s as [d [pg rs p xf] log sg].
  rewrite get_volume_eq, get_input_gain_eq. split.
  - by destruct (first_fault 4 p) as [[i e]|].
  - by destruct (first_fault 2 p) as [[i e]|].
Qed.

(** X13: what [probe] returns and leaves behind, on any bus.  It returns
    0 exactly when the private data is allocated, the sysfs group is
    created and none of its 58 register writes fails; otherwise it returns
    a negative error, [-ENOMEM] without data.  Whenever it leaves a driver
    state, the cache holds 50 and 50, the transfers issued are an initial
    part of the 58 writes (all of them on success), and the sysfs group is
    registered exactly when the return value is 0: a failed [probe] never
    leaves the group behind.  [remove] takes the group away. *)
Theorem probe_all_or_nothing (kzalloc_ok : bool) (sysfs_ret : Z) (c : i2c_client)
    (klog : list kmsg) :
  let r := pamir_ai_i2c_sound_probe kzalloc_ok sysfs_ret c klog in
  fst r <= 0 /\
  (fst r = 0 <->
     kzalloc_ok = true /\ 0 <= sysfs_ret /\
     forall j, (j < 58)%nat -> outcome_at j (pending c) = None) /\
  (kzalloc_ok = false -> r = (- ENOMEM, None)) /\
  (forall s', snd r = Some s' ->
     data s' = Data 50 50 /\
     sysfs_group s' = bool_decide (fst r = 0) /\
     (exists k, (k <= 58)%nat /\
        xfers (client s') = xfers c ++ table_writes (take k probe_writes) /\
        (fst r = 0 -> k = 58%nat)) /\
     (sysfs_group <$> pamir_ai_i2c_sound_remove (Some s')) = Some false).
Proof.
  cbv zeta. destruct kzalloc_ok.
  2:{ unfold pamir_ai_i2c_sound_probe, probe_of. cbn [fst snd].
      split; [done|]. split; [|split; [done|by intros s' [=]]].
      split; [done | by intros ([=] & _)]. }
  destruct c as [pg rs p xf]. cbn [pending xfers].
  destruct (probe_outcome sysfs_ret pg rs p xf klog)
    as (s' & k & Heq & Hd & Hk & Hx & Hka & Hg).
  rewrite Heq. cbn [fst snd].
  pose proof (first_fault_app 47 11 p) as E58. change (47 + 11)%nat with 58%nat in E58.
  set (ret := match first_fault 47 p with
              | Some (_, e) => Z.neg e
              | None => if sysfs_ret <? 0 then sysfs_ret
                        else fail_fast_result 11 (drop 47 p)
              end) in *.
  assert (Hret : ret <= 0 /\
            (ret = 0 <-> 0 <= sysfs_ret /\ first_fault 58 p = None)).
  { subst ret. rewrite E58. unfold fail_fast_result.
    destruct (first_fault 47 p) as [[i e]|].
    - split; [lia|]. split; [lia | by intros [_ ?]].
    - destruct (Z.ltb_spec sysfs_ret 0).
      + split; [lia|]. split; [lia | intros [? _]; lia].
      + destruct (first_fault 11 (drop 47 p)) as [[i e]|].
        * split; [lia|]. split; [lia | by intros [_ ?]].
        * split; [lia|]. by split. }
  destruct Hret as [Hle Hiff].
  split; [done|]. split; [|split; [done|]].
  - rewrite Hiff, first_fault_None. split; [by intros [? ?] | by intros (_ & ? & ?)].
  - intros ? [= <-]. split; [done|]. split; [|split; [|done]].
    + rewrite Hg. apply bool_decide_ext. by rewrite Hiff.
    + exists k. split; [done|]. split; [done|]. intros H0.
      apply Hiff in H0 as [Hs Hf]. rewrite Hka.
      replace (sysfs_ret <? 0) with false by (symmetry; bfalse).
      unfold attempted. by rewrite Hf.
Qed.

Lemma probe_all_or_nothing_witness :
  fst (pamir_ai_i2c_sound_probe true 0 (client quiet_session) []) = 0 /\
  (sysfs_group <$> snd (pamir_ai_i2c_sound_probe true 0 (client fault_at_10) []))
    = Some false.
Proof.
  destruct (probe_all_or_nothing true 0 (client quiet_session) []) as (_ & H0 & _).
  destruct (probe_all_or_nothing true 0 (client fault_at_10) [])
    as (_ & _ & _ & Hs).
  split.
  - apply H0. split; [done|]. split; [lia|].
    intros j _. unfold outcome_at. cbn. by rewrite lookup_nil.
  - destruct (pamir_ai_i2c_sound_probe true 0 (client fault_at_10) []) as [r [s'|]] eqn:E.
    + destruct (Hs s' eq_refl) as (_ & Hg & _). cbn [fst snd fmap option_fmap option_map].
      rewrite Hg. f_equal. apply bool_decide_eq_false_2.
      cbn [fst]. vm_compute in E. injection E as <- _. discriminate.
    + vm_compute in E. discriminate.
Defined.

(** X14: the initial 50 percent, read back.  After a [probe] that
    succeeds, on a bus that goes on not failing, [get_volume] caches 48
    (the headphone byte for 50 percent is 14, and 14 is decoded as 48) and
    [get_input_gain] caches 50. *)
Theorem probe_then_read_back (sysfs_ret : Z) (c : i2c_client) (klog : list kmsg) :
  0 <= sysfs_ret ->
  (forall j, (j < 64)%nat -> outcome_at j (pending c) = None) ->
  exists s',
    pamir_ai_i2c_sound_probe true sysfs_ret c klog = (0, Some s') /\
    data s' = Data 50 50 /\
    data (snd (pamir_ai_i2c_sound_get_volume s')) = Data 48 50 /\
    data (snd (pamir_ai_i2c_sound_get_input_gain
                 (snd (pamir_ai_i2c_sound_get_volume s')))) = Data 48 50.
Proof.
  intros Hok Hq. destruct c as [pg rs p xf]. cbn [pending] in Hq.
  destruct (probe_success_state sysfs_ret pg rs p xf klog Hok)
    as (s0 & Hd0 & Hp0 & Heq); [intros; apply Hq; lia|].
  eexists. split; [exact Heq|].
  assert (Hq0 : forall j, (j < 17)%nat -> outcome_at j (pending (client s0)) = None).
  { rewrite Hp0. apply (quiet_drop 47 17). intros; apply Hq; lia. }
  destruct (set_both_read_both 50 50 s0 Hq0) as [Hboth _]. cbv zeta in Hboth.
  change (Data (volume_readback (clamp_percent (to_u8 50)))
               (gain_readback (clamp_percent (to_u8 50)))) with (Data 48 50) in Hboth.
  destruct (probe_outcome sysfs_ret pg rs p xf klog) as (s1 & k & Heq1 & Hd1 & _).
  rewrite Heq in Heq1. injection Heq1 as _ Hs1. rewrite Hs1 in Hboth |- *.
  split; [exact Hd1|].
  split; [|exact Hboth].
  pose proof (proj1 (getters_keep_other_field s1)) as Hg.
  pose proof (proj2 (getters_keep_other_field (snd (pamir_ai_i2c_sound_get_volume s1))))
    as Hv.
  rewrite Hboth in Hv. rewrite Hd1 in Hg. cbn [volume input_gain] in Hv, Hg.
  destruct (data (snd (pamir_ai_i2c_sound_get_volume s1))) as [v g].
  cbn [volume input_gain] in Hv, Hg. by subst.
Qed.

Lemma probe_then_read_back_witness :
  exists s',
    pamir_ai_i2c_sound_probe true 0 (client quiet_session) [] = (0, Some s') /\
    data s' = Data 50 50 /\
    data (snd (pamir_ai_i2c_sound_get_volume s')) = Data 48 50 /\
    data (snd (pamir_ai_i2c_sound_get_input_gain
                 (snd (pamir_ai_i2c_sound_get_volume s')))) = Data 48 50.
Proof.
  apply (probe_then_read_back 0 (client quiet_session) []); [lia|].
  intros j _. unfold outcome_at. cbn. by rewrite lookup_nil.
Defined.

Lemma validate_platform_cases (p : string) :
  Platform.validate_platform p = true <->
  p = "rpi" \/ p = "rockchip" \/ p = "armbian" \/ p = "unknown".
Proof.
  unfold Platform.validate_platform.
  rewrite !orb_true_iff, !String.eqb_eq. tauto.
Qed.

Lemma detect_platform_auto (m : Platform.machine) :
  Platform.validate_platform (Platform.DISTILLER_PLATFORM m) = false ->
  fst (Platform.detect_platform m) =
  if Platform.armbian_release m || Platform.armbianEnv m || Platform.is_armbian_kernel m
  then "armbian"
  else match Platform.compatible m with
       | Some compat =>
           if contains "brcm,bcm2712" compat then "rpi"
           else if contains "rockchip,rk35" compat then "rockchip"
           else "unknown"
       | None => "unknown"
       end.
Proof.
  intros Hv. unfold Platform.detect_platform. cbv zeta. rewrite Hv, andb_false_r.
  destruct (_ || _ || Platform.is_armbian_kernel m); [done|].
  destruct (Platform.compatible m) as [compat|]; [|done].
  destruct (contains "brcm,bcm2712" compat); [done|].
  by destruct (contains "rockchip,rk35" compat).
Qed.

Lemma validate_platform_nonempty (p : string) :
  Platform.validate_platform p = true -> String.eqb p "" = false.
Proof. intros Hv. apply String.eqb_neq. intros ->. discriminate. Qed.

Lemma detect_platform_out_valid (m : Platform.machine) :
  Platform.validate_platform (fst (Platform.detect_platform m)) = true.
Proof.
  destruct (Platform.validate_platform (Platform.DISTILLER_PLATFORM m)) eqn:Hv.
  - unfold Platform.detect_platform. cbv zeta.
    rewrite Hv, (validate_platform_nonempty _ Hv). exact Hv.
  - rewrite (detect_platform_auto m Hv).
    destruct (_ || _ || Platform.is_armbian_kernel m); [done|].
    destruct (Platform.compatible m) as [compat|]; [|done].
    destruct (contains "brcm,bcm2712" compat); [done|].
    by destruct (contains "rockchip,rk35" compat).
Qed.

(** X15: [detect_platform] always prints one of the four platform names
    that [validate_platform] accepts.  A valid [DISTILLER_PLATFORM] is
    printed as it is, whatever the machine looks like.  Any other value is
    ignored: the result is that of the same machine without the variable,
    with a warning on standard error unless the variable is empty, and on
    that path the Armbian markers come before the device tree and the
    Raspberry Pi compatible string before the Rockchip one. *)
Theorem detect_platform_valid (m : Platform.machine) :
  let env := Platform.DISTILLER_PLATFORM m in
  let out := fst (Platform.detect_platform m) in
  Platform.validate_platform out = true /\
  (Platform.validate_platform env = true -> out = env) /\
  (Platform.validate_platform env = false ->
     out = fst (Platform.detect_platform (Platform.without_override m)) /\
     snd (Platform.detect_platform m) =
       (if String.eqb env "" then []
        else ["Warning: Invalid DISTILLER_PLATFORM value: " +:+ env]) /\
     (Platform.armbian_release m || Platform.armbianEnv m
        || Platform.is_armbian_kernel m = true -> out = "armbian") /\
     (out = "rockchip" ->
      exists compat, Platform.compatible m = Some compat /\
        contains "brcm,bcm2712" compat = false)).
Proof.
  cbv zeta.
  destruct (Platform.validate_platform (Platform.DISTILLER_PLATFORM m)) eqn:Hv.
  - pose proof (validate_platform_nonempty _ Hv) as Hne.
    unfold Platform.detect_platform. cbv zeta. rewrite Hv, Hne. cbn [negb andb fst].
    split; [exact Hv|]. split; [done | discriminate].
  - pose proof (detect_platform_auto m Hv) as Ha.
    assert (Hw : Platform.validate_platform
                   (Platform.DISTILLER_PLATFORM (Platform.without_override m)) = false)
      by reflexivity.
    pose proof (detect_platform_auto _ Hw) as Hb.
    change (Platform.is_armbian_kernel (Platform.without_override m))
      with (Platform.is_armbian_kernel m) in Hb.
    cbn [Platform.without_override Platform.armbian_release Platform.armbianEnv
         Platform.compatible] in Hb.
    split; [|split; [discriminate|intros _; split; [|split; [|split]]]].
    + apply detect_platform_out_valid.
    + by rewrite Ha, Hb.
    + unfold Platform.detect_platform. cbv zeta. rewrite Hv, andb_false_r.
      destruct (String.eqb (Platform.DISTILLER_PLATFORM m) ""); cbn [negb];
        destruct (_ || _ || Platform.is_armbian_kernel m); try done;
        destruct (Platform.compatible m) as [compat|]; try done;
        destruct (contains "brcm,bcm2712" compat); try done;
        by destruct (contains "rockchip,rk35" compat).
    + intros Hm. by rewrite Ha, Hm.
    + rewrite Ha.
      destruct (_ || _ || Platform.is_armbian_kernel m); [discriminate|].
      destruct (Platform.compatible m) as [compat|]; [|discriminate].
      destruct (contains "brcm,bcm2712" compat) eqn:Hb2; [discriminate|].
      intros _. by exists compat.
Qed.

Lemma detect_platform_valid_witness :
  fst (Platform.detect_platform Platform.pi5_armbian_kernel) = "armbian" /\
  snd (Platform.detect_platform Platform.pi5_armbian_kernel) =
    ["Warning: Invalid DISTILLER_PLATFORM value: raspberrypi"].
Proof.
  destruct (detect_platform_valid Platform.pi5_armbian_kernel) as (_ & _ & H).
  destruct (H eq_refl) as (_ & Hw & Ha & _). split.
  - apply Ha. reflexivity.
  - exact Hw.
Defined.

(** X16: where the overlay goes.  For every argument and machine, the
    overlay directory is the Rockchip one exactly when the configuration
    file is [armbianEnv.txt], which is exactly when the platform (given,
    or detected when the argument is empty) is [armbian] or [rockchip];
    every other platform, [unknown] and unsupported names included, gets
    the Raspberry Pi paths.  The overlay name and the DTS file do not
    depend on the platform. *)
Theorem overlay_paths_paired (arg : string) (m : Platform.machine) :
  let platform := fst (Platform.platform_arg arg m) in
  (fst (Platform.get_overlay_dir arg m), fst (Platform.get_config_file arg m)) =
    (if Platform.rockchip_paths platform
     then ("/boot/dtb/rockchip/overlay/", "/boot/armbianEnv.txt")
     else ("/boot/firmware/overlays/", "/boot/firmware/config.txt")) /\
  (Platform.rockchip_paths platform = true <->
     platform = "armbian" \/ platform = "rockchip") /\
  (arg <> "" -> platform = arg) /\
  (arg = "" -> platform = fst (Platform.detect_platform m)) /\
  fst (Platform.get_overlay_name arg m) = "pamir-ai-soundcard" /\
  fst (Platform.get_dts_file arg m) = "pamir-ai-soundcard-overlay.dts".
Proof.
  cbv zeta.
  unfold Platform.get_overlay_dir, Platform.get_config_file,
    Platform.get_overlay_name, Platform.get_dts_file.
  destruct (Platform.platform_arg arg m) as [platform err] eqn:E. cbn [fst].
  split; [by destruct (Platform.rockchip_paths platform)|].
  split; [unfold Platform.rockchip_paths; rewrite orb_true_iff, !String.eqb_eq; tauto|].
  unfold Platform.platform_arg in E.
  split; [|split; [|split]].
  - intros Hne. apply String.eqb_neq in Hne. rewrite Hne in E. by injection E as <- _.
  - intros ->. cbn in E. by rewrite E.
  - by destruct (Platform.rockchip_paths platform).
  - by destruct (Platform.rockchip_paths platform).
Qed.

Lemma overlay_paths_paired_witness :
  fst (Platform.get_overlay_dir "unknown" Platform.pi5_armbian_kernel)
    = "/boot/firmware/overlays/" /\
  fst (Platform.get_config_file "" Platform.pi5_armbian_kernel)
    = "/boot/armbianEnv.txt".
Proof.
  destruct (overlay_paths_paired "unknown" Platform.pi5_armbian_kernel) as (H1 & _).
  destruct (overlay_paths_paired "" Platform.pi5_armbian_kernel) as (H2 & _).
  cbv zeta in H1, H2. split.
  - exact (f_equal fst H1).
  - exact (f_equal snd H2).
Defined.

(** X17: [print_platform_info] detects once.  The platform it prints is
    never empty, so the four helpers it calls take it as given and do not
    detect again: the warning about an invalid override appears once on
    standard error, and the directory and the configuration file printed
    are those of the platform printed.  The platform is reported as
    overridden exactly when it is the value of a valid
    [DISTILLER_PLATFORM]. *)
Theorem print_platform_info_detects_once (m : Platform.machine) :
  let env := Platform.DISTILLER_PLATFORM m in
  let platform := fst (Platform.detect_platform m) in
  snd (Platform.print_platform_info m) = snd (Platform.detect_platform m) /\
  exists method,
    fst (Platform.print_platform_info m) =
      ["Platform: " +:+ platform +:+ " (" +:+ method +:+ ")"] ++
      (if String.eqb env "" then [] else ["DISTILLER_PLATFORM env var: " +:+ env]) ++
      ["Overlay Directory: " +:+
         (if Platform.rockchip_paths platform then "/boot/dtb/rockchip/overlay/"
          else "/boot/firmware/overlays/");
       "Config File: " +:+
         (if Platform.rockchip_paths platform then "/boot/armbianEnv.txt"
          else "/boot/firmware/config.txt");
       "Overlay Name: pamir-ai-soundcard";
       "DTS File: pamir-ai-soundcard-overlay.dts"] /\
    (method = "overridden by DISTILLER_PLATFORM" /\ platform = env \/
     method = "auto-detected" /\ Platform.validate_platform env = false).
Proof.
  cbv zeta. pose proof (detect_platform_out_valid m) as Hv.
  unfold Platform.print_platform_info. cbv zeta.
  destruct (Platform.detect_platform m) as [platform err0] eqn:Ed. cbn [fst snd] in *.
  unfold Platform.get_overlay_dir, Platform.get_config_file,
    Platform.get_overlay_name, Platform.get_dts_file, Platform.platform_arg.
  rewrite (validate_platform_nonempty _ Hv). cbn [fst snd].
  split; [by rewrite !app_nil_r|].
  exists (if negb (String.eqb (Platform.DISTILLER_PLATFORM m) "") &&
               Platform.validate_platform (Platform.DISTILLER_PLATFORM m)
          then "overridden by DISTILLER_PLATFORM" else "auto-detected").
  split.
  { destruct (String.eqb (Platform.DISTILLER_PLATFORM m) ""); cbn [negb];
      by destruct (Platform.rockchip_paths platform). }
  destruct (Platform.validate_platform (Platform.DISTILLER_PLATFORM m)) eqn:He.
  - left. rewrite (validate_platform_nonempty _ He). split; [done|].
    unfold Platform.detect_platform in Ed. cbv zeta in Ed.
    rewrite He, (validate_platform_nonempty _ He) in Ed. by injection Ed as <- _.
  - right. by rewrite andb_false_r.
Qed.

Lemma to_u32_small (x : Z) : 0 <= x < 2 ^ 32 -> SimpleCard.to_u32 x = x.
Proof. intros H. unfold SimpleCard.to_u32. by rewrite Z.mod_small. Qed.

(** X18: the bit clock ratio is set in one place only.  With a fixed
    ratio, [init] asks for it and [hw_params] asks for nothing; without
    one, [init] asks for nothing and [hw_params] asks for 32 or 64: 32
    when the format is at most 16 bits wide, 64 otherwise, also for a
    width reported as negative.  The ratio covers two samples of the
    format for every width up to 32 bits.  The match data of this card has
    no fixed ratio. *)
Theorem bclk_ratio_set_in_one_place (drvdata : SimpleCard.snd_pamir_ai_simple_drvdata)
    (width : Z) (cpu_dai : SimpleCard.snd_soc_dai) :
  let fixed := SimpleCard.fixed_bclk_ratio drvdata in
  let d1 := snd (SimpleCard.snd_pamir_ai_simple_init drvdata cpu_dai) in
  let d2 := snd (SimpleCard.snd_pamir_ai_simple_hw_params drvdata width d1) in
  - 2 ^ 31 <= width < 2 ^ 31 ->
  (0 < fixed ->
     SimpleCard.bclk_ratios d2 = SimpleCard.bclk_ratios cpu_dai ++ [fixed] /\
     fst (SimpleCard.snd_pamir_ai_simple_hw_params drvdata width d1) = 0) /\
  (fixed <= 0 ->
     exists ratio,
       SimpleCard.bclk_ratios d1 = SimpleCard.bclk_ratios cpu_dai /\
       SimpleCard.bclk_ratios d2 = SimpleCard.bclk_ratios cpu_dai ++ [ratio] /\
       (ratio = 32 \/ ratio = 64) /\
       (ratio = 32 <-> 0 <= width <= 16) /\
       (width <= 32 -> 2 * width <= ratio) /\
       fst (SimpleCard.snd_pamir_ai_simple_hw_params drvdata width d1)
         = SimpleCard.set_bclk_ratio_ret cpu_dai) /\
  SimpleCard.fixed_bclk_ratio SimpleCard.drvdata_pamir_ai = 0.
Proof.
  cbv zeta. intros Hw.
  unfold SimpleCard.snd_pamir_ai_simple_init, SimpleCard.snd_pamir_ai_simple_hw_params.
  split; [|split; [|reflexivity]].
  - intros Hf. replace (0 <? SimpleCard.fixed_bclk_ratio drvdata) with true
      by (symmetry; btrue).
    split; reflexivity.
  - intros Hf. replace (0 <? SimpleCard.fixed_bclk_ratio drvdata) with false
      by (symmetry; bfalse).
    cbv zeta. cbn [snd fst SimpleCard.snd_soc_dai_set_bclk_ratio
                   SimpleCard.bclk_ratios SimpleCard.set_bclk_ratio_ret].
    eexists. split; [reflexivity|]. split; [reflexivity|].
    destruct (Z.leb_spec (SimpleCard.to_u32 width) 16) as [Hle|Hgt].
    + change (SimpleCard.to_u32 (16 * 2)) with 32.
      assert (0 <= width <= 16).
      { unfold SimpleCard.to_u32 in Hle.
        destruct (Z.lt_ge_cases width 0).
        - replace (width `mod` 2 ^ 32) with (width + 2 ^ 32) in Hle; [lia|].
          apply Z.mod_unique with (-1); lia.
        - rewrite Z.mod_small in Hle; lia. }
      split; [by left|]. split; [done|]. split; [lia|done].
    + change (SimpleCard.to_u32 (32 * 2)) with 64.
      split; [by right|]. split; [|split; [lia|done]].
      split; [discriminate|]. intros H. rewrite to_u32_small in Hgt; lia.
Qed.

Lemma bclk_ratio_set_in_one_place_witness :
  exists ratio,
    SimpleCard.bclk_ratios
      (snd (SimpleCard.snd_pamir_ai_simple_hw_params SimpleCard.drvdata_pamir_ai 24
         (snd (SimpleCard.snd_pamir_ai_simple_init SimpleCard.drvdata_pamir_ai
                 (SimpleCard.Dai [] 0))))) = [] ++ [ratio] /\
    (ratio = 32 \/ ratio = 64) /\ 2 * 24 <= ratio.
Proof.
  destruct (bclk_ratio_set_in_one_place SimpleCard.drvdata_pamir_ai 24
              (SimpleCard.Dai [] 0)) as (_ & H & _); [lia|].
  destruct H as (ratio & _ & H2 & H3 & _ & H5 & _); [cbn; lia|].
  exists ratio. split; [exact H2|]. split; [exact H3|]. apply H5. lia.
Defined.

(** X19: what [probe] of the simple card leaves behind.  It reads through
    a [NULL] match only for a device that has a node the table does not
    match.  Otherwise: without the [i2s-controller] node it returns
    [-ENODEV] and registers nothing, although the card already carries the
    name, the driver data and the DAI link; in every other case it hands
    the card to registration once and returns the answer, logging it
    unless it is 0 or [-EPROBE_DEFER].  A device without a node has the
    card registered as it stands, without a DAI link if none was set
    before.  Callbacks already on the DAI link are kept; missing ones are
    filled in. *)
Theorem simple_probe_outcome (of_node : option string) (matched : bool)
    (i2s_node : option string) (register_ret : Z) (w : SimpleCard.world) :
  let r := SimpleCard.snd_pamir_ai_simple_probe of_node matched i2s_node register_ret w in
  (r = None <-> is_Some of_node /\ matched = false) /\
  (forall ret w', r = Some (ret, w') ->
     (is_Some of_node /\ i2s_node = None ->
        ret = - SimpleCard.ENODEV /\
        SimpleCard.registered w' = SimpleCard.registered w /\
        SimpleCard.card w' =
          SimpleCard.Card true (Some "snd_pamir_ai_soundcard") true true) /\
     (of_node = None \/ is_Some i2s_node ->
        ret = register_ret /\
        SimpleCard.registered w' = Some (SimpleCard.card w', SimpleCard.link w') /\
        (SimpleCard.klog w' = SimpleCard.klog w \/
         SimpleCard.klog w' = SimpleCard.klog w ++
           [Kmsg KERN_ERR "Failed to register card %d\n" [ret]]) /\
        (SimpleCard.klog w' = SimpleCard.klog w <->
           ret = 0 \/ ret = - SimpleCard.EPROBE_DEFER)) /\
     (of_node = None ->
        SimpleCard.link w' = SimpleCard.link w /\
        SimpleCard.dai_link (SimpleCard.card w') = SimpleCard.dai_link (SimpleCard.card w)) /\
     (is_Some of_node ->
        is_Some (SimpleCard.init (SimpleCard.link w')) /\
        is_Some (SimpleCard.ops (SimpleCard.link w')) /\
        (is_Some (SimpleCard.init (SimpleCard.link w)) ->
           SimpleCard.init (SimpleCard.link w') = SimpleCard.init (SimpleCard.link w)) /\
        (is_Some (SimpleCard.ops (SimpleCard.link w)) ->
           SimpleCard.ops (SimpleCard.link w') = SimpleCard.ops (SimpleCard.link w)) /\
        (is_Some i2s_node ->
           SimpleCard.cpus_of_node (SimpleCard.link w') = i2s_node /\
           SimpleCard.platforms_of_node (SimpleCard.link w') = i2s_node))).
Proof.
  cbv zeta. unfold SimpleCard.snd_pamir_ai_simple_probe. cbv zeta.
  assert (Hlog : forall (l : list kmsg) m, l ++ [m] <> l).
  { intros l m E. apply (f_equal length) in E. rewrite length_app in E. cbn in E. lia. }
  destruct of_node as [n|].
  - destruct matched.
    2:{ split; [split; [by eauto | done]|]. intros ret w' [=]. }
    split.
    { split; [|by intros [_ ?]]. intros E. exfalso.
      destruct i2s_node; [|discriminate].
      by destruct (negb (register_ret =? 0) &&
                   negb (register_ret =? - SimpleCard.EPROBE_DEFER)). }
    intros ret w' Hr.
    destruct i2s_node as [i2s|].
    + destruct (negb (register_ret =? 0) && negb (register_ret =? - SimpleCard.EPROBE_DEFER))
        eqn:Hb; injection Hr as <- <-; cbn [SimpleCard.link SimpleCard.card
          SimpleCard.registered SimpleCard.klog SimpleCard.init SimpleCard.ops
          SimpleCard.cpus_of_node SimpleCard.platforms_of_node].
      * apply andb_true_iff in Hb as [H0 H1].
        apply negb_true_iff, Z.eqb_neq in H0, H1.
        split; [by intros [_ [=]]|]. split.
        { intros _. split; [done|]. split; [done|]. split; [by right|].
          split; [intros E; by apply Hlog in E | lia]. }
        split; [by intros [=]|]. intros _.
        split; [by destruct (SimpleCard.init (SimpleCard.link w)); eauto|].
        split; [by destruct (SimpleCard.ops (SimpleCard.link w)); eauto|].
        split; [by intros [? ->]|]. split; [by intros [? ->]|]. done.
      * apply andb_false_iff in Hb.
        assert (register_ret = 0 \/ register_ret = - SimpleCard.EPROBE_DEFER).
        { destruct Hb as [Hb|Hb]; apply negb_false_iff, Z.eqb_eq in Hb; auto. }
        split; [by intros [_ [=]]|]. split.
        { intros _. split; [done|]. split; [done|]. split; [by left|]. done. }
        split; [by intros [=]|]. intros _.
        split; [by destruct (SimpleCard.init (SimpleCard.link w)); eauto|].
        split; [by destruct (SimpleCard.ops (SimpleCard.link w)); eauto|].
        split; [by intros [? ->]|]. split; [by intros [? ->]|]. done.
    + injection Hr as <- <-. cbn [SimpleCard.link SimpleCard.card
          SimpleCard.registered SimpleCard.klog SimpleCard.init SimpleCard.ops
          SimpleCard.cpus_of_node SimpleCard.platforms_of_node].
      split; [done|]. split; [by intros [[=]|[? [=]]]|].
      split; [by intros [=]|]. intros _.
      split; [by destruct (SimpleCard.init (SimpleCard.link w)); eauto|].
      split; [by destruct (SimpleCard.ops (SimpleCard.link w)); eauto|].
      split; [by intros [? ->]|]. split; [by intros [? ->]|]. by intros [? [=]].
  - split; [split; [|by intros [[? [=]] _]]|].
    { by destruct (negb (register_ret =? 0) &&
                   negb (register_ret =? - SimpleCard.EPROBE_DEFER)). }
    intros ret w' Hr.
    destruct (negb (register_ret =? 0) && negb (register_ret =? - SimpleCard.EPROBE_DEFER))
      eqn:Hb; injection Hr as <- <-; cbn [SimpleCard.link SimpleCard.card
        SimpleCard.registered SimpleCard.klog SimpleCard.dai_link].
    + apply andb_true_iff in Hb as [H0 H1].
      apply negb_true_iff, Z.eqb_neq in H0, H1.
      split; [by intros [[? [=]] _]|]. split.
      { intros _. split; [done|]. split; [done|]. split; [by right|].
        split; [intros E; by apply Hlog in E | lia]. }
      split; [done|]. by intros [? [=]].
    + apply andb_false_iff in Hb.
      assert (register_ret = 0 \/ register_ret = - SimpleCard.EPROBE_DEFER).
      { destruct Hb as [Hb|Hb]; apply negb_false_iff, Z.eqb_eq in Hb; auto. }
      split; [by intros [[? [=]] _]|]. split.
      { intros _. split; [done|]. split; [done|]. split; [by left|]. done. }
      split; [done|]. by intros [? [=]].
Qed.

Lemma simple_probe_outcome_witness :
  exists w',
    SimpleCard.snd_pamir_ai_simple_probe (Some "sound") true None 0 SimpleCard.boot
      = Some (- SimpleCard.ENODEV, w') /\
    SimpleCard.registered w' = None /\
    SimpleCard.dai_link (SimpleCard.card w') = true.
Proof.
  destruct (SimpleCard.snd_pamir_ai_simple_probe (Some "sound") true None 0 SimpleCard.boot)
    as [[ret w']|] eqn:E; [|discriminate E].
  destruct (simple_probe_outcome (Some "sound") true None 0 SimpleCard.boot) as [_ H].
  cbv zeta in H. destruct (H ret w' E) as (H1 & _).
  destruct H1 as (-> & Hr & Hc); [by eauto|].
  exists w'. split; [reflexivity|]. split; [exact Hr|]. by rewrite Hc.
Defined.

Lemma missing_deps_step (a b : bool) (m : string) (x : Ascii.ascii) (lit : string) :
  String.eqb (if a then if b then m +:+ String x lit else m else m) "" =
  negb (a && b) && String.eqb m "".
Proof. by destruct a, b, m. Qed.

Lemma missing_deps_step1 (a : bool) (m : string) (x : Ascii.ascii) (lit : string) :
  String.eqb (if a then m +:+ String x lit else m) "" = negb a && String.eqb m "".
Proof. by destruct a, m. Qed.

Lemma missing_deps_empty (h : BuildDeb.host) :
  BuildDeb.check_build_dependencies h =
  let lacks tool pkg := negb (BuildDeb.on_path h tool) && negb (BuildDeb.installed h pkg) in
  if lacks "dpkg-buildpackage" "dpkg-dev" || lacks "dch" "devscripts" ||
     negb (BuildDeb.installed h "debhelper") || lacks "fakeroot" "fakeroot" ||
     String.eqb (BuildDeb.detect_project_type h) "dkms" &&
       lacks "dtc" "device-tree-compiler"
  then (1, snd (BuildDeb.check_build_dependencies h))
  else (0, []).
Proof.
  cbv zeta. unfold BuildDeb.check_build_dependencies at 1. cbv zeta.
  match goal with |- (if negb ?e then _ else _) = _ =>
    assert (E : e =
      negb (negb (BuildDeb.on_path h "dpkg-buildpackage") &&
              negb (BuildDeb.installed h "dpkg-dev") ||
            negb (BuildDeb.on_path h "dch") && negb (BuildDeb.installed h "devscripts") ||
            negb (BuildDeb.installed h "debhelper") ||
            negb (BuildDeb.on_path h "fakeroot") && negb (BuildDeb.installed h "fakeroot") ||
            String.eqb (BuildDeb.detect_project_type h) "dkms" &&
              (negb (BuildDeb.on_path h "dtc") &&
               negb (BuildDeb.installed h "device-tree-compiler")))) end.
  { destruct (String.eqb (BuildDeb.detect_project_type h) "dkms");
      repeat (rewrite missing_deps_step || rewrite missing_deps_step1);
      cbn [String.eqb];
      repeat match goal with
             | |- context [BuildDeb.on_path h ?t] => destruct (BuildDeb.on_path h t)
             | |- context [BuildDeb.installed h ?t] => destruct (BuildDeb.installed h t)
             end; reflexivity. }
  unfold BuildDeb.check_build_dependencies. cbv zeta. rewrite E, negb_involutive.
  by destruct (_ || _).
Qed.

(** X20: what the dependency check asks for.  It answers 0 or 1, and 0
    exactly when [dpkg-buildpackage], [dch] and [fakeroot] are each on the
    path or installed as their package, [debhelper] is installed as a
    package, and, in a DKMS project only, [dtc] is on the path or its
    package installed.  A project counts as DKMS only when [dkms.conf]
    exists and neither [pyproject.toml] nor [package.json] does.  The
    check logs nothing when it passes and two lines when it fails. *)
Theorem check_build_dependencies_complete (h : BuildDeb.host) :
  let have tool pkg :=
    BuildDeb.on_path h tool = true \/ BuildDeb.installed h pkg = true in
  let r := BuildDeb.check_build_dependencies h in
  let dkms := BuildDeb.detect_project_type h = "dkms" in
  (fst r = 0 /\ snd r = [] \/ fst r = 1 /\ length (snd r) = 2%nat) /\
  (fst r = 0 <->
     have "dpkg-buildpackage" "dpkg-dev" /\ have "dch" "devscripts" /\
     BuildDeb.installed h "debhelper" = true /\ have "fakeroot" "fakeroot" /\
     (dkms -> have "dtc" "device-tree-compiler")) /\
  (dkms <->
     BuildDeb.pyproject_toml h = None /\ BuildDeb.package_json h = false /\
     BuildDeb.dkms_conf h = true).
Proof.
  cbv zeta. split; [|split].
  - unfold BuildDeb.check_build_dependencies. cbv zeta.
    match goal with |- context [negb (String.eqb ?m "")] =>
      destruct (negb (String.eqb m "")) end; cbn [fst snd length]; tauto.
  - rewrite missing_deps_empty. cbv zeta.
    rewrite <- (String.eqb_eq (BuildDeb.detect_project_type h) "dkms").
    destruct (String.eqb (BuildDeb.detect_project_type h) "dkms");
      destruct (BuildDeb.on_path h "dpkg-buildpackage"),
        (BuildDeb.installed h "dpkg-dev"); cbn [negb andb orb fst];
      try (split; [discriminate | by intros ([[=]|[=]] & _)]);
      destruct (BuildDeb.on_path h "dch"), (BuildDeb.installed h "devscripts");
      cbn [negb andb orb fst];
      try (split; [discriminate | by intros (_ & [[=]|[=]] & _)]);
      destruct (BuildDeb.installed h "debhelper"); cbn [negb andb orb fst];
      try (split; [discriminate | by intros (_ & _ & [=] & _)]);
      destruct (BuildDeb.on_path h "fakeroot"), (BuildDeb.installed h "fakeroot");
      cbn [negb andb orb fst];
      try (split; [discriminate | by intros (_ & _ & _ & [[=]|[=]] & _)]);
      destruct (BuildDeb.on_path h "dtc"), (BuildDeb.installed h "device-tree-compiler");
      cbn [negb andb orb fst];
      try (split; [discriminate | intros (_ & _ & _ & _ & H); by destruct (H eq_refl)]);
      (split; [|done]); intros _; intuition discriminate.
  - unfold BuildDeb.detect_project_type.
    destruct (BuildDeb.pyproject_toml h) as [content|].
    + rewrite bool_decide_eq_true_2 by eauto.
      destruct (contains "uv" content); split; try discriminate; by intros [[=] _].
    + rewrite bool_decide_eq_false_2 by (by intros [? [=]]).
      destruct (BuildDeb.package_json h), (BuildDeb.dkms_conf h),
        (BuildDeb.systemd_dir h || BuildDeb.service_listed h);
        split; try discriminate; try (by intros (_ & [=] & _));
        try (by intros (_ & _ & [=])); done.
Qed.

Lemma check_build_dependencies_complete_witness :
  fst (BuildDeb.check_build_dependencies BuildDeb.mixed_checkout) = 0.
Proof.
  destruct (check_build_dependencies_complete BuildDeb.mixed_checkout) as (_ & H & Hd).
  cbv zeta in H, Hd. apply H.
  split; [by left|]. split; [by left|]. split; [reflexivity|]. split; [by left|].
  intros Hk. apply Hd in Hk as ([=] & _).
Defined.
